(** * lazynetgen: the topology builder of [lazynetgen/main.py]

    A shallow embedding of the VLAN allocator, the routing table, the
    device classes ([Switch], [Distribution], [Access]) and the [Site]
    builder, followed by the properties of the build.

    The Python code mutates one module-level counter ([vlans_counter]) and
    raises exceptions; both are threaded explicitly through a state-and-
    exception monad.  An exception leaves the state as it was when it was
    raised, as in Python. *)

From Stdlib Require Import ZArith List Bool Lia String Ascii DecimalString.
From Stdlib Require DecimalPos DecimalZ.
Import ListNotations.

Local Open Scope Z_scope.

(* ================================================================== *)
(** * Exceptions, state and the monad *)

(** The exceptions the modelled code can raise.  [AddressValueError],
    [NetmaskValueError] and [HostBitsError] (a plain [ValueError] of
    [ipaddress]) come from the address library, [IndexError] from indexing
    a network or a list, [AssertionError] from [assert], [ValueError] from
    [list.remove], [OverflowError] from true division of integers. *)
Inductive exn : Type :=
| AddressValueError
| NetmaskValueError
| HostBitsError
| IndexError
| AssertionError
| ValueError
| OverflowError.

Inductive result (A : Type) : Type :=
| Ok (a : A)
| Err (e : exn).
Arguments Ok {A} a.
Arguments Err {A} e.

Definition result_map {A B} (f : A -> B) (r : result A) : result B :=
  match r with
  | Ok a => Ok (f a)
  | Err e => Err e
  end.

(** The process state: the global [vlans_counter] of main.py, and the
    supply of object identities handed to [Route] instances ([Route]
    defines no [__eq__], so its instances are compared by identity). *)
Record State : Type := mkState {
  vlans_counter : Z;
  next_oid : nat
}.

(** The state of a freshly imported module: [vlans_counter = 0]. *)
Definition fresh : State := mkState 0 0.

Definition M (A : Type) : Type := State -> result A * State.

Definition ret {A} (a : A) : M A := fun st => (Ok a, st).

Definition raise {A} (e : exn) : M A := fun st => (Err e, st).

Definition bind {A B} (m : M A) (f : A -> M B) : M B :=
  fun st =>
    match m st with
    | (Ok a, st') => f a st'
    | (Err e, st') => (Err e, st')
    end.

Definition lift {A} (r : result A) : M A := fun st => (r, st).

Declare Scope monad_scope.
Delimit Scope monad_scope with monad.
Notation "x <- m ;; k" := (bind m (fun x => k))
  (at level 61, m at next level, right associativity) : monad_scope.
Notation "' pat <- m ;; k" := (bind m (fun x => match x with pat => k end))
  (at level 61, pat pattern, m at next level, right associativity) : monad_scope.
Local Open Scope monad_scope.

(** [for x in l: acc = body x acc], the loop carrying the objects it
    mutates. *)
Fixpoint forM {A S} (l : list A) (body : A -> S -> M S) (acc : S) : M S :=
  match l with
  | [] => ret acc
  | x :: l' => acc' <- body x acc ;; forM l' body acc'
  end.

(** Python's [range(lo, hi)]; empty when [hi <= lo]. *)
Definition range (lo hi : Z) : list Z :=
  map (fun i => lo + Z.of_nat i) (seq 0 (Z.to_nat (hi - lo))).

(** [l[i]] on a Python list, for an index [i >= 0]. *)
Definition index {A} (l : list A) (i : nat) : M A :=
  match nth_error l i with
  | Some x => ret x
  | None => raise IndexError
  end.

(** [str(n)] of an integer. *)
Definition str (n : Z) : string := NilZero.string_of_int (Z.to_int n).

(* ================================================================== *)
(** * The address library, as far as main.py uses it *)

Record IPv4Address : Type := mkAddr { addr_int : Z }.

Record IPv4Network : Type := mkNet {
  network_address : IPv4Address;
  prefixlen : Z
}.

Definition ALL_ONES : Z := 2 ^ 32 - 1.

(** [IPv4Address(n)] for an integer [n]. *)
Definition IPv4Address_of_int (n : Z) : result IPv4Address :=
  if (n <? 0) || (ALL_ONES <? n) then Err AddressValueError else Ok (mkAddr n).

Definition hostmask (net : IPv4Network) : Z := 2 ^ (32 - prefixlen net) - 1.

Definition broadcast_address (net : IPv4Network) : Z :=
  Z.lor (addr_int (network_address net)) (hostmask net).

(** One decimal octet of a dotted quad. *)
Definition parse_octet (o : Z) : result Z :=
  if (o <? 0) || (255 <? o) then Err AddressValueError else Ok o.

(** [IPv4Network(f"{o1}.{o2}.{o3}.{o4}/{len}")]: each octet is checked,
    then the prefix length, then (strict mode) that no host bit is set. *)
Definition IPv4Network_of (o1 o2 o3 o4 len : Z) : result IPv4Network :=
  match parse_octet o1, parse_octet o2, parse_octet o3, parse_octet o4 with
  | Ok a, Ok b, Ok c, Ok d =>
      if (len <? 0) || (32 <? len) then Err NetmaskValueError
      else
        let packed := ((a * 256 + b) * 256 + c) * 256 + d in
        let net := mkNet (mkAddr packed) len in
        if Z.land packed (hostmask net) =? 0 then Ok net else Err HostBitsError
  | Err e, _, _, _ => Err e
  | _, Err e, _, _ => Err e
  | _, _, Err e, _ => Err e
  | _, _, _, Err e => Err e
  end.

(** [net[n]], [_BaseNetwork.__getitem__]. *)
Definition IPv4Network_getitem (net : IPv4Network) (n : Z) : result IPv4Address :=
  let network := addr_int (network_address net) in
  let broadcast := broadcast_address net in
  if 0 <=? n then
    if broadcast <? network + n then Err IndexError
    else IPv4Address_of_int (network + n)
  else
    let n := n + 1 in
    if broadcast + n <? network then Err IndexError
    else IPv4Address_of_int (broadcast + n).

(** [a == b] on addresses and on networks: by value. *)
Definition IPv4Address_eqb (a b : IPv4Address) : bool :=
  addr_int a =? addr_int b.

Definition IPv4Network_eqb (a b : IPv4Network) : bool :=
  IPv4Address_eqb (network_address a) (network_address b)
  && (prefixlen a =? prefixlen b).

(** [a.overlaps(b)]. *)
Definition IPv4Network_contains (net : IPv4Network) (a : Z) : bool :=
  (addr_int (network_address net) <=? a) && (a <=? broadcast_address net).

Definition overlaps (a b : IPv4Network) : bool :=
  IPv4Network_contains b (addr_int (network_address a))
  || IPv4Network_contains b (broadcast_address a)
  || IPv4Network_contains a (addr_int (network_address b))
  || IPv4Network_contains a (broadcast_address b).

(** [str(address)] and [str(network)]. *)
Definition IPv4Address_str (a : IPv4Address) : string :=
  let n := addr_int a in
  (str (n / 16777216) ++ "." ++ str ((n / 65536) mod 256) ++ "."
   ++ str ((n / 256) mod 256) ++ "." ++ str (n mod 256))%string.

Definition IPv4Network_str (net : IPv4Network) : string :=
  (IPv4Address_str (network_address net) ++ "/" ++ str (prefixlen net))%string.

(* ================================================================== *)
(** * VLAN *)

Record VLAN : Type := mkVLAN {
  vlan_id : Z;            (* self.id *)
  network : IPv4Network   (* self.network *)
}.

(** Above this magnitude [x / 256] no longer fits a float and Python
    raises [OverflowError]. *)
Definition float_div_limit : Z := Eval vm_compute in 2 ^ 1032 - 2 ^ 978.

(** [int(x / 256)]: true division, then truncation toward zero.  The
    quotient is exact wherever it is below [2^53]; above that the float is
    rounded but stays far above 255, so the octet check that follows fails
    in the same way. *)
Definition int_truediv_256 (x : Z) : result Z :=
  if Z.abs x <? float_div_limit then Ok (Z.quot x 256) else Err OverflowError.

(** [VLAN.__init__]: the counter is incremented before anything can fail. *)
Definition VLAN_init : M VLAN :=
  fun st =>
    let st' := mkState (vlans_counter st + 1) (next_oid st) in
    let id := vlans_counter st' in
    (second_octet <- lift (int_truediv_256 id) ;;
     let third_octet := id mod 256 in
     net <- lift (IPv4Network_of 10 second_octet third_octet 0 24) ;;
     ret (mkVLAN id net)) st'.

(* ================================================================== *)
(** * RoutedVLAN, Route, RoutingTable *)

Record RoutedVLAN : Type := mkRoutedVLAN {
  vlan : VLAN;
  ip_address : IPv4Address
}.

(** A [Route] object.  The class defines neither [__eq__] nor [__hash__]:
    [==], [in] and [list.remove] compare instances by identity, which
    [route_oid] records.  No method of the source reassigns a field, so
    the fields travel with the identity. *)
Record Route : Type := mkRoute {
  route_oid : nat;
  dst_network : IPv4Network;
  next_hop : IPv4Address
}.

(** [Route(dst_network, next_hop)]: a new object. *)
Definition Route_init (dst : IPv4Network) (hop : IPv4Address) : M Route :=
  fun st =>
    (Ok (mkRoute (next_oid st) dst hop),
     mkState (vlans_counter st) (S (next_oid st))).

(** [r1 == r2], the default [object.__eq__]. *)
Definition Route_eqb (r1 r2 : Route) : bool :=
  Nat.eqb (route_oid r1) (route_oid r2).

(** [Route.__repr__]. *)
Definition Route_repr (r : Route) : string :=
  (IPv4Network_str (dst_network r) ++ " via " ++ IPv4Address_str (next_hop r))%string.

Record RoutingTable : Type := mkRoutingTable {
  routes : list Route
}.

Definition RoutingTable_init : RoutingTable := mkRoutingTable [].

(** [RoutingTable.add]. *)
Definition RoutingTable_add (rt : RoutingTable) (route : Route) : RoutingTable :=
  mkRoutingTable (routes rt ++ [route]).

(** [route in routes]. *)
Definition list_contains (route : Route) (l : list Route) : bool :=
  existsb (fun x => Route_eqb x route) l.

(** [routes.remove(route)]: drops the first item equal to [route],
    [ValueError] when there is none. *)
Fixpoint list_remove (route : Route) (l : list Route) : result (list Route) :=
  match l with
  | [] => Err ValueError
  | x :: l' =>
      if Route_eqb x route then Ok l'
      else result_map (cons x) (list_remove route l')
  end.

(** [RoutingTable.remove].  [optimize] is Python's [-O] switch, under
    which the [assert] statement is not executed. *)
Definition RoutingTable_remove (optimize : bool) (rt : RoutingTable) (route : Route)
  : result RoutingTable :=
  if negb optimize && negb (list_contains route (routes rt))
  then Err AssertionError
  else result_map mkRoutingTable (list_remove route (routes rt)).

(** [RoutingTable.__repr__]: ["\n".join(...)]. *)
Definition newline : string := String (ascii_of_nat 10) EmptyString.

Definition RoutingTable_repr (rt : RoutingTable) : string :=
  String.concat newline (map Route_repr (routes rt)).

(* ================================================================== *)
(** * Switch, Access, Distribution *)

Record Switch : Type := mkSwitch {
  name : string;
  routed_vlans : list RoutedVLAN;
  routing_table : RoutingTable
}.

(** [Switch.__init__]. *)
Definition Switch_init (nm : string) : M Switch :=
  vl <- VLAN_init ;;
  ip <- lift (IPv4Network_getitem (network vl) 1) ;;
  ret (mkSwitch nm [mkRoutedVLAN vl ip] RoutingTable_init).

(** [sw.routed_vlans.append(rv)] and [sw.routing_table.add(route)]. *)
Definition append_routed_vlan (sw : Switch) (rv : RoutedVLAN) : Switch :=
  mkSwitch (name sw) (routed_vlans sw ++ [rv]) (routing_table sw).

Definition add_route (sw : Switch) (route : Route) : Switch :=
  mkSwitch (name sw) (routed_vlans sw) (RoutingTable_add (routing_table sw) route).

(** [Access(Switch)].  The back reference [self.distribution] is read
    nowhere and is left out. *)
Record Access : Type := mkAccess {
  access_switch :> Switch
}.

(** [Access.__init__]. *)
Definition Access_init (nm : string) (distribution_vlan : VLAN)
    (distribution_ip : IPv4Address) : M Access :=
  self <- Switch_init nm ;;
  ret (mkAccess
         (append_routed_vlan self (mkRoutedVLAN distribution_vlan distribution_ip))).

(** [Distribution(Switch)].  The back reference [self.site] is read
    nowhere and is left out. *)
Record Distribution : Type := mkDistribution {
  distribution_switch :> Switch;
  accesses : list Access
}.

(** The [0.0.0.0/0] network, [IPv4Network("0.0.0.0/0")]. *)
Definition default_network : result IPv4Network := IPv4Network_of 0 0 0 0 0.

(** One turn of the loop of [Distribution.__init__]. *)
Definition Distribution_body (n : Z) (self : Distribution) : M Distribution :=
  let access_name := (name self ++ "-access-" ++ str n)%string in
  own <- index (routed_vlans self) 0 ;;
  rv0 <- index (routed_vlans self) 0 ;;
  uplink_ip <- lift (IPv4Network_getitem (network (vlan rv0)) (n + 2)) ;;
  access <- Access_init access_name (vlan own) uplink_ip ;;
  arv0 <- index (routed_vlans access) 0 ;;
  rv0 <- index (routed_vlans self) 0 ;;
  hop <- lift (IPv4Network_getitem (network (vlan rv0)) (n + 2)) ;;
  route <- Route_init (network (vlan arv0)) hop ;;
  let self := mkDistribution (add_route self route) (accesses self) in
  (* default route on access should point to distribution *)
  dflt <- lift default_network ;;
  rv0 <- index (routed_vlans self) 0 ;;
  default_route <- Route_init dflt (ip_address rv0) ;;
  let access := mkAccess (add_route access default_route) in
  ret (mkDistribution self (accesses self ++ [access])).

(** [Distribution.__init__]. *)
Definition Distribution_init (nm : string) (num_access : Z) (wan_vlan : VLAN)
    (wan_ip : IPv4Address) : M Distribution :=
  sw <- Switch_init nm ;;
  let self :=
    mkDistribution (append_routed_vlan sw (mkRoutedVLAN wan_vlan wan_ip)) [] in
  forM (range 0 num_access) Distribution_body self.

(* ================================================================== *)
(** * Site *)

Record Site : Type := mkSite {
  site_name : string;     (* self.name *)
  wan : Switch;
  distributions : list Distribution
}.

(** The inner loop of [Site.__init__]: every route of the distribution
    that is not a default route is copied into the WAN table, its next hop
    rewritten to [wan.routed_vlans[0].vlan.network[2+n]]. *)
Definition redistribute_body (n : Z) (routing_entry : Route) (wan : Switch) : M Switch :=
  dflt <- lift default_network ;;
  if IPv4Network_eqb (dst_network routing_entry) dflt then
    (* skip default routes *)
    ret wan
  else
    rv0 <- index (routed_vlans wan) 0 ;;
    hop <- lift (IPv4Network_getitem (network (vlan rv0)) (2 + n)) ;;
    route <- Route_init (dst_network routing_entry) hop ;;
    ret (add_route wan route).

(** One turn of the outer loop of [Site.__init__]; the loop carries the
    WAN switch and [self.distributions]. *)
Definition Site_body (site : string) (num_access : Z) (n : Z)
    (acc : Switch * list Distribution) : M (Switch * list Distribution) :=
  let '(wan, distributions) := acc in
  let distribution_name := (site ++ "-dist-" ++ str n)%string in
  own <- index (routed_vlans wan) 0 ;;
  rv0 <- index (routed_vlans wan) 0 ;;
  wan_ip <- lift (IPv4Network_getitem (network (vlan rv0)) (2 + n)) ;;
  distribution <- Distribution_init distribution_name num_access (vlan own) wan_ip ;;
  (* add default route on distribution towards WAN router *)
  dflt <- lift default_network ;;
  rv0 <- index (routed_vlans wan) 0 ;;
  default_route <- Route_init dflt (ip_address rv0) ;;
  let distribution :=
    mkDistribution (add_route distribution default_route) (accesses distribution) in
  (* add route to distribution vlan and all vlans underneath *)
  wan <- forM (routes (routing_table distribution)) (redistribute_body n) wan ;;
  ret (wan, distributions ++ [distribution]).

(** [Site.__init__]. *)
Definition Site_init (nm : string) (num_distributions num_access : Z) : M Site :=
  wan <- Switch_init (nm ++ "-wan-0")%string ;;
  '(wan, distributions) <-
     forM (range 0 num_distributions) (Site_body nm num_access) (wan, []) ;;
  ret (mkSite nm wan distributions).

(* ================================================================== *)
(** * Reading a finished site *)

(** Dotted quads: [ip 10 0 1 2] is [10.0.1.2], [cidr 10 0 1 0 24] is
    [10.0.1.0/24], and [net0] is [0.0.0.0/0], the destination of a
    default route. *)
Definition ip (a b c d : Z) : IPv4Address := mkAddr (((a * 256 + b) * 256 + c) * 256 + d).

Definition cidr (a b c d len : Z) : IPv4Network := mkNet (ip a b c d) len.

Definition net0 : IPv4Network := mkNet (mkAddr 0) 0.

(** The subnet of VLAN [k]: [10.(k/256).(k%256).0/24]. *)
Definition subnet_of_id (k : Z) : IPv4Network := cidr 10 (k / 256) (k mod 256) 0 24.

(** Every device of a site: the WAN switch, then each distribution
    followed by its accesses. *)
Definition distribution_devices (d : Distribution) : list Switch :=
  distribution_switch d :: map access_switch (accesses d).

Definition devices (s : Site) : list Switch :=
  wan s :: flat_map distribution_devices (distributions s).

(** The VLAN a device allocated for itself, [routed_vlans[0].vlan], and
    the VLANs of all the devices of a site. *)
Definition own_vlans (sw : Switch) : list VLAN :=
  map vlan (firstn 1 (routed_vlans sw)).

Definition allocated_vlans (s : Site) : list VLAN :=
  flat_map own_vlans (devices s).

(** [routed_vlans[0].vlan.network] and [routed_vlans[1].ip_address] of a
    list of bindings. *)
Definition first_network (rvs : list RoutedVLAN) : option IPv4Network :=
  option_map (fun rv => network (vlan rv)) (nth_error rvs 0).

Definition second_address (rvs : list RoutedVLAN) : option IPv4Address :=
  option_map ip_address (nth_error rvs 1).

(** The own subnet of a device and the address of its uplink. *)
Definition own_network (sw : Switch) : option IPv4Network :=
  first_network (routed_vlans sw).

Definition uplink_address (sw : Switch) : option IPv4Address :=
  second_address (routed_vlans sw).

(** Every access of a site with the distribution that owns it, in the
    order of construction. *)
Definition owned_accesses (s : Site) : list (Access * Distribution) :=
  flat_map (fun d => map (fun a => (a, d)) (accesses d)) (distributions s).

(** [r] is the route to the own subnet of an access through the uplink
    address of the distribution that owns it. *)
Definition learnt_via (r : Route) (ad : Access * Distribution) : Prop :=
  own_network (fst ad) = Some (dst_network r)
  /\ uplink_address (snd ad) = Some (next_hop r).

(** The own binding of a device, in a build that moved the counter from
    [c] to [c']: the zeroth binding is a VLAN [k] allocated in between,
    its subnet is [10.(k/256).(k%256).0/24], and the bound address is
    the [.1] of that subnet, [network[1]]. *)
Definition own_binding (c c' : Z) (rvs : list RoutedVLAN) : Prop :=
  exists k own_ip,
    c < k <= c'
    /\ nth_error rvs 0 = Some (mkRoutedVLAN (mkVLAN k (subnet_of_id k)) own_ip)
    /\ own_ip = ip 10 (k / 256) (k mod 256) 1
    /\ IPv4Network_getitem (subnet_of_id k) 1 = Ok own_ip
    /\ IPv4Network_str (subnet_of_id k)
       = ("10." ++ str (k / 256) ++ "." ++ str (k mod 256) ++ ".0/24")%string.

(** [n] consecutive integers from [lo]. *)
Definition zrange (lo : Z) (n : nat) : list Z :=
  map (fun i => lo + Z.of_nat i) (seq 0 n).

(** The state once one more VLAN has been allocated. *)
Definition bump (st : State) : State :=
  mkState (vlans_counter st + 1) (next_oid st).

(** The inputs under which a build started at counter [c] runs to its
    end: at most 254 distributions, at most 254 accesses in each, and no
    VLAN id above 65535. *)
Definition fits (c : Z) (num_distributions num_access : Z) : Prop :=
  let d := Z.max num_distributions 0 in
  let a := Z.max num_access 0 in
  d <= 254 /\ (1 <= d -> a <= 254) /\ c + 1 + d * (1 + a) <= 65535.

(* ================================================================== *)
(** * What a renderer reads: devices without object identities *)

(** A route as the pair [(destination, next hop)]. *)
Definition route_view (r : Route) : IPv4Network * IPv4Address :=
  (dst_network r, next_hop r).

Record SwitchView : Type := mkSwitchView {
  v_name : string;
  v_routed_vlans : list RoutedVLAN;
  v_routes : list (IPv4Network * IPv4Address)
}.

Record DistributionView : Type := mkDistributionView {
  v_switch : SwitchView;
  v_accesses : list SwitchView
}.

Record SiteView : Type := mkSiteView {
  v_site_name : string;
  v_wan : SwitchView;
  v_distributions : list DistributionView
}.

Definition switch_view (sw : Switch) : SwitchView :=
  mkSwitchView (name sw) (routed_vlans sw) (map route_view (routes (routing_table sw))).

Definition access_view (a : Access) : SwitchView := switch_view a.

Definition distribution_view (d : Distribution) : DistributionView :=
  mkDistributionView (switch_view d) (map access_view (accesses d)).

Definition site_view (s : Site) : SiteView :=
  mkSiteView (site_name s) (switch_view (wan s))
             (map distribution_view (distributions s)).

(** [devices], [own_vlans], [owned_accesses] and [learnt_via] on views. *)
Definition view_devices (sv : SiteView) : list SwitchView :=
  v_wan sv :: flat_map (fun dv => v_switch dv :: v_accesses dv) (v_distributions sv).

Definition view_own_vlans (sv : SwitchView) : list VLAN :=
  map vlan (firstn 1 (v_routed_vlans sv)).

Definition view_owned_accesses (dvs : list DistributionView)
  : list (SwitchView * DistributionView) :=
  flat_map (fun dv => map (fun av => (av, dv)) (v_accesses dv)) dvs.

Definition view_learnt_via (v : IPv4Network * IPv4Address)
    (p : SwitchView * DistributionView) : Prop :=
  first_network (v_routed_vlans (fst p)) = Some (fst v)
  /\ second_address (v_routed_vlans (v_switch (snd p))) = Some (snd v).

(* ================================================================== *)
(** * Closed forms used in the proofs *)

(** The network [10.(k/256).(k%256).0/24] of VLAN [k] and its [i]-th
    address, as integers. *)
Definition net24 (k : Z) : IPv4Network := mkNet (mkAddr (167772160 + 256 * k)) 24.

Definition host (k i : Z) : IPv4Address := mkAddr (167772160 + 256 * k + i).

Definition vlan_of (k : Z) : VLAN := mkVLAN k (net24 k).

Definition is_default (dst : IPv4Network) : bool := IPv4Network_eqb dst net0.

(** The first [k] naturals as integers, [list(range(k))]. *)
Definition upto (k : nat) : list Z := map Z.of_nat (seq 0 k).

(** Access [m] under the distribution whose own VLAN is [d]. *)
Definition exp_access (dname : string) (d m : Z) : SwitchView :=
  mkSwitchView (dname ++ "-access-" ++ str m)%string
    [mkRoutedVLAN (vlan_of (d + 1 + m)) (host (d + 1 + m) 1);
     mkRoutedVLAN (vlan_of d) (host d (m + 2))]
    [(net0, host d 1)].

(** The routes a distribution with own VLAN [d] has learnt from its first
    [k] accesses. *)
Definition exp_access_routes (d : Z) (k : nat) : list (IPv4Network * IPv4Address) :=
  map (fun m => (net24 (d + 1 + m), host d (m + 2))) (upto k).

(** The distribution after [k] turns of its loop. *)
Definition exp_distribution (dname : string) (d : Z) (wan_vlan : VLAN)
    (wan_ip : IPv4Address) (k : nat) : DistributionView :=
  mkDistributionView
    (mkSwitchView dname
       [mkRoutedVLAN (vlan_of d) (host d 1); mkRoutedVLAN wan_vlan wan_ip]
       (exp_access_routes d k))
    (map (exp_access dname d) (upto k)).

(** Own VLAN of distribution [n] when the WAN VLAN is [w] and every
    distribution has [a] accesses. *)
Definition dist_vlan (w : Z) (a : nat) (n : Z) : Z := w + 1 + n * (1 + Z.of_nat a).

(** Distribution [n] of a finished site. *)
Definition exp_site_distribution (site : string) (w : Z) (a : nat) (n : Z)
  : DistributionView :=
  let dv :=
    exp_distribution (site ++ "-dist-" ++ str n)%string (dist_vlan w a n)
                     (vlan_of w) (host w (2 + n)) a in
  mkDistributionView
    (mkSwitchView (v_name (v_switch dv)) (v_routed_vlans (v_switch dv))
                  (v_routes (v_switch dv) ++ [(net0, host w 1)]))
    (v_accesses dv).

(** The routes the WAN switch learns from distribution [n]. *)
Definition exp_wan_routes_of (w : Z) (a : nat) (n : Z) : list (IPv4Network * IPv4Address) :=
  map (fun m => (net24 (dist_vlan w a n + 1 + m), host w (2 + n))) (upto a).

(** The WAN switch and the distributions after [k] turns of the loop of
    [Site.__init__]. *)
Definition exp_wan (site : string) (w : Z) (a : nat) (k : nat) : SwitchView :=
  mkSwitchView (site ++ "-wan-0")%string
    [mkRoutedVLAN (vlan_of w) (host w 1)]
    (flat_map (exp_wan_routes_of w a) (upto k)).

Definition exp_site (site : string) (w : Z) (a k : nat) : SiteView :=
  mkSiteView site (exp_wan site w a k)
             (map (exp_site_distribution site w a) (upto k)).

(** What the redistribution step keeps of a table, and what it makes of
    it for the WAN switch. *)
Definition non_default (v : IPv4Network * IPv4Address) : bool :=
  negb (is_default (fst v)).

Definition rewrite_hop (hop : IPv4Address) (v : IPv4Network * IPv4Address)
  : IPv4Network * IPv4Address := (fst v, hop).

(* ================================================================== *)
(** * Weakest preconditions and loop invariants *)

(** [wp m Q E st]: run from [st], [m] either returns a value and a state
    satisfying [Q], or raises an exception and leaves a state satisfying
    [E]. *)
Definition wp {A} (m : M A) (Q : A -> State -> Prop) (E : exn -> State -> Prop)
    (st : State) : Prop :=
  match m st with
  | (Ok a, st') => Q a st'
  | (Err e, st') => E e st'
  end.

(** After [k] turns of the loop of [Distribution.__init__], for the
    distribution named [dname] whose own VLAN is [d]. *)
Definition dist_inv (dname : string) (d : Z) (wan_vlan : VLAN) (wan_ip : IPv4Address)
    (k : nat) (self : Distribution) (st : State) : Prop :=
  distribution_view self = exp_distribution dname d wan_vlan wan_ip k
  /\ vlans_counter st = d + Z.of_nat k
  /\ Z.of_nat k <= 254
  /\ d + Z.of_nat k <= 65535.

(** After [k] turns of the loop of [Site.__init__], for a WAN switch
    whose own VLAN is [w] and [a] accesses per distribution. *)
Definition site_inv (site : string) (w : Z) (a : nat) (k : nat)
    (acc : Switch * list Distribution) (st : State) : Prop :=
  switch_view (fst acc) = exp_wan site w a k
  /\ map distribution_view (snd acc) = map (exp_site_distribution site w a) (upto k)
  /\ vlans_counter st = w + Z.of_nat k * (1 + Z.of_nat a)
  /\ Z.of_nat k <= 254
  /\ (1 <= Z.of_nat k -> Z.of_nat a <= 254)
  /\ w + Z.of_nat k * (1 + Z.of_nat a) <= 65535.

(* ================================================================== *)
(** * Further readings of a site *)

(** The own VLAN and own address of a device, [routed_vlans[0]], and the
    VLAN of its uplink, [routed_vlans[1].vlan]. *)
Definition own_vlan (sw : Switch) : option VLAN :=
  option_map vlan (nth_error (routed_vlans sw) 0).

Definition own_address (sw : Switch) : option IPv4Address :=
  option_map ip_address (nth_error (routed_vlans sw) 0).

Definition uplink_vlan (sw : Switch) : option VLAN :=
  option_map vlan (nth_error (routed_vlans sw) 1).

(** Every interface binding of a site, device by device. *)
Definition bindings (s : Site) : list RoutedVLAN :=
  flat_map routed_vlans (devices s).

(** [address in network], for an address of the same version. *)
Definition address_in (a : IPv4Address) (net : IPv4Network) : bool :=
  IPv4Network_contains net (addr_int a).

(** [hop] is the address of a neighbour of [sw]: it lies in the subnet
    of one of the interfaces of [sw] and is not the address of that
    interface. *)
Definition directly_connected (sw : Switch) (hop : IPv4Address) : Prop :=
  exists rv, In rv (routed_vlans sw)
             /\ address_in hop (network (vlan rv)) = true
             /\ ip_address rv <> hop.

(** [r] is the route a distribution holds for its access [a]: to the own
    subnet of [a] through the uplink address of [a]. *)
Definition route_to_access (r : Route) (a : Access) : Prop :=
  own_network a = Some (dst_network r) /\ uplink_address a = Some (next_hop r).

(** [m] never lowers the VLAN counter nor the supply of identities,
    whether it returns or raises. *)
Definition keeps_counting {A} (m : M A) : Prop :=
  forall st,
    vlans_counter st <= vlans_counter (snd (m st))
    /\ (next_oid st <= next_oid (snd (m st)))%nat.

(* ================================================================== *)
(** * Dumping a site to a directory *)

(** [os.path.join(a, b)] on a POSIX system. *)
Definition startswith_sep (s : string) : bool :=
  match s with
  | String c _ => Ascii.eqb c "/"
  | EmptyString => false
  end.

Fixpoint endswith_sep (s : string) : bool :=
  match s with
  | EmptyString => false
  | String c EmptyString => Ascii.eqb c "/"
  | String _ s' => endswith_sep s'
  end.

Definition path_join (a b : string) : string :=
  if startswith_sep b then b
  else if (match a with EmptyString => true | _ => false end) || endswith_sep a
       then (a ++ b)%string
       else (a ++ "/" ++ b)%string.

(** The calls [dump_to_director] makes to the file system:
    [os.makedirs(path, exist_ok=True)] and [open(path, "w")] followed by
    one [write].  The model is the sequence of these calls, each taken to
    succeed. *)
Inductive fs_call : Type :=
| Makedirs (path : string)
| WriteFile (path : string) (content : string).

Definition written_path (c : fs_call) : list string :=
  match c with
  | Makedirs _ => []
  | WriteFile p _ => [p]
  end.

Definition made_directory (c : fs_call) : list string :=
  match c with
  | Makedirs p => [p]
  | WriteFile _ _ => []
  end.

(** [s] has [c] among its characters. *)
Fixpoint has_char (c : ascii) (s : string) : bool :=
  match s with
  | EmptyString => false
  | String x s' => Ascii.eqb x c || has_char c s'
  end.

(** [p] is a prefix of [s], [s.startswith(p)]. *)
Definition startswith (p s : string) : Prop := exists rest, s = (p ++ rest)%string.

Section Dump.

(** The three templates of the package, which are not part of the
    sources at hand: what each renders from the data it is given. *)
Variable render_ip_route : list RoutedVLAN -> list Route -> string.
Variable render_interfaces : list RoutedVLAN -> string.
Variable render_ip_interface : list RoutedVLAN -> string.

(** [Switch.show_ip_interface], [Switch.show_interfaces],
    [Switch.show_ip_route]. *)
Definition show_ip_interface (self : Switch) : string :=
  render_ip_interface (routed_vlans self).

Definition show_interfaces (self : Switch) : string :=
  render_interfaces (routed_vlans self).

Definition show_ip_route (self : Switch) : string :=
  render_ip_route (routed_vlans self) (routes (routing_table self)).

(** [Switch.commands], in the order of the dictionary. *)
Definition commands : list (string * (Switch -> string)) :=
  [("show ip route"%string, show_ip_route);
   ("show interfaces"%string, show_interfaces);
   ("show ip interface"%string, show_ip_interface)].

(** [Switch.dump_to_director]. *)
Definition dump_to_director (self : Switch) (dir : string) : list fs_call :=
  let dir_name := path_join dir (name self) in
  Makedirs dir_name
  :: map (fun cmd : string * (Switch -> string) =>
            let (command_name, command_func) := cmd in
            let command_output := command_func self in
            let file_path := path_join dir_name command_name in
            WriteFile file_path command_output)
         commands.

(** [directory if directory else self.name]: [None] and the empty string
    are false. *)
Definition dump_target (self : Site) (directory : option string) : string :=
  match directory with
  | Some (String c d) => String c d
  | _ => site_name self
  end.

(** [Site.dump_to_directory]. *)
Definition dump_to_directory (self : Site) (directory : option string) : list fs_call :=
  let directory := dump_target self directory in
  (* WAN router *)
  dump_to_director (wan self) directory
  (* distribution switches with accesses *)
  ++ flat_map (fun distr : Distribution =>
                 dump_to_director distr directory
                 ++ flat_map (fun access : Access => dump_to_director access directory)
                             (accesses distr))
              (distributions self).

End Dump.

(* ================================================================== *)
(** * Arithmetic of the address scheme *)

Ltac zdiv := Z.to_euclidean_division_equations; lia.

Lemma hostmask_net24 k : hostmask (net24 k) = 255.
Proof. reflexivity. Qed.

Lemma land_net24 k : Z.land (167772160 + 256 * k) 255 = 0.
Proof.
  change 255 with (Z.ones 8). rewrite Z.land_ones by lia.
  change (2 ^ 8) with 256. zdiv.
Qed.

Lemma broadcast_net24 k : broadcast_address (net24 k) = 167772160 + 256 * k + 255.
Proof.
  unfold broadcast_address. rewrite hostmask_net24. cbn [net24 network_address addr_int].
  pose proof (Z.add_lor_land (167772160 + 256 * k) 255) as Hadd.
  rewrite land_net24 in Hadd. lia.
Qed.

Lemma int_truediv_256_small x :
  0 <= x <= 65535 -> int_truediv_256 x = Ok (x / 256).
Proof.
  intros H. unfold int_truediv_256.
  assert (Hlt : (Z.abs x <? float_div_limit) = true).
  { apply Z.ltb_lt. unfold float_div_limit. lia. }
  rewrite Hlt. now rewrite Z.quot_div_nonneg by lia.
Qed.

Lemma parse_octet_ok o : 0 <= o <= 255 -> parse_octet o = Ok o.
Proof.
  intros H. unfold parse_octet.
  destruct (Z.ltb_spec o 0); [lia|]. destruct (Z.ltb_spec 255 o); [lia|]. reflexivity.
Qed.

Lemma parse_octet_high o : 255 < o -> parse_octet o = Err AddressValueError.
Proof.
  intros H. unfold parse_octet.
  destruct (Z.ltb_spec 255 o); [|lia]. now rewrite orb_true_r.
Qed.

Lemma IPv4Network_of_net24 k :
  0 <= k <= 65535 -> IPv4Network_of 10 (k / 256) (k mod 256) 0 24 = Ok (net24 k).
Proof.
  intros H. unfold IPv4Network_of.
  rewrite (parse_octet_ok 10), (parse_octet_ok (k / 256)),
    (parse_octet_ok (k mod 256)), (parse_octet_ok 0) by zdiv.
  change ((24 <? 0) || (32 <? 24)) with false. cbv iota zeta.
  replace (((10 * 256 + k / 256) * 256 + k mod 256) * 256 + 0)
    with (167772160 + 256 * k) by zdiv.
  change (mkNet (mkAddr (167772160 + 256 * k)) 24) with (net24 k).
  rewrite hostmask_net24, land_net24. reflexivity.
Qed.

Lemma IPv4Network_of_high k :
  65535 < k -> IPv4Network_of 10 (k / 256) (k mod 256) 0 24 = Err AddressValueError.
Proof.
  intros H. unfold IPv4Network_of.
  rewrite (parse_octet_ok 10), (parse_octet_high (k / 256)) by zdiv.
  reflexivity.
Qed.

Lemma getitem_net24_ok k i :
  0 <= k <= 65535 -> 0 <= i <= 255 ->
  IPv4Network_getitem (net24 k) i = Ok (host k i).
Proof.
  intros Hk Hi. unfold IPv4Network_getitem. rewrite broadcast_net24.
  cbn [net24 network_address addr_int].
  destruct (Z.leb_spec 0 i); [|lia].
  destruct (Z.ltb_spec (167772160 + 256 * k + 255) (167772160 + 256 * k + i)); [lia|].
  unfold IPv4Address_of_int, ALL_ONES.
  destruct (Z.ltb_spec (167772160 + 256 * k + i) 0); [lia|].
  destruct (Z.ltb_spec (2 ^ 32 - 1) (167772160 + 256 * k + i)); [|reflexivity].
  change (2 ^ 32) with 4294967296 in *. lia.
Qed.

Lemma getitem_net24_out k i :
  255 < i -> IPv4Network_getitem (net24 k) i = Err IndexError.
Proof.
  intros Hi. unfold IPv4Network_getitem. rewrite broadcast_net24.
  cbn [net24 network_address addr_int].
  destruct (Z.leb_spec 0 i); [|lia].
  destruct (Z.ltb_spec (167772160 + 256 * k + 255) (167772160 + 256 * k + i)); [reflexivity|lia].
Qed.


Lemma net24_not_default k : is_default (net24 k) = false.
Proof. unfold is_default, IPv4Network_eqb. cbn [net24 net0 prefixlen]. apply andb_false_r. Qed.

Lemma overlaps_net24 k1 k2 : k1 <> k2 -> overlaps (net24 k1) (net24 k2) = false.
Proof.
  intros Hne. unfold overlaps, IPv4Network_contains. rewrite !broadcast_net24.
  cbn [net24 network_address addr_int].
  rewrite !orb_false_iff, !andb_false_iff, !Z.leb_gt. lia.
Qed.

Lemma default_network_ok : default_network = Ok net0.
Proof. reflexivity. Qed.

(* ================================================================== *)
(** * Rules of the weakest precondition *)

Section WP.
Context {A : Type}.
Variable Q : A -> State -> Prop.
Variable E : exn -> State -> Prop.

Lemma wp_ret (a : A) st : Q a st -> wp (ret a) Q E st.
Proof. exact (fun H => H). Qed.

Lemma wp_lift_ok (r : result A) a st : r = Ok a -> Q a st -> wp (lift r) Q E st.
Proof. intros -> H. exact H. Qed.

Lemma wp_lift_err (r : result A) e st : r = Err e -> E e st -> wp (lift r) Q E st.
Proof. intros -> H. exact H. Qed.

Lemma wp_index0 (x : A) l st : Q x st -> wp (index (x :: l) 0) Q E st.
Proof. exact (fun H => H). Qed.

Lemma wp_eq (m : M A) st r st' :
  m st = (r, st') ->
  match r with Ok a => Q a st' | Err e => E e st' end -> wp m Q E st.
Proof. unfold wp. now intros ->. Qed.
End WP.

Lemma wp_bind {A B} (m : M A) (f : A -> M B) Q E st :
  wp m (fun a st' => wp (f a) Q E st') E st -> wp (bind m f) Q E st.
Proof. unfold wp, bind. destruct (m st) as [[a|e] st']; auto. Qed.

Lemma wp_mono {A} (m : M A) (Q Q' : A -> State -> Prop) (E E' : exn -> State -> Prop) st :
  (forall a st', Q a st' -> Q' a st') ->
  (forall e st', E e st' -> E' e st') ->
  wp m Q E st -> wp m Q' E' st.
Proof. unfold wp. destruct (m st) as [[a|e] st']; auto. Qed.

Lemma forM_app {A S} (l1 l2 : list A) (body : A -> S -> M S) acc st :
  forM (l1 ++ l2) body acc st = bind (forM l1 body acc) (forM l2 body) st.
Proof.
  revert acc st. induction l1 as [|x l1 IH]; intros acc st; cbn [forM app].
  - reflexivity.
  - unfold bind in *. destruct (body x acc st) as [[acc'|e] st'].
    + apply IH.
    + reflexivity.
Qed.

(** The loop rule: an invariant [I k] that every turn [k < n] carries to
    [I (k+1)] holds after [n] turns. *)
Lemma wp_forM_seq {S} (I : nat -> S -> State -> Prop) E (body : Z -> S -> M S) n :
  forall start acc st,
    I start acc st ->
    (forall k acc st, (start <= k < start + n)%nat -> I k acc st ->
                      wp (body (Z.of_nat k) acc) (I (Datatypes.S k)) E st) ->
    wp (forM (map Z.of_nat (seq start n)) body acc) (I (start + n)%nat) E st.
Proof.
  induction n as [|n IH]; intros start acc st H0 Hstep; cbn [seq map forM].
  - rewrite Nat.add_0_r. exact H0.
  - apply wp_bind. eapply wp_mono; [| |apply (Hstep start acc st); [lia|exact H0]].
    + intros acc' st' HI. cbv beta.
      replace (start + Datatypes.S n)%nat with (Datatypes.S start + n)%nat by lia.
      apply IH; [exact HI|]. intros k acc'' st'' Hk. apply Hstep. lia.
    + auto.
Qed.

Lemma wp_forM_upto {S} (I : nat -> S -> State -> Prop) E (body : Z -> S -> M S) n acc st :
  I 0%nat acc st ->
  (forall k acc st, (k < n)%nat -> I k acc st ->
                    wp (body (Z.of_nat k) acc) (I (Datatypes.S k)) E st) ->
  wp (forM (upto n) body acc) (I n) E st.
Proof.
  intros H0 Hstep. apply (wp_forM_seq I E body n 0%nat); [exact H0|].
  intros k acc' st' Hk. apply Hstep. lia.
Qed.

Lemma range_upto n : range 0 n = upto (Z.to_nat n).
Proof.
  unfold range, upto. rewrite Z.sub_0_r. apply map_ext. intros i. lia.
Qed.

Lemma upto_S k : upto (Datatypes.S k) = upto k ++ [Z.of_nat k].
Proof. unfold upto. rewrite seq_S, map_app. reflexivity. Qed.

Lemma length_upto k : List.length (upto k) = k.
Proof. unfold upto. now rewrite length_map, length_seq. Qed.

(* ================================================================== *)
(** * The allocator and the constructors of the devices *)

Lemma VLAN_init_ok st :
  0 <= vlans_counter st -> vlans_counter st + 1 <= 65535 ->
  VLAN_init st = (Ok (vlan_of (vlans_counter st + 1)), bump st).
Proof.
  intros H0 H1. unfold VLAN_init, bind, lift, ret.
  cbn [vlans_counter]. rewrite int_truediv_256_small by lia.
  rewrite IPv4Network_of_net24 by lia. reflexivity.
Qed.

Lemma VLAN_init_high st :
  65535 <= vlans_counter st ->
  exists e, VLAN_init st = (Err e, bump st)
            /\ (e = AddressValueError \/ e = OverflowError)
            /\ (vlans_counter st + 1 < float_div_limit -> e = AddressValueError).
Proof.
  intros H. unfold VLAN_init, bind, lift, ret. cbn [vlans_counter].
  unfold int_truediv_256.
  destruct (Z.ltb_spec (Z.abs (vlans_counter st + 1)) float_div_limit) as [Hlt|Hge].
  - rewrite Z.quot_div_nonneg by lia. rewrite IPv4Network_of_high by lia.
    exists AddressValueError. auto.
  - exists OverflowError. split; [reflexivity|]. split; [now right|].
    intros Hsmall. exfalso. lia.
Qed.

Lemma wp_VLAN_init (Q : VLAN -> State -> Prop) E st :
  0 <= vlans_counter st ->
  (vlans_counter st + 1 <= 65535 -> Q (vlan_of (vlans_counter st + 1)) (bump st)) ->
  (65535 < vlans_counter st + 1 -> forall e, E e (bump st)) ->
  wp VLAN_init Q E st.
Proof.
  intros H0 HQ HE. destruct (Z_le_gt_dec (vlans_counter st + 1) 65535) as [Hle|Hgt].
  - eapply wp_eq; [apply VLAN_init_ok; lia|]. exact (HQ Hle).
  - destruct (VLAN_init_high st) as (e & Heq & _); [lia|].
    eapply wp_eq; [exact Heq|]. cbv beta iota. apply HE. lia.
Qed.

Lemma wp_Switch_init nm (Q : Switch -> State -> Prop) E st :
  0 <= vlans_counter st ->
  (vlans_counter st + 1 <= 65535 ->
   Q (mkSwitch nm [mkRoutedVLAN (vlan_of (vlans_counter st + 1))
                                (host (vlans_counter st + 1) 1)] RoutingTable_init)
     (bump st)) ->
  (65535 < vlans_counter st + 1 -> forall e, E e (bump st)) ->
  wp (Switch_init nm) Q E st.
Proof.
  intros H0 HQ HE. unfold Switch_init. apply wp_bind. apply wp_VLAN_init; auto.
  intros Hle. apply wp_bind. eapply wp_lift_ok.
  - cbn [vlan_of network]. apply getitem_net24_ok; lia.
  - apply wp_ret. auto.
Qed.

Lemma wp_Access_init nm dv dip (Q : Access -> State -> Prop) E st :
  0 <= vlans_counter st ->
  (vlans_counter st + 1 <= 65535 ->
   Q (mkAccess
        (mkSwitch nm [mkRoutedVLAN (vlan_of (vlans_counter st + 1))
                                   (host (vlans_counter st + 1) 1);
                      mkRoutedVLAN dv dip] RoutingTable_init))
     (bump st)) ->
  (65535 < vlans_counter st + 1 -> forall e, E e (bump st)) ->
  wp (Access_init nm dv dip) Q E st.
Proof.
  intros H0 HQ HE. unfold Access_init. apply wp_bind.
  apply wp_Switch_init; [exact H0| |exact HE].
  intros Hle. apply wp_ret. apply HQ. exact Hle.
Qed.

Lemma wp_Route_init dst hop (Q : Route -> State -> Prop) E st :
  Q (mkRoute (next_oid st) dst hop) (mkState (vlans_counter st) (Datatypes.S (next_oid st))) ->
  wp (Route_init dst hop) Q E st.
Proof. exact (fun H => H). Qed.

(* ================================================================== *)
(** * The loop of [Distribution.__init__] *)

Lemma distribution_view_inv nm rvs rts accs dname d wv wip k :
  distribution_view (mkDistribution (mkSwitch nm rvs (mkRoutingTable rts)) accs)
  = exp_distribution dname d wv wip k ->
  nm = dname
  /\ rvs = [mkRoutedVLAN (vlan_of d) (host d 1); mkRoutedVLAN wv wip]
  /\ map route_view rts = exp_access_routes d k
  /\ map access_view accs = map (exp_access dname d) (upto k).
Proof.
  intros H. repeat split.
  - exact (f_equal (fun v => v_name (v_switch v)) H).
  - exact (f_equal (fun v => v_routed_vlans (v_switch v)) H).
  - exact (f_equal (fun v => v_routes (v_switch v)) H).
  - exact (f_equal v_accesses H).
Qed.

Lemma Distribution_body_step dname d wv wip E k self st :
  0 <= d ->
  dist_inv dname d wv wip k self st ->
  (Z.of_nat k + 2 <= 255 /\ d + Z.of_nat k + 1 <= 65535) \/ (forall e st', E e st') ->
  wp (Distribution_body (Z.of_nat k) self) (dist_inv dname d wv wip (S k)) E st.
Proof.
  intros Hd (Hview & Hc & Hk & Hdk) HE.
  destruct self as [[nm rvs [rts]] accs].
  apply distribution_view_inv in Hview. destruct Hview as (-> & -> & Hrts & Haccs).
  unfold Distribution_body.
  cbn [distribution_switch name routed_vlans routing_table accesses].
  apply wp_bind, wp_index0. apply wp_bind, wp_index0. apply wp_bind.
  cbn [vlan vlan_of network].
  destruct (Z_le_gt_dec (Z.of_nat k + 2) 255) as [Hle|Hgt].
  - eapply wp_lift_ok; [apply getitem_net24_ok; lia|].
    apply wp_bind, wp_Access_init; [lia| |].
    + rewrite Hc. intros Hle'.
      cbn [access_switch routed_vlans].
      apply wp_bind, wp_index0. apply wp_bind, wp_index0. apply wp_bind.
      cbn [vlan vlan_of network].
      eapply wp_lift_ok; [apply getitem_net24_ok; lia|].
      apply wp_bind, wp_Route_init. apply wp_bind.
      eapply wp_lift_ok; [apply default_network_ok|].
      cbn [distribution_switch add_route routed_vlans name routing_table accesses].
      apply wp_bind, wp_index0. apply wp_bind, wp_Route_init. apply wp_ret.
      unfold dist_inv. cbn [vlans_counter bump]. repeat split; try lia.
      unfold distribution_view, exp_distribution, switch_view, exp_access_routes.
      cbn [distribution_switch accesses add_route name routed_vlans routing_table
           routes RoutingTable_add].
      rewrite upto_S, !map_app, Hrts, Haccs. cbn [map].
      unfold access_view, switch_view, exp_access, route_view, exp_access_routes.
      cbn [access_switch add_route name routed_vlans routing_table routes
           RoutingTable_add RoutingTable_init app map dst_network next_hop
           vlan ip_address].
      replace (d + Z.of_nat k + 1) with (d + 1 + Z.of_nat k) by lia.
      reflexivity.
    + rewrite Hc. intros Hgt e. destruct HE as [Hb|HE]; [lia|apply HE].
  - eapply wp_lift_err; [apply getitem_net24_out; lia|].
    destruct HE as [Hb|HE]; [lia|apply HE].
Qed.

(** [k] turns of the loop, from the state the constructor has built. *)
Lemma Distribution_loop_wp dname d wv wip E n self st :
  0 <= d ->
  dist_inv dname d wv wip 0 self st ->
  (Z.of_nat n <= 254 /\ d + Z.of_nat n <= 65535) \/ (forall e st', E e st') ->
  wp (forM (upto n) Distribution_body self) (dist_inv dname d wv wip n) E st.
Proof.
  intros Hd H0 HE. apply (wp_forM_upto (dist_inv dname d wv wip)); [exact H0|].
  intros k acc st' Hk Hinv. apply Distribution_body_step; [exact Hd|exact Hinv|].
  destruct HE as [Hb|HE]; [left; lia|right; exact HE].
Qed.

Lemma wp_Distribution_init nm num_access wv wip (Q : Distribution -> State -> Prop) E st :
  0 <= vlans_counter st ->
  (forall self st',
      dist_inv nm (vlans_counter st + 1) wv wip (Z.to_nat num_access) self st' ->
      Q self st') ->
  (Z.max num_access 0 <= 254 /\ vlans_counter st + 1 + Z.max num_access 0 <= 65535)
  \/ (forall e st', E e st') ->
  wp (Distribution_init nm num_access wv wip) Q E st.
Proof.
  intros H0 HQ HE. unfold Distribution_init. apply wp_bind.
  apply wp_Switch_init; [exact H0| |].
  - intros Hle. rewrite range_upto.
    eapply wp_mono; [exact HQ|intros e st' He; exact He|].
    apply Distribution_loop_wp.
    + lia.
    + unfold dist_inv. cbn [bump vlans_counter]. repeat split; try lia.
    + destruct HE as [Hb|HE]; [left; lia|right; exact HE].
  - intros Hgt e. destruct HE as [Hb|HE]; [lia|apply HE].
Qed.

(* ================================================================== *)
(** * The loops of [Site.__init__] *)

Lemma wp_redistribute w ip n rts :
  0 <= w <= 65535 -> 0 <= 2 + n <= 255 ->
  forall (wan : Switch) st (Q : Switch -> State -> Prop) E,
    routed_vlans wan = [mkRoutedVLAN (vlan_of w) ip] ->
    (forall wan' st',
        name wan' = name wan ->
        routed_vlans wan' = routed_vlans wan ->
        map route_view (routes (routing_table wan'))
        = map route_view (routes (routing_table wan))
          ++ map (rewrite_hop (host w (2 + n)))
                 (filter non_default (map route_view rts)) ->
        vlans_counter st' = vlans_counter st ->
        Q wan' st') ->
    wp (forM rts (redistribute_body n) wan) Q E st.
Proof.
  intros Hw Hn. induction rts as [|r rts IH]; intros wan st Q E Hrvs HQ.
  - apply wp_ret. apply HQ; auto. cbn. now rewrite app_nil_r.
  - assert (Hfilter : filter non_default (map route_view (r :: rts))
                     = if IPv4Network_eqb (dst_network r) net0
                       then filter non_default (map route_view rts)
                       else route_view r :: filter non_default (map route_view rts)).
    { cbn [map filter]. unfold non_default at 1, is_default. cbn [route_view fst].
      now destruct (IPv4Network_eqb (dst_network r) net0). }
    cbn [forM]. apply wp_bind. unfold redistribute_body at 1. apply wp_bind.
    eapply wp_lift_ok; [apply default_network_ok|].
    destruct (IPv4Network_eqb (dst_network r) net0) eqn:Hdef.
    + apply wp_ret. apply IH; [exact Hrvs|]. rewrite <- Hfilter. exact HQ.
    + apply wp_bind. rewrite Hrvs. apply wp_index0. apply wp_bind.
      cbn [vlan vlan_of network].
      eapply wp_lift_ok; [apply getitem_net24_ok; lia|].
      apply wp_bind, wp_Route_init. apply wp_ret. apply IH.
      * exact Hrvs.
      * intros wan' st' Hnm Hrv Hrt Hc. apply HQ; auto.
        rewrite Hrt, Hfilter.
        cbn [add_route routing_table routes RoutingTable_add].
        rewrite map_app, <- app_assoc. reflexivity.
Qed.

Lemma filter_non_default_routes d a h :
  filter non_default (exp_access_routes d a ++ [(net0, h)]) = exp_access_routes d a.
Proof.
  rewrite filter_app. cbn. rewrite app_nil_r.
  unfold exp_access_routes. induction (upto a) as [|m l IH]; cbn [map filter].
  - reflexivity.
  - unfold non_default at 1. cbn [fst]. rewrite net24_not_default. cbn [negb].
    now rewrite IH.
Qed.

Lemma switch_view_inv nm rvs rts (v : SwitchView) :
  switch_view (mkSwitch nm rvs (mkRoutingTable rts)) = v ->
  nm = v_name v /\ rvs = v_routed_vlans v /\ map route_view rts = v_routes v.
Proof. intros <-. repeat split. Qed.

Lemma Site_body_step site num_access w E k acc st :
  let a := Z.to_nat num_access in
  0 <= w <= 65535 ->
  site_inv site w a k acc st ->
  (Z.of_nat k + 2 <= 255 /\ Z.of_nat a <= 254
   /\ w + (Z.of_nat k + 1) * (1 + Z.of_nat a) <= 65535)
  \/ (forall e st', E e st') ->
  wp (Site_body site num_access (Z.of_nat k) acc) (site_inv site w a (S k)) E st.
Proof.
  intros a Hw (Hwan & Hdists & Hc & Hk & Ha & Hwk) HE.
  destruct acc as [[nm rvs [rts]] dists]. cbn [fst snd] in Hwan, Hdists.
  apply switch_view_inv in Hwan. cbn [exp_wan v_name v_routed_vlans v_routes] in Hwan.
  destruct Hwan as (-> & -> & Hrts).
  unfold Site_body. cbn [routed_vlans].
  apply wp_bind, wp_index0. apply wp_bind, wp_index0. apply wp_bind.
  cbn [vlan vlan_of network].
  destruct (Z_le_gt_dec (2 + Z.of_nat k) 255) as [Hle|Hgt].
  - eapply wp_lift_ok; [apply getitem_net24_ok; lia|].
    apply wp_bind, wp_Distribution_init; [lia| |].
    + intros self st' (Hview & Hc' & Ha' & Hda).
      destruct self as [[dnm drvs [drts]] accs].
      apply distribution_view_inv in Hview. destruct Hview as (-> & -> & Hdrts & Haccs).
      apply wp_bind. eapply wp_lift_ok; [apply default_network_ok|].
      apply wp_bind, wp_index0. apply wp_bind, wp_Route_init.
      cbn [distribution_switch add_route name routed_vlans routing_table routes
           RoutingTable_add accesses ip_address].
      apply wp_bind. eapply wp_redistribute with (w := w); [lia|lia|reflexivity|].
      intros wan' st'' Hnm Hrv Hrt Hc''. apply wp_ret.
      fold a in Hdrts, Haccs, Hc', Ha', Hda.
      assert (Hd : vlans_counter st + 1 = dist_vlan w a (Z.of_nat k))
        by (unfold dist_vlan; lia).
      rewrite Hd in Hdrts, Haccs.
      destruct wan' as [nm' rvs' [rts']].
      cbn [name routed_vlans routing_table routes] in Hnm, Hrv, Hrt.
      subst nm' rvs'.
      unfold site_inv. cbn [fst snd vlans_counter] in *.
      split; [|split; [|repeat split; try lia]].
      * unfold switch_view, exp_wan. cbn [name routed_vlans routing_table routes].
        f_equal. rewrite Hrt, Hrts, map_app, Hdrts. cbn [map]. unfold route_view.
        cbn [dst_network next_hop].
        rewrite filter_non_default_routes, upto_S, flat_map_app. cbn [flat_map].
        rewrite app_nil_r. f_equal.
        unfold exp_access_routes, exp_wan_routes_of. rewrite map_map.
        apply map_ext. intros m. reflexivity.
      * rewrite upto_S, !map_app, Hdists. f_equal. cbn [map]. f_equal.
        unfold distribution_view, exp_site_distribution, exp_distribution, switch_view.
        cbn [distribution_switch accesses name routed_vlans routing_table routes
             add_route RoutingTable_add
             v_switch v_name v_routed_vlans v_routes v_accesses].
        rewrite map_app, Hdrts, Haccs, Hd. reflexivity.
    + destruct HE as [Hb|HE]; [left; lia|right; exact HE].
  - eapply wp_lift_err; [apply getitem_net24_out; lia|].
    destruct HE as [Hb|HE]; [lia|apply HE].
Qed.

Lemma Site_loop_wp site num_access w E n acc st :
  let a := Z.to_nat num_access in
  0 <= w <= 65535 ->
  site_inv site w a 0 acc st ->
  (Z.of_nat n <= 254 /\ (1 <= Z.of_nat n -> Z.of_nat a <= 254)
   /\ w + Z.of_nat n * (1 + Z.of_nat a) <= 65535)
  \/ (forall e st', E e st') ->
  wp (forM (upto n) (Site_body site num_access) acc) (site_inv site w a n) E st.
Proof.
  intros a Hw H0 HE. apply (wp_forM_upto (site_inv site w a)); [exact H0|].
  intros k acc' st' Hk Hinv. apply Site_body_step; [exact Hw|exact Hinv|].
  destruct HE as [(Hn & Ha & Hb)|HE]; [left|right; exact HE].
  repeat split; try lia.
  assert ((Z.of_nat k + 1) * (1 + Z.of_nat a) <= Z.of_nat n * (1 + Z.of_nat a))
    by (apply Z.mul_le_mono_nonneg_r; lia).
  lia.
Qed.

Lemma fits_of_nat c D A :
  fits c D A <->
  Z.of_nat (Z.to_nat D) <= 254
  /\ (1 <= Z.of_nat (Z.to_nat D) -> Z.of_nat (Z.to_nat A) <= 254)
  /\ c + 1 + Z.of_nat (Z.to_nat D) * (1 + Z.of_nat (Z.to_nat A)) <= 65535.
Proof.
  unfold fits. replace (Z.of_nat (Z.to_nat D)) with (Z.max D 0) by lia.
  replace (Z.of_nat (Z.to_nat A)) with (Z.max A 0) by lia. reflexivity.
Qed.

(** The whole build, in one rule: it returns exactly when the inputs fit,
    and then the site it returns is the closed form. *)
Lemma wp_Site_init site D A (Q : Site -> State -> Prop) E st :
  0 <= vlans_counter st ->
  (forall s st',
      fits (vlans_counter st) D A ->
      site_view s = exp_site site (vlans_counter st + 1) (Z.to_nat A) (Z.to_nat D) ->
      vlans_counter st' = vlans_counter st + 1 + Z.max D 0 * (1 + Z.max A 0) ->
      Q s st') ->
  fits (vlans_counter st) D A \/ (forall e st', E e st') ->
  wp (Site_init site D A) Q E st.
Proof.
  intros H0 HQ HE. unfold Site_init. apply wp_bind.
  apply wp_Switch_init; [exact H0| |].
  - intros Hle. apply wp_bind. rewrite range_upto.
    eapply wp_mono; [| |apply (Site_loop_wp site A (vlans_counter st + 1))].
    + intros [wan' dists] st' (Hwan & Hdists & Hc & Hk & Ha & Hb).
      cbn [fst snd] in Hwan, Hdists. apply wp_ret. apply HQ.
      * apply fits_of_nat. repeat split; lia.
      * unfold site_view, exp_site. cbn [site_name wan distributions].
        now rewrite Hwan, Hdists.
      * rewrite Hc. lia.
    + intros e st' He. exact He.
    + lia.
    + unfold site_inv. cbn [fst snd bump vlans_counter]. repeat split; try lia.
    + destruct HE as [Hb|HE]; [left|right; exact HE].
      apply fits_of_nat in Hb. destruct Hb as (Hn & Ha & Hb). repeat split; lia.
  - intros Hgt e. destruct HE as [Hb|HE]; [|apply HE].
    apply fits_of_nat in Hb. destruct Hb as (Hn & Ha & Hb).
    assert (0 <= Z.of_nat (Z.to_nat D) * (1 + Z.of_nat (Z.to_nat A)))
      by (apply Z.mul_nonneg_nonneg; lia).
    lia.
Qed.

(* ================================================================== *)
(** * The build: when it returns and what it returns *)

(** Within the bounds the build returns. *)
Lemma Site_init_returns site D A st :
  0 <= vlans_counter st -> fits (vlans_counter st) D A ->
  exists s st', Site_init site D A st = (Ok s, st').
Proof.
  intros H0 Hfit.
  pose proof (wp_Site_init site D A (fun _ _ => True) (fun _ _ => False) st H0) as H.
  unfold wp in H. destruct (Site_init site D A st) as [[s|e] st'].
  - now exists s, st'.
  - exfalso. apply H; auto.
Qed.

(** Whatever the inputs, a build that returns has stayed within the
    bounds and has built the closed form. *)
Lemma Site_init_inv site D A st s st' :
  0 <= vlans_counter st ->
  Site_init site D A st = (Ok s, st') ->
  fits (vlans_counter st) D A
  /\ site_view s = exp_site site (vlans_counter st + 1) (Z.to_nat A) (Z.to_nat D)
  /\ vlans_counter st' = vlans_counter st + 1 + Z.max D 0 * (1 + Z.max A 0).
Proof.
  intros H0 Hrun.
  pose proof (wp_Site_init site D A
                (fun s st' =>
                   fits (vlans_counter st) D A
                   /\ site_view s
                      = exp_site site (vlans_counter st + 1) (Z.to_nat A) (Z.to_nat D)
                   /\ vlans_counter st'
                      = vlans_counter st + 1 + Z.max D 0 * (1 + Z.max A 0))
                (fun _ _ => True) st H0) as H.
  unfold wp in H. rewrite Hrun in H. apply H; auto.
Qed.


(* ================================================================== *)
(** * The allocator *)

Lemma subnet_of_id_net24 k : subnet_of_id k = net24 k.
Proof.
  unfold subnet_of_id, cidr, ip, net24. do 2 f_equal. zdiv.
Qed.

(** C5, as the spec words it, fails: from counter 65025 the allocator
    returns VLAN 65026 with the valid subnet [10.254.2.0/24]. *)
Lemma VLAN_init_above_65025 :
  VLAN_init (mkState 65025 0)
  = (Ok (mkVLAN 65026 (cidr 10 254 2 0 24)), mkState 65026 0)
  /\ 65025 < 65026
  /\ IPv4Network_str (cidr 10 254 2 0 24) = "10.254.2.0/24"%string.
Proof. repeat split. Qed.

(** C5, amended: the boundary of the allocator is 65535.  Up to it an
    allocation returns the VLAN [counter + 1] with subnet
    [10.(id/256).(id%256).0/24]; past it the allocation raises the address
    library's [AddressValueError] ([OverflowError] once the id no longer
    fits a float), the counter having been advanced all the same.  Two
    VLANs returned with different ids never have overlapping subnets. *)
Theorem VLAN_init_boundary (st : State) :
  0 <= vlans_counter st ->
  (vlans_counter st + 1 <= 65535 ->
   VLAN_init st
   = (Ok (mkVLAN (vlans_counter st + 1) (subnet_of_id (vlans_counter st + 1))),
      bump st))
  /\ (65535 < vlans_counter st + 1 ->
      exists e, VLAN_init st = (Err e, bump st)
                /\ (e = AddressValueError \/ e = OverflowError)
                /\ (vlans_counter st + 1 < float_div_limit -> e = AddressValueError))
  /\ (forall v st', VLAN_init st = (Ok v, st') ->
                    vlan_id v = vlans_counter st + 1 /\ vlan_id v <= 65535)
  /\ (forall st2 v st' v2 st2',
         0 <= vlans_counter st2 ->
         VLAN_init st = (Ok v, st') -> VLAN_init st2 = (Ok v2, st2') ->
         vlan_id v <> vlan_id v2 -> overlaps (network v) (network v2) = false).
Proof.
  intros H0.
  assert (Hret : forall s v s', 0 <= vlans_counter s -> VLAN_init s = (Ok v, s') ->
                                v = vlan_of (vlans_counter s + 1)
                                /\ vlans_counter s + 1 <= 65535).
  { intros s v s' Hs Hrun.
    destruct (Z_le_gt_dec (vlans_counter s + 1) 65535) as [Hle|Hgt].
    - rewrite VLAN_init_ok in Hrun by lia. now inversion Hrun.
    - destruct (VLAN_init_high s) as (e & Heq & _); [lia|]. congruence. }
  split; [|split; [|split]].
  - intros Hle. rewrite subnet_of_id_net24. apply VLAN_init_ok; lia.
  - intros Hgt. apply VLAN_init_high. lia.
  - intros v st' Hrun. destruct (Hret _ _ _ H0 Hrun) as (-> & Hle). auto.
  - intros st2 v st' v2 st2' H2 Hrun Hrun2 Hne.
    destruct (Hret _ _ _ H0 Hrun) as (-> & _).
    destruct (Hret _ _ _ H2 Hrun2) as (-> & _).
    cbn [vlan_of vlan_id network] in *. now apply overlaps_net24.
Qed.

Lemma VLAN_init_boundary_witness :
  VLAN_init (mkState 65534 7) = (Ok (mkVLAN 65535 (cidr 10 255 255 0 24)), mkState 65535 7)
  /\ (exists e, VLAN_init (mkState 65535 7) = (Err e, mkState 65536 7)
                /\ e = AddressValueError).
Proof.
  split.
  - apply (proj1 (VLAN_init_boundary (mkState 65534 7) ltac:(cbn; lia))).
    cbn. lia.
  - destruct (proj1 (proj2 (VLAN_init_boundary (mkState 65535 7) ltac:(cbn; lia))))
      as (e & Heq & _ & He).
    + cbn. lia.
    + exists e. split; [exact Heq|]. apply He. reflexivity.
Defined.

(* ================================================================== *)
(** * Routes and routing tables *)

Lemma Route_eqb_eq r1 r2 : Route_eqb r1 r2 = true <-> route_oid r1 = route_oid r2.
Proof. apply Nat.eqb_eq. Qed.

Lemma list_contains_false route l :
  list_contains route l = false <-> (forall y, In y l -> Route_eqb y route = false).
Proof.
  unfold list_contains. induction l as [|x l IH]; cbn [existsb].
  - split; [intros _ y []|reflexivity].
  - rewrite orb_false_iff, IH. split.
    + intros [Hx Hl] y [<-|Hy]; auto.
    + intros H. split; [apply H; now left|]. intros y Hy. apply H. now right.
Qed.

Lemma list_remove_first route pre x post :
  Route_eqb x route = true ->
  (forall y, In y pre -> Route_eqb y route = false) ->
  list_remove route (pre ++ x :: post) = Ok (pre ++ post).
Proof.
  intros Hx. induction pre as [|p pre IH]; intros Hpre; cbn [app list_remove].
  - now rewrite Hx.
  - rewrite (Hpre p) by now left. rewrite IH; [reflexivity|].
    intros y Hy. apply Hpre. now right.
Qed.

Lemma list_remove_absent route l :
  (forall y, In y l -> Route_eqb y route = false) ->
  list_remove route l = Err ValueError.
Proof.
  induction l as [|x l IH]; intros H; cbn [list_remove].
  - reflexivity.
  - rewrite (H x) by now left. rewrite IH; [reflexivity|].
    intros y Hy. apply H. now right.
Qed.



(** C8, as the spec words it, fails: two [Route] objects built one after
    the other from the same fields are not equal. *)
Lemma Route_equal_fields_unequal :
  exists r1 st1 r2 st2,
    Route_init net0 (ip 10 0 1 1) fresh = (Ok r1, st1)
    /\ Route_init net0 (ip 10 0 1 1) st1 = (Ok r2, st2)
    /\ dst_network r1 = dst_network r2
    /\ next_hop r1 = next_hop r2
    /\ Route_eqb r1 r2 = false.
Proof. do 4 eexists. repeat split. Qed.

(** C8, amended: [Route] keeps the two fields its constructor was given
    and compares by object identity.  A route is equal to itself; two
    routes are equal exactly when they are the same object; a route built
    by a later call of the constructor is never equal to an earlier one,
    whatever the fields. *)
Theorem Route_eq_is_identity (d1 d2 : IPv4Network) (h1 h2 : IPv4Address)
    (st st1 st1' st2 : State) (r1 r2 : Route) :
  Route_init d1 h1 st = (Ok r1, st1) ->
  (next_oid st1 <= next_oid st1')%nat ->
  Route_init d2 h2 st1' = (Ok r2, st2) ->
  dst_network r1 = d1 /\ next_hop r1 = h1
  /\ Route_eqb r1 r1 = true
  /\ Route_eqb r1 r2 = false
  /\ (forall r r', Route_eqb r r' = true <-> route_oid r = route_oid r').
Proof.
  unfold Route_init. intros H1 Hle H2.
  injection H1 as <- <-. injection H2 as <- <-.
  cbn [dst_network next_hop next_oid] in *. repeat split.
  - unfold Route_eqb. apply Nat.eqb_refl.
  - unfold Route_eqb. cbn [route_oid]. apply Nat.eqb_neq. lia.
  - apply Route_eqb_eq.
  - apply Route_eqb_eq.
Qed.

Lemma Route_eq_is_identity_witness :
  let r1 := mkRoute 0 net0 (ip 10 0 1 1) in
  let r2 := mkRoute 1 net0 (ip 10 0 1 1) in
  Route_eqb r1 r1 = true /\ Route_eqb r1 r2 = false.
Proof.
  intros r1 r2.
  destruct (Route_eq_is_identity net0 net0 (ip 10 0 1 1) (ip 10 0 1 1)
              fresh (mkState 0 1) (mkState 0 1) (mkState 0 2) r1 r2
              eq_refl (le_n 1) eq_refl) as (_ & _ & Hrefl & Hneq & _).
  split; assumption.
Defined.

(* ================================================================== *)
(** * The scenario [Site("lab", 1, 1)] *)

(** C2: from a fresh allocator, [Site("lab", 1, 1)] is the WAN switch
    (VLAN 1, [10.0.1.0/24], own address [10.0.1.1], one route
    [10.0.3.0/24 via 10.0.1.2]), the distribution [lab-dist-0] (VLAN 2,
    [10.0.2.0/24], own address [10.0.2.1], uplink [10.0.1.2] in VLAN 1,
    routes [10.0.3.0/24 via 10.0.2.2] then [0.0.0.0/0 via 10.0.1.1]) and
    the access [lab-dist-0-access-0] (VLAN 3, [10.0.3.0/24], own address
    [10.0.3.1], uplink [10.0.2.2] in VLAN 2, the one route
    [0.0.0.0/0 via 10.0.2.1]). *)
Theorem Site_lab_1_1 :
  exists s st',
    Site_init "lab" 1 1 fresh = (Ok s, st')
    /\ vlans_counter st' = 3
    /\ site_view s =
       mkSiteView "lab"
         (mkSwitchView "lab-wan-0"
            [mkRoutedVLAN (mkVLAN 1 (cidr 10 0 1 0 24)) (ip 10 0 1 1)]
            [(cidr 10 0 3 0 24, ip 10 0 1 2)])
         [mkDistributionView
            (mkSwitchView "lab-dist-0"
               [mkRoutedVLAN (mkVLAN 2 (cidr 10 0 2 0 24)) (ip 10 0 2 1);
                mkRoutedVLAN (mkVLAN 1 (cidr 10 0 1 0 24)) (ip 10 0 1 2)]
               [(cidr 10 0 3 0 24, ip 10 0 2 2); (cidr 0 0 0 0 0, ip 10 0 1 1)])
            [mkSwitchView "lab-dist-0-access-0"
               [mkRoutedVLAN (mkVLAN 3 (cidr 10 0 3 0 24)) (ip 10 0 3 1);
                mkRoutedVLAN (mkVLAN 2 (cidr 10 0 2 0 24)) (ip 10 0 2 2)]
               [(cidr 0 0 0 0 0, ip 10 0 2 1)]]]
    /\ map Route_repr (routes (routing_table (wan s)))
       = ["10.0.3.0/24 via 10.0.1.2"%string]
    /\ map (fun d : Distribution => map Route_repr (routes (routing_table d)))
           (distributions s)
       = [["10.0.3.0/24 via 10.0.2.2"%string; "0.0.0.0/0 via 10.0.1.1"%string]]
    /\ map (fun d : Distribution =>
              map (fun a : Access => map Route_repr (routes (routing_table a)))
                  (accesses d))
           (distributions s)
       = [[["0.0.0.0/0 via 10.0.2.1"%string]]]
    /\ IPv4Network_str (cidr 10 0 1 0 24) = "10.0.1.0/24"%string
    /\ IPv4Address_str (ip 10 0 1 2) = "10.0.1.2"%string.
Proof.
  do 2 eexists. split; [vm_compute; reflexivity|]. repeat split.
Qed.

(* ================================================================== *)
(** * Lists *)

Section ListFacts.
Context {A B C : Type}.

Lemma Forall2_map_both (R : B -> C -> Prop) (f : A -> B) (g : A -> C) l :
  (forall x, In x l -> R (f x) (g x)) -> Forall2 R (map f l) (map g l).
Proof.
  induction l as [|x l IH]; intros H; cbn [map]; constructor.
  - apply H. now left.
  - apply IH. intros y Hy. apply H. now right.
Qed.

Lemma Forall2_flat_map_both (R : B -> C -> Prop) (f : A -> list B) (g : A -> list C) l :
  (forall x, In x l -> Forall2 R (f x) (g x)) ->
  Forall2 R (flat_map f l) (flat_map g l).
Proof.
  induction l as [|x l IH]; intros H; cbn [flat_map].
  - constructor.
  - apply Forall2_app; [apply H; now left|]. apply IH. intros y Hy. apply H. now right.
Qed.

Lemma flat_map_of_map (f : A -> B) (g : B -> list C) l :
  flat_map g (map f l) = flat_map (fun x => g (f x)) l.
Proof.
  induction l as [|x l IH]; cbn [map flat_map]; [reflexivity|]. now rewrite IH.
Qed.

Lemma map_of_flat_map (f : A -> list B) (g : B -> C) l :
  map g (flat_map f l) = flat_map (fun x => map g (f x)) l.
Proof.
  induction l as [|x l IH]; cbn [map flat_map]; [reflexivity|].
  now rewrite map_app, IH.
Qed.
End ListFacts.

Lemma Forall2_of_maps {A B A' B'} (R : A' -> B' -> Prop) (f : A -> A') (g : B -> B') l1 l2 :
  Forall2 R (map f l1) (map g l2) -> Forall2 (fun x y => R (f x) (g y)) l1 l2.
Proof.
  revert l2. induction l1 as [|x l1 IH]; intros [|y l2] H; cbn [map] in H;
    inversion H; subst; constructor; auto.
Qed.

Lemma nth_error_upto k n x : nth_error (upto k) n = Some x -> x = Z.of_nat n /\ (n < k)%nat.
Proof.
  unfold upto. rewrite nth_error_map, nth_error_seq.
  destruct (Nat.ltb_spec n k); cbn [option_map]; [|discriminate].
  intros [= <-]. split; [reflexivity|assumption].
Qed.

Lemma nth_error_map_upto {A B} (f : A -> B) (g : Z -> B) l k n x :
  map f l = map g (upto k) -> nth_error l n = Some x ->
  f x = g (Z.of_nat n) /\ (n < k)%nat.
Proof.
  intros Hmap Hn.
  assert (H : nth_error (map f l) n = Some (f x)) by (rewrite nth_error_map, Hn; reflexivity).
  rewrite Hmap, nth_error_map in H.
  destruct (nth_error (upto k) n) as [z|] eqn:Hz; [|discriminate].
  apply nth_error_upto in Hz. destruct Hz as [-> Hlt]. cbn in H.
  split; [congruence|assumption].
Qed.

Lemma length_map_eq {A B C} (f : A -> C) (g : B -> C) l1 l2 :
  map f l1 = map g l2 -> List.length l1 = List.length l2.
Proof. intros H. apply (f_equal (@List.length C)) in H. now rewrite !length_map in H. Qed.

Lemma seq_from n m : seq n m = map (fun i => (n + i)%nat) (seq 0 m).
Proof.
  induction n as [|n IH].
  - symmetry. rewrite <- (map_id (seq 0 m)) at 2. apply map_ext. intros i. lia.
  - rewrite <- seq_shift, IH, map_map. reflexivity.
Qed.

Lemma zrange_app lo n m :
  zrange lo (n + m) = zrange lo n ++ zrange (lo + Z.of_nat n) m.
Proof.
  unfold zrange. rewrite seq_app, map_app. f_equal.
  cbn [Nat.add]. rewrite (seq_from n m), map_map. apply map_ext. intros i. lia.
Qed.

Lemma zrange_upto lo n : zrange lo n = map (fun m => lo + m) (upto n).
Proof. unfold zrange, upto. now rewrite map_map. Qed.


Lemma nth_error_zrange lo n i x :
  nth_error (zrange lo n) i = Some x -> x = lo + Z.of_nat i /\ (i < n)%nat.
Proof.
  unfold zrange. rewrite nth_error_map, nth_error_seq.
  destruct (Nat.ltb_spec i n); cbn [option_map]; [|discriminate].
  intros [= <-]. split; [reflexivity|assumption].
Qed.

Lemma NoDup_zrange lo n : NoDup (zrange lo n).
Proof.
  apply NoDup_nth_error. intros i j Hi Heq.
  destruct (nth_error (zrange lo n) i) as [x|] eqn:Hx.
  - symmetry in Heq. apply nth_error_zrange in Hx, Heq. lia.
  - apply nth_error_None in Hx. lia.
Qed.

(* ================================================================== *)
(** * The finished site *)

Lemma Site_init_shape site D A st s st' :
  0 <= vlans_counter st ->
  Site_init site D A st = (Ok s, st') ->
  fits (vlans_counter st) D A
  /\ 0 <= vlans_counter st + 1 <= 65535
  /\ switch_view (wan s)
     = exp_wan site (vlans_counter st + 1) (Z.to_nat A) (Z.to_nat D)
  /\ map distribution_view (distributions s)
     = map (exp_site_distribution site (vlans_counter st + 1) (Z.to_nat A))
           (upto (Z.to_nat D))
  /\ vlans_counter st' = vlans_counter st + 1 + Z.max D 0 * (1 + Z.max A 0).
Proof.
  intros H0 Hrun. destruct (Site_init_inv _ _ _ _ _ _ H0 Hrun) as (Hfit & Hview & Hc).
  split; [exact Hfit|]. split.
  - destruct Hfit as (_ & _ & Hb).
    assert (0 <= Z.max D 0 * (1 + Z.max A 0)) by (apply Z.mul_nonneg_nonneg; lia).
    lia.
  - split; [exact (f_equal v_wan Hview)|].
    split; [exact (f_equal v_distributions Hview)|exact Hc].
Qed.

Lemma wan_table_length w a k :
  List.length (flat_map (exp_wan_routes_of w a) (upto k)) = (k * a)%nat.
Proof.
  rewrite (flat_map_constant_length (c := a)), length_upto; [reflexivity|].
  intros n _. unfold exp_wan_routes_of. now rewrite length_map, length_upto.
Qed.

Lemma owned_accesses_view s :
  map (fun ad : Access * Distribution => (access_view (fst ad), distribution_view (snd ad)))
      (owned_accesses s)
  = view_owned_accesses (map distribution_view (distributions s)).
Proof.
  unfold owned_accesses, view_owned_accesses.
  rewrite map_of_flat_map, flat_map_of_map. apply flat_map_ext. intros d.
  change (v_accesses (distribution_view d)) with (map access_view (accesses d)).
  now rewrite !map_map.
Qed.

Lemma learnt_via_closed_form site w a k :
  Forall2 view_learnt_via
          (flat_map (exp_wan_routes_of w a) (upto k))
          (view_owned_accesses (map (exp_site_distribution site w a) (upto k))).
Proof.
  unfold view_owned_accesses. rewrite flat_map_of_map.
  apply Forall2_flat_map_both. intros n _.
  unfold exp_wan_routes_of, exp_site_distribution, exp_distribution.
  cbn [v_accesses v_switch v_name v_routed_vlans v_routes]. rewrite map_map.
  apply Forall2_map_both. intros m _. split; reflexivity.
Qed.

(** C1: for [D, A >= 0], once [Site(name, D, A)] is built the routing
    table of the WAN switch has exactly [D*A] routes; taken in order they
    are, one for one, the routes to the own subnet of each access via the
    uplink address of the distribution that owns it; the uplink address of
    distribution [n] is [wan.network[2+n]]; no route of the table is a
    default route.  (The build does return whenever the inputs fit the
    address scheme.) *)
Theorem wan_routing_table (site : string) (D A : Z) (st : State) :
  0 <= D -> 0 <= A -> 0 <= vlans_counter st ->
  (fits (vlans_counter st) D A -> exists s st', Site_init site D A st = (Ok s, st'))
  /\ forall s st',
      Site_init site D A st = (Ok s, st') ->
      let table := routes (routing_table (wan s)) in
      Z.of_nat (List.length table) = D * A
      /\ Forall2 learnt_via table (owned_accesses s)
      /\ (forall n d,
             nth_error (distributions s) n = Some d ->
             exists wan_net hop,
               own_network (wan s) = Some wan_net
               /\ uplink_address d = Some hop
               /\ IPv4Network_getitem wan_net (2 + Z.of_nat n) = Ok hop)
      /\ Forall (fun r => IPv4Network_eqb (dst_network r) net0 = false) table.
Proof.
  intros HD HA H0. split; [apply Site_init_returns; exact H0|].
  intros s st' Hrun table.
  destruct (Site_init_shape _ _ _ _ _ _ H0 Hrun) as (Hfit & Hw & Hwan & Hdists & _).
  set (w := vlans_counter st + 1) in *.
  assert (Htable : map route_view table
                   = flat_map (exp_wan_routes_of w (Z.to_nat A)) (upto (Z.to_nat D)))
    by exact (f_equal v_routes Hwan).
  assert (Hrvs : routed_vlans (wan s) = [mkRoutedVLAN (vlan_of w) (host w 1)])
    by exact (f_equal v_routed_vlans Hwan).
  split; [|split; [|split]].
  - rewrite <- (length_map route_view), Htable, wan_table_length. lia.
  - apply (Forall2_of_maps view_learnt_via route_view
             (fun ad : Access * Distribution =>
                (access_view (fst ad), distribution_view (snd ad)))).
    rewrite Htable, owned_accesses_view, Hdists. apply learnt_via_closed_form.
  - intros n d Hn.
    destruct (nth_error_map_upto _ _ _ _ _ _ Hdists Hn) as (Hd & Hlt).
    exists (net24 w), (host w (2 + Z.of_nat n)). split; [|split].
    + unfold own_network. now rewrite Hrvs.
    + unfold uplink_address.
      change (routed_vlans d) with (v_routed_vlans (v_switch (distribution_view d))).
      now rewrite Hd.
    + apply getitem_net24_ok; [exact Hw|]. destruct Hfit as (Hk & _). lia.
  - apply Forall_forall. intros r Hr.
    assert (Hin : In (route_view r) (map route_view table)) by now apply in_map.
    rewrite Htable in Hin. apply in_flat_map in Hin. destruct Hin as (n & _ & Hin).
    unfold exp_wan_routes_of in Hin. apply in_map_iff in Hin.
    destruct Hin as (m & Heq & _).
    apply (f_equal fst) in Heq. cbn [fst route_view] in Heq. rewrite <- Heq.
    apply net24_not_default.
Qed.

Lemma wan_routing_table_witness :
  exists s st',
    Site_init "lab" 2 3 fresh = (Ok s, st')
    /\ Z.of_nat (List.length (routes (routing_table (wan s)))) = 2 * 3
    /\ Forall2 learnt_via (routes (routing_table (wan s))) (owned_accesses s)
    /\ Forall (fun r => IPv4Network_eqb (dst_network r) net0 = false)
              (routes (routing_table (wan s))).
Proof.
  pose proof (wan_routing_table "lab" 2 3 fresh
                ltac:(lia) ltac:(lia) ltac:(cbn; lia)) as [Hret Hinv].
  destruct Hret as (s & st' & Hrun).
  - unfold fits. cbn. lia.
  - exists s, st'. destruct (Hinv s st' Hrun) as (Hlen & Hvia & _ & Hdef).
    repeat split; assumption.
Defined.

(* ================================================================== *)
(** * The VLANs of a build *)

Lemma flat_map_flat_map {A B C} (f : A -> list B) (g : B -> list C) l :
  flat_map g (flat_map f l) = flat_map (fun x => flat_map g (f x)) l.
Proof.
  induction l as [|x l IH]; cbn [flat_map]; [reflexivity|].
  now rewrite flat_map_app, IH.
Qed.

Lemma flat_map_one {A B} (f : A -> list B) x : flat_map f [x] = f x.
Proof. cbn [flat_map]. apply app_nil_r. Qed.

Lemma NoDup_map_injective {A B} (f : A -> B) l :
  (forall x y, f x = f y -> x = y) -> NoDup l -> NoDup (map f l).
Proof.
  intros Hinj Hnd. induction Hnd as [|x l Hx Hnd IH]; cbn [map]; constructor.
  - intros Hin. apply in_map_iff in Hin. destruct Hin as (y & Heq & Hy).
    apply Hinj in Heq. now subst y.
  - exact IH.
Qed.

Lemma devices_view s : map switch_view (devices s) = view_devices (site_view s).
Proof.
  unfold devices, view_devices, site_view. cbn [map v_wan v_distributions]. f_equal.
  rewrite map_of_flat_map, flat_map_of_map. apply flat_map_ext. intros d.
  unfold distribution_devices, distribution_view. cbn [map v_switch v_accesses].
  now rewrite map_map.
Qed.

Lemma allocated_vlans_view s :
  allocated_vlans s = flat_map view_own_vlans (view_devices (site_view s)).
Proof.
  unfold allocated_vlans. rewrite <- devices_view, flat_map_of_map. reflexivity.
Qed.

Lemma zrange_S lo n : zrange lo (S n) = lo :: zrange (lo + 1) n.
Proof.
  change (S n) with (1 + n)%nat. rewrite zrange_app.
  change (zrange lo 1) with [lo + 0]. change (Z.of_nat 1) with 1.
  cbn [app]. f_equal. lia.
Qed.

Lemma distribution_vlans_closed site w a n :
  flat_map view_own_vlans
           (v_switch (exp_site_distribution site w a n)
            :: v_accesses (exp_site_distribution site w a n))
  = map vlan_of (zrange (dist_vlan w a n) (S a)).
Proof.
  rewrite zrange_S, zrange_upto.
  cbn [flat_map map exp_site_distribution exp_distribution
       v_switch v_accesses v_routed_vlans view_own_vlans firstn vlan app].
  f_equal. rewrite flat_map_of_map, map_map.
  induction (upto a) as [|m l IH]; cbn [flat_map map]; [reflexivity|].
  now rewrite IH.
Qed.

Lemma allocated_vlans_closed site w a k :
  flat_map view_own_vlans (view_devices (exp_site site w a k))
  = map vlan_of (zrange w (1 + k * (1 + a))).
Proof.
  unfold view_devices, exp_site. cbn [v_wan v_distributions flat_map].
  change (view_own_vlans (exp_wan site w a k)) with [vlan_of w].
  rewrite flat_map_of_map, flat_map_flat_map.
  change (1 + k * (1 + a))%nat with (S (k * (1 + a))).
  rewrite zrange_S. cbn [map app]. f_equal.
  induction k as [|k IH].
  - reflexivity.
  - rewrite upto_S, flat_map_app, flat_map_one.
    rewrite distribution_vlans_closed, IH, <- map_app.
    replace (S k * (1 + a))%nat with (k * (1 + a) + S a)%nat by lia.
    rewrite zrange_app. do 3 f_equal. unfold dist_vlan. lia.
Qed.

(** Every VLAN allocated by a build that returned, in order of
    allocation. *)
Lemma allocated_vlans_run site D A st s st' :
  0 <= vlans_counter st ->
  Site_init site D A st = (Ok s, st') ->
  allocated_vlans s
  = map vlan_of (zrange (vlans_counter st + 1)
                        (1 + Z.to_nat D * (1 + Z.to_nat A)))
  /\ vlans_counter st + Z.of_nat (1 + Z.to_nat D * (1 + Z.to_nat A)) <= 65535
  /\ vlans_counter st' = vlans_counter st + Z.of_nat (1 + Z.to_nat D * (1 + Z.to_nat A)).
Proof.
  intros H0 Hrun. destruct (Site_init_inv _ _ _ _ _ _ H0 Hrun) as (Hfit & Hview & Hc).
  rewrite allocated_vlans_view, Hview, allocated_vlans_closed.
  destruct Hfit as (_ & _ & Hb). split; [reflexivity|]. split; lia.
Qed.




(* ================================================================== *)
(** * The own binding of every device *)

Lemma string_append_assoc (a b c : string) :
  ((a ++ b) ++ c = a ++ (b ++ c))%string.
Proof. induction a as [|x a IH]; cbn [append]; [reflexivity|]. now rewrite IH. Qed.

Lemma IPv4Network_str_net24 k :
  0 <= k <= 65535 ->
  IPv4Network_str (net24 k)
  = ("10." ++ str (k / 256) ++ "." ++ str (k mod 256) ++ ".0/24")%string.
Proof.
  intros Hk. unfold IPv4Network_str, IPv4Address_str.
  cbn [net24 network_address addr_int prefixlen].
  replace ((167772160 + 256 * k) / 16777216) with 10 by zdiv.
  replace ((167772160 + 256 * k) / 65536 mod 256) with (k / 256) by zdiv.
  replace ((167772160 + 256 * k) / 256 mod 256) with (k mod 256) by zdiv.
  replace ((167772160 + 256 * k) mod 256) with 0 by zdiv.
  change (str 10) with "10"%string. change (str 0) with "0"%string.
  change (str 24) with "24"%string.
  rewrite !string_append_assoc. reflexivity.
Qed.

Lemma own_binding_closed c c' k rest :
  c < k <= c' -> 0 <= k <= 65535 ->
  own_binding c c' (mkRoutedVLAN (vlan_of k) (host k 1) :: rest).
Proof.
  intros Hc Hk. exists k, (host k 1). rewrite subnet_of_id_net24.
  split; [exact Hc|]. split; [reflexivity|]. split; [|split].
  - unfold host, ip. f_equal. zdiv.
  - apply getitem_net24_ok; lia.
  - now apply IPv4Network_str_net24.
Qed.

(** C9: in a build that returned, the zeroth entry of the routed-VLAN
    list of every device (WAN, distribution or access) is a VLAN [k]
    allocated during this build, with subnet [10.(k/256).(k%256).0/24],
    bound to the first address [.1] of that subnet; these own VLANs,
    device by device, are the VLANs the build allocated.  (The build does
    return whenever the inputs fit the address scheme.) *)
Theorem own_vlan_first (site : string) (D A : Z) (st : State) :
  0 <= vlans_counter st ->
  (fits (vlans_counter st) D A -> exists s st', Site_init site D A st = (Ok s, st'))
  /\ forall s st',
      Site_init site D A st = (Ok s, st') ->
      Forall (fun sw => own_binding (vlans_counter st) (vlans_counter st') (routed_vlans sw))
             (devices s)
      /\ List.length (allocated_vlans s) = List.length (devices s)
      /\ NoDup (map vlan_id (allocated_vlans s)).
Proof.
  intros H0. split; [apply Site_init_returns; exact H0|].
  intros s st' Hrun.
  destruct (allocated_vlans_run _ _ _ _ _ _ H0 Hrun) as (Hall & Hb & Hc).
  set (N := (1 + Z.to_nat D * (1 + Z.to_nat A))%nat) in *.
  assert (Hown : forall sw, In sw (devices s) ->
                            exists k, In k (zrange (vlans_counter st + 1) N)
                                      /\ own_vlans sw = [vlan_of k]
                                      /\ exists rest, routed_vlans sw
                                                      = mkRoutedVLAN (vlan_of k) (host k 1) :: rest).
  { intros sw Hsw.
    destruct (Site_init_shape _ _ _ _ _ _ H0 Hrun) as (_ & _ & Hwan & Hdists & _).
    assert (Hsub : forall v, In v (own_vlans sw) -> In v (allocated_vlans s)).
    { intros v Hv. unfold allocated_vlans. apply in_flat_map. now exists sw. }
    assert (Hk : forall k rest,
               routed_vlans sw = mkRoutedVLAN (vlan_of k) (host k 1) :: rest ->
               exists k', In k' (zrange (vlans_counter st + 1) N)
                          /\ own_vlans sw = [vlan_of k']
                          /\ exists rest', routed_vlans sw
                                           = mkRoutedVLAN (vlan_of k') (host k' 1) :: rest').
    { intros k rest Hrvs. exists k. split; [|split; [|now exists rest]].
      - assert (Hin : In (vlan_of k) (allocated_vlans s)).
        { apply Hsub. unfold own_vlans. rewrite Hrvs. now left. }
        rewrite Hall in Hin. apply in_map_iff in Hin. destruct Hin as (k' & Heq & Hk').
        apply (f_equal vlan_id) in Heq. cbn [vlan_of vlan_id] in Heq. now subst k'.
      - unfold own_vlans. now rewrite Hrvs. }
    destruct Hsw as [<-|Hsw].
    - eapply Hk. exact (f_equal v_routed_vlans Hwan).
    - apply in_flat_map in Hsw. destruct Hsw as (d & Hd & Hsw).
      apply In_nth_error in Hd. destruct Hd as (n & Hn).
      destruct (nth_error_map_upto _ _ _ _ _ _ Hdists Hn) as (Hdv & _).
      destruct Hsw as [<-|Hsw].
      + eapply Hk.
        change (routed_vlans d) with (v_routed_vlans (v_switch (distribution_view d))).
        rewrite Hdv. reflexivity.
      + apply in_map_iff in Hsw. destruct Hsw as (acc & <- & Hacc).
        apply In_nth_error in Hacc. destruct Hacc as (m & Hm).
        assert (Haccs : map access_view (accesses d)
                        = map (exp_access
                                 (site ++ "-dist-" ++ str (Z.of_nat n))
                                 (dist_vlan (vlans_counter st + 1) (Z.to_nat A) (Z.of_nat n)))
                              (upto (Z.to_nat A)))
          by exact (f_equal v_accesses Hdv).
        destruct (nth_error_map_upto _ _ _ _ _ _ Haccs Hm) as (Hav & _).
        eapply Hk. exact (f_equal v_routed_vlans Hav). }
  split; [|split].
  - apply Forall_forall. intros sw Hsw.
    destruct (Hown sw Hsw) as (k & Hk & _ & rest & ->).
    apply In_nth_error in Hk. destruct Hk as (i & Hi).
    apply nth_error_zrange in Hi. destruct Hi as (-> & Hi).
    apply own_binding_closed; lia.
  - unfold allocated_vlans. rewrite (flat_map_constant_length (c := 1%nat)); [lia|].
    intros sw Hsw. destruct (Hown sw Hsw) as (k & _ & -> & _). reflexivity.
  - rewrite Hall, map_map. cbn [vlan_of vlan_id]. rewrite map_id. apply NoDup_zrange.
Qed.

Lemma own_vlan_first_witness :
  exists s st',
    Site_init "lab" 2 3 fresh = (Ok s, st')
    /\ Forall (fun sw => own_binding 0 9 (routed_vlans sw)) (devices s).
Proof.
  pose proof (own_vlan_first "lab" 2 3 fresh ltac:(cbn; lia)) as [Hret Hinv].
  destruct Hret as (s & st' & Hrun).
  - unfold fits. cbn. lia.
  - exists s, st'. split; [exact Hrun|].
    destruct (Hinv s st' Hrun) as (Hown & _).
    assert (Hc : vlans_counter st' = 9).
    { destruct (allocated_vlans_run "lab" 2 3 fresh s st' ltac:(cbn; lia) Hrun)
        as (_ & _ & Hc).
      exact Hc. }
    rewrite Hc in Hown. exact Hown.
Defined.

(* ================================================================== *)
(** * Negative counts *)

Lemma range_max n : range 0 n = range 0 (Z.max n 0).
Proof. rewrite !range_upto. f_equal. lia. Qed.

Lemma forM_ext {A S} (f g : A -> S -> M S) l :
  (forall x acc st, f x acc st = g x acc st) ->
  forall acc st, forM l f acc st = forM l g acc st.
Proof.
  intros Hfg. induction l as [|x l IH]; intros acc st; cbn [forM]; [reflexivity|].
  unfold bind. rewrite Hfg. destruct (g x acc st) as [[acc'|e] st']; [apply IH|reflexivity].
Qed.

Lemma Distribution_init_max nm A wv wip :
  Distribution_init nm A wv wip = Distribution_init nm (Z.max A 0) wv wip.
Proof. unfold Distribution_init. now rewrite <- range_max. Qed.

Lemma bind_ext {A B} (m : M A) (f g : A -> M B) st :
  (forall a st', f a st' = g a st') -> bind m f st = bind m g st.
Proof. intros H. unfold bind. destruct (m st) as [[a|e] st']; [apply H|reflexivity]. Qed.

Lemma Site_body_max site A n acc st :
  Site_body site A n acc st = Site_body site (Z.max A 0) n acc st.
Proof.
  unfold Site_body. destruct acc as [wan0 dists].
  apply bind_ext. intros own st1. apply bind_ext. intros rv0 st2.
  apply bind_ext. intros wan_ip st3. now rewrite <- Distribution_init_max.
Qed.

Lemma Site_init_max site D A st :
  Site_init site D A st = Site_init site (Z.max D 0) (Z.max A 0) st.
Proof.
  unfold Site_init. apply bind_ext. intros w st1. rewrite <- range_max.
  unfold bind. now rewrite (forM_ext _ _ _ (Site_body_max site A)).
Qed.

(** C6, as the spec words it, fails: with both counts negative the build
    returns a site (the WAN switch alone) and raises nothing. *)
Lemma Site_init_negative_returns :
  exists s st',
    Site_init "lab" (-1) (-1) fresh = (Ok s, st')
    /\ site_view s
       = mkSiteView "lab"
           (mkSwitchView "lab-wan-0"
              [mkRoutedVLAN (mkVLAN 1 (cidr 10 0 1 0 24)) (ip 10 0 1 1)] [])
           [].
Proof. do 2 eexists. split; [vm_compute; reflexivity|reflexivity]. Qed.

(** C6, amended: a negative count is not rejected; [range] is empty for
    it, so the build does exactly what it does for a count of zero.  With
    a negative number of distributions the site returned is the WAN
    switch alone; with a negative number of accesses every distribution
    comes without accesses. *)
Theorem Site_init_negative (site : string) (D A : Z) (st : State) :
  0 <= vlans_counter st ->
  Site_init site D A st = Site_init site (Z.max D 0) (Z.max A 0) st
  /\ (D < 0 -> vlans_counter st + 1 <= 65535 ->
      exists s st', Site_init site D A st = (Ok s, st')
                    /\ vlans_counter st' = vlans_counter st + 1
                    /\ distributions s = []
                    /\ routes (routing_table (wan s)) = [])
  /\ (A < 0 -> 0 <= D <= 254 -> vlans_counter st + 1 + D <= 65535 ->
      exists s st', Site_init site D A st = (Ok s, st')
                    /\ vlans_counter st' = vlans_counter st + 1 + D
                    /\ Z.of_nat (List.length (distributions s)) = D
                    /\ Forall (fun d => accesses d = []) (distributions s)
                    /\ routes (routing_table (wan s)) = []).
Proof.
  intros H0. split; [apply Site_init_max|].
  assert (Hrun : fits (vlans_counter st) D A ->
                 exists s st',
                   Site_init site D A st = (Ok s, st')
                   /\ vlans_counter st' = vlans_counter st + 1 + Z.max D 0 * (1 + Z.max A 0)
                   /\ List.length (distributions s) = Z.to_nat D
                   /\ Forall (fun d => List.length (accesses d) = Z.to_nat A) (distributions s)
                   /\ List.length (routes (routing_table (wan s)))
                      = (Z.to_nat D * Z.to_nat A)%nat).
  { intros Hfit. destruct (Site_init_returns site D A st H0 Hfit) as (s & st' & Hrun).
    exists s, st'. split; [exact Hrun|].
    destruct (Site_init_shape _ _ _ _ _ _ H0 Hrun) as (_ & _ & Hwan & Hdists & Hc).
    split; [exact Hc|]. split; [|split].
    - rewrite (length_map_eq _ _ _ _ Hdists). apply length_upto.
    - apply Forall_forall. intros d Hd. apply In_nth_error in Hd. destruct Hd as (n & Hn).
      destruct (nth_error_map_upto _ _ _ _ _ _ Hdists Hn) as (Hdv & _).
      apply (f_equal v_accesses) in Hdv.
      cbn [distribution_view exp_site_distribution exp_distribution v_accesses] in Hdv.
      rewrite (length_map_eq _ _ _ _ Hdv). apply length_upto.
    - rewrite <- (length_map route_view).
      change (map route_view (routes (routing_table (wan s))))
        with (v_routes (switch_view (wan s))).
      rewrite Hwan. apply wan_table_length. }
  split.
  - intros HD Hc. destruct Hrun as (s & st' & Hrun & Hc' & Hlen & _ & Hrt).
    { unfold fits. lia. }
    exists s, st'. split; [exact Hrun|]. split; [lia|]. split.
    + apply length_zero_iff_nil. lia.
    + apply length_zero_iff_nil. lia.
  - intros HA HD Hc. destruct Hrun as (s & st' & Hrun & Hc' & Hlen & Hacc & Hrt).
    { unfold fits. lia. }
    exists s, st'. split; [exact Hrun|]. split; [lia|]. split; [lia|]. split.
    + apply Forall_forall. intros d Hd. rewrite Forall_forall in Hacc.
      apply length_zero_iff_nil. rewrite (Hacc d Hd). lia.
    + apply length_zero_iff_nil. lia.
Qed.

Lemma Site_init_negative_witness :
  (exists s st', Site_init "lab" (-3) 2 fresh = (Ok s, st')
                 /\ vlans_counter st' = 1 /\ distributions s = [])
  /\ (exists s st', Site_init "lab" 2 (-3) fresh = (Ok s, st')
                    /\ vlans_counter st' = 3
                    /\ Forall (fun d => accesses d = []) (distributions s)).
Proof.
  pose proof (Site_init_negative "lab" (-3) 2 fresh ltac:(cbn; lia)) as (_ & HD & _).
  pose proof (Site_init_negative "lab" 2 (-3) fresh ltac:(cbn; lia)) as (_ & _ & HA).
  split.
  - destruct HD as (s & st' & Hrun & Hc & Hd & _); [lia|cbn; lia|].
    exists s, st'. repeat split; assumption.
  - destruct HA as (s & st' & Hrun & Hc & _ & Hacc & _); [lia|lia|cbn; lia|].
    exists s, st'. repeat split; assumption.
Defined.

(* ================================================================== *)
(** * Repeated builds *)

Lemma wan_vlan_id site D A st s st' :
  0 <= vlans_counter st ->
  Site_init site D A st = (Ok s, st') ->
  map vlan_id (own_vlans (wan s)) = [vlans_counter st + 1].
Proof.
  intros H0 Hrun.
  destruct (Site_init_shape _ _ _ _ _ _ H0 Hrun) as (_ & _ & Hwan & _).
  apply (f_equal v_routed_vlans) in Hwan. cbn [switch_view v_routed_vlans exp_wan] in Hwan.
  unfold own_vlans. now rewrite Hwan.
Qed.

(** C4, as the spec words it, fails: the second of two builds with the
    same arguments in one process starts from the counter the first one
    left, so its WAN switch gets VLAN 4, not 1, and the two sites differ. *)
Lemma second_build_differs :
  exists s1 st1 s2 st2,
    Site_init "lab" 1 1 fresh = (Ok s1, st1)
    /\ Site_init "lab" 1 1 st1 = (Ok s2, st2)
    /\ map vlan_id (own_vlans (wan s1)) = [1]
    /\ map vlan_id (own_vlans (wan s2)) = [4]
    /\ site_view s1 <> site_view s2.
Proof.
  do 4 eexists. split; [vm_compute; reflexivity|]. split; [vm_compute; reflexivity|].
  split; [reflexivity|]. split; [reflexivity|].
  intros H. apply (f_equal (fun v => map vlan_id (view_own_vlans (v_wan v)))) in H.
  vm_compute in H. discriminate H.
Qed.

(** C4, amended: the site built is a function of the arguments and of
    the value of the process-wide VLAN counter when the build starts,
    and of nothing else: two builds with the same arguments started at
    the same counter value return sites with the same names, VLAN ids,
    subnets, addresses and routes, and leave the same counter.  The WAN
    switch gets the VLAN [counter + 1]: it is VLAN 1 in a fresh process,
    and a build that follows another in the same process continues from
    the counter the first one left, [counter + 1 + D + D*A]. *)
Theorem Site_init_deterministic (site : string) (D A : Z) (st1 st2 : State)
    (s1 : Site) (st1' : State) :
  0 <= vlans_counter st1 ->
  vlans_counter st2 = vlans_counter st1 ->
  Site_init site D A st1 = (Ok s1, st1') ->
  (exists s2 st2',
      Site_init site D A st2 = (Ok s2, st2')
      /\ site_view s2 = site_view s1
      /\ vlans_counter st2' = vlans_counter st1')
  /\ map vlan_id (own_vlans (wan s1)) = [vlans_counter st1 + 1]
  /\ vlans_counter st1' = vlans_counter st1 + 1 + Z.max D 0 * (1 + Z.max A 0)
  /\ (forall s3 st3,
         Site_init site D A st1' = (Ok s3, st3) ->
         map vlan_id (own_vlans (wan s3))
         = [vlans_counter st1 + 2 + Z.max D 0 * (1 + Z.max A 0)]).
Proof.
  intros H0 Heq Hrun1.
  destruct (Site_init_inv _ _ _ _ _ _ H0 Hrun1) as (Hfit & Hview & Hc).
  split; [|split; [|split]].
  - destruct (Site_init_returns site D A st2) as (s2 & st2' & Hrun2).
    + lia.
    + now rewrite Heq.
    + exists s2, st2'. split; [exact Hrun2|].
      destruct (Site_init_inv site D A st2 s2 st2' ltac:(lia) Hrun2)
        as (_ & Hview2 & Hc2).
      rewrite Heq in Hview2, Hc2. split; congruence.
  - exact (wan_vlan_id _ _ _ _ _ _ H0 Hrun1).
  - exact Hc.
  - intros s3 st3 Hrun3.
    assert (H1 : 0 <= vlans_counter st1').
    { assert (0 <= Z.max D 0 * (1 + Z.max A 0)) by (apply Z.mul_nonneg_nonneg; lia). lia. }
    rewrite (wan_vlan_id _ _ _ _ _ _ H1 Hrun3). f_equal. lia.
Qed.

Lemma Site_init_deterministic_witness :
  exists s1 st1',
    Site_init "lab" 1 1 fresh = (Ok s1, st1')
    /\ (exists s2 st2',
           Site_init "lab" 1 1 (mkState 0 42) = (Ok s2, st2')
           /\ site_view s2 = site_view s1
           /\ vlans_counter st2' = vlans_counter st1')
    /\ vlans_counter st1' = 3.
Proof.
  destruct (Site_init_returns "lab" 1 1 fresh ltac:(cbn; lia)) as (s1 & st1' & Hrun).
  - unfold fits. cbn. lia.
  - exists s1, st1'. split; [exact Hrun|].
    destruct (Site_init_deterministic "lab" 1 1 fresh (mkState 0 42) s1 st1'
                ltac:(cbn; lia) eq_refl Hrun) as (Hsame & _ & Hc & _).
    split; [exact Hsame|exact Hc].
Defined.

(* ================================================================== *)
(** * The end of the [2 + n] address scheme *)

Lemma wp_forM_app {A S} (l1 l2 : list A) (body : A -> S -> M S) acc Q E st :
  wp (forM l1 body acc) (fun acc' st' => wp (forM l2 body acc') Q E st') E st ->
  wp (forM (l1 ++ l2) body acc) Q E st.
Proof. intros H. unfold wp at 1. rewrite forM_app. now apply wp_bind. Qed.

Lemma upto_split n m : upto (n + S m) = upto n ++ Z.of_nat n :: map Z.of_nat (seq (S n) m).
Proof. unfold upto. rewrite seq_app, map_app. reflexivity. Qed.

(** Turn 254 of the loop of a distribution indexes its subnet at 256. *)
Lemma Distribution_body_overflow dname d wv wip k self st :
  dist_inv dname d wv wip k self st -> 254 <= Z.of_nat k ->
  wp (Distribution_body (Z.of_nat k) self) (fun _ _ => False)
     (fun e _ => e = IndexError) st.
Proof.
  intros (Hview & _) Hk. destruct self as [[nm rvs [rts]] accs].
  apply distribution_view_inv in Hview. destruct Hview as (-> & -> & _ & _).
  unfold Distribution_body. cbn [distribution_switch name routed_vlans].
  apply wp_bind, wp_index0. apply wp_bind, wp_index0. apply wp_bind.
  cbn [vlan vlan_of network].
  eapply wp_lift_err; [apply getitem_net24_out; lia|]. reflexivity.
Qed.

Lemma Distribution_init_overflow nm A wv wip st :
  0 <= vlans_counter st -> vlans_counter st + 255 <= 65535 -> 255 <= A ->
  wp (Distribution_init nm A wv wip) (fun _ _ => False) (fun e _ => e = IndexError) st.
Proof.
  intros H0 Hc HA. unfold Distribution_init. apply wp_bind.
  apply wp_Switch_init; [exact H0| |intros; lia].
  intros _. rewrite range_upto.
  replace (Z.to_nat A) with (254 + S (Z.to_nat A - 255))%nat by lia.
  rewrite upto_split. apply wp_forM_app.
  eapply wp_mono; [| |apply (Distribution_loop_wp nm (vlans_counter st + 1) wv wip
                                             (fun e _ => e = IndexError))].
  - intros self st' Hinv. cbn [forM]. apply wp_bind.
    eapply wp_mono; [| |apply (Distribution_body_overflow _ _ _ _ 254 _ _ Hinv); lia].
    + intros ? ? [].
    + auto.
  - auto.
  - lia.
  - unfold dist_inv. cbn [bump vlans_counter]. repeat split; lia.
  - left. cbn [bump vlans_counter]. lia.
Qed.

(** Turn 254 of the loop of the site indexes the WAN subnet at 256. *)
Lemma Site_body_overflow site A w k acc st :
  site_inv site w (Z.to_nat A) k acc st -> 254 <= Z.of_nat k ->
  wp (Site_body site A (Z.of_nat k) acc) (fun _ _ => False)
     (fun e _ => e = IndexError) st.
Proof.
  intros (Hwan & _) Hk. destruct acc as [[nm rvs [rts]] dists]. cbn [fst] in Hwan.
  apply switch_view_inv in Hwan. cbn [exp_wan v_name v_routed_vlans v_routes] in Hwan.
  destruct Hwan as (-> & -> & _).
  unfold Site_body. cbn [routed_vlans].
  apply wp_bind, wp_index0. apply wp_bind, wp_index0. apply wp_bind.
  cbn [vlan vlan_of network].
  eapply wp_lift_err; [apply getitem_net24_out; lia|]. reflexivity.
Qed.

(** With 255 accesses or more, a turn of the loop of the site fails
    inside the constructor of its distribution. *)
Lemma Site_body_access_overflow site A w k acc st :
  0 <= w <= 65535 ->
  site_inv site w (Z.to_nat A) k acc st -> Z.of_nat k <= 253 ->
  vlans_counter st + 255 <= 65535 -> 255 <= A ->
  wp (Site_body site A (Z.of_nat k) acc) (fun _ _ => False)
     (fun e _ => e = IndexError) st.
Proof.
  intros Hw (Hwan & _ & Hc & _) Hk Hb HA.
  destruct acc as [[nm rvs [rts]] dists]. cbn [fst] in Hwan.
  apply switch_view_inv in Hwan. cbn [exp_wan v_name v_routed_vlans v_routes] in Hwan.
  destruct Hwan as (-> & -> & _).
  unfold Site_body. cbn [routed_vlans].
  apply wp_bind, wp_index0. apply wp_bind, wp_index0. apply wp_bind.
  cbn [vlan vlan_of network].
  eapply wp_lift_ok; [apply getitem_net24_ok; lia|]. apply wp_bind.
  eapply wp_mono; [| |apply Distribution_init_overflow].
  - intros ? ? [].
  - auto.
  - assert (0 <= Z.of_nat k * (1 + Z.of_nat (Z.to_nat A)))
      by (apply Z.mul_nonneg_nonneg; lia).
    lia.
  - exact Hb.
  - exact HA.
Qed.

Lemma Site_init_overflow site D A st :
  vlans_counter st = 0 ->
  255 <= D \/ (255 <= A /\ 1 <= D) ->
  wp (Site_init site D A) (fun _ _ => False) (fun e _ => e = IndexError) st.
Proof.
  intros H0 Hcase. unfold Site_init. apply wp_bind.
  apply wp_Switch_init; [lia| |intros; lia].
  intros _. apply wp_bind. rewrite range_upto.
  assert (Hinit : site_inv site (vlans_counter st + 1) (Z.to_nat A) 0
                    (mkSwitch (site ++ "-wan-0")
                       [mkRoutedVLAN (vlan_of (vlans_counter st + 1))
                                     (host (vlans_counter st + 1) 1)]
                       RoutingTable_init, []) (bump st)).
  { unfold site_inv. cbn [fst snd bump vlans_counter]. repeat split; lia. }
  destruct (Z_le_gt_dec 255 A) as [HA|HA].
  - (* the first distribution fails on its access 254 *)
    replace (Z.to_nat D) with (0 + S (Z.to_nat D - 1))%nat by lia.
    rewrite upto_split. cbn [upto seq map app forM]. apply wp_bind.
    eapply wp_mono;
      [| |apply (Site_body_access_overflow site A (vlans_counter st + 1) 0 _ _
                   ltac:(lia) Hinit)].
    + intros ? ? [].
    + auto.
    + lia.
    + cbn [bump vlans_counter]. lia.
    + exact HA.
  - (* 254 distributions are built, the next one fails *)
    replace (Z.to_nat D) with (254 + S (Z.to_nat D - 255))%nat by lia.
    rewrite upto_split. apply wp_forM_app.
    eapply wp_mono; [| |apply (Site_loop_wp site A (vlans_counter st + 1)
                                     (fun e _ => e = IndexError))].
    + intros acc st' Hinv. cbn [forM]. apply wp_bind.
      eapply wp_mono; [| |apply (Site_body_overflow _ _ _ 254 _ _ Hinv); lia].
      * intros ? ? [].
      * auto.
    + auto.
    + lia.
    + exact Hinit.
    + left. repeat split; lia.
Qed.

Lemma host_255_broadcast k : host k (2 + Z.of_nat 253) = mkAddr (broadcast_address (net24 k)).
Proof. unfold host. rewrite broadcast_net24. reflexivity. Qed.

Lemma nth_error_last_of {A} (l : list A) n :
  List.length l = S n -> exists x, nth_error l n = Some x.
Proof.
  intros Hlen. destruct (nth_error l n) as [x|] eqn:Hx; [now exists x|].
  apply nth_error_None in Hx. lia.
Qed.

(** C10, as it is worded, fails: 255 accesses per distribution raise
    nothing when there is no distribution to build them. *)
Lemma Site_init_255_accesses_no_distribution :
  exists s st',
    Site_init "lab" 0 255 fresh = (Ok s, st')
    /\ distributions s = []
    /\ vlans_counter st' = 1.
Proof. do 2 eexists. split; [vm_compute; reflexivity|]. split; reflexivity. Qed.

(** C10, amended: started from a fresh allocator, a build with 255 or
    more distributions, or with 255 or more accesses and at least one
    distribution, raises [IndexError] (from [network[2+n]] at index 256;
    no other error is raised first).  With no distribution to build, the
    number of accesses is never looked at and the build returns.  With
    exactly 254 distributions (and at most 254 accesses) the last
    distribution's uplink address is the broadcast address [10.0.1.255]
    of the WAN subnet; with exactly 254 accesses (and 1 to 254
    distributions) the last access of every distribution has the
    broadcast address of that distribution's subnet as its uplink
    address. *)
Theorem uplink_scheme_boundary (site : string) (D A : Z) (st : State) :
  vlans_counter st = 0 ->
  (255 <= D \/ (255 <= A /\ 1 <= D) ->
   exists st', Site_init site D A st = (Err IndexError, st'))
  /\ (D <= 0 ->
      exists s st', Site_init site D A st = (Ok s, st') /\ distributions s = [])
  /\ (D = 254 -> A <= 254 ->
      exists s st' d wan_net,
        Site_init site D A st = (Ok s, st')
        /\ List.length (distributions s) = 254%nat
        /\ nth_error (distributions s) 253 = Some d
        /\ own_network (wan s) = Some wan_net
        /\ uplink_address d = Some (mkAddr (broadcast_address wan_net))
        /\ uplink_address d = Some (ip 10 0 1 255))
  /\ (A = 254 -> 1 <= D <= 254 ->
      exists s st',
        Site_init site D A st = (Ok s, st')
        /\ Forall (fun d : Distribution =>
                     exists (a : Access) dnet,
                       List.length (accesses d) = 254%nat
                       /\ nth_error (accesses d) 253 = Some a
                       /\ own_network d = Some dnet
                       /\ uplink_address a = Some (mkAddr (broadcast_address dnet)))
                  (distributions s)).
Proof.
  intros H0. split; [|split; [|split]].
  - intros Hcase. pose proof (Site_init_overflow site D A st H0 Hcase) as H.
    unfold wp in H. destruct (Site_init site D A st) as [[s|e] st']; [contradiction|].
    subst e. now exists st'.
  - intros HD. destruct (Site_init_returns site D A st) as (s & st' & Hrun).
    + lia.
    + unfold fits. rewrite H0. lia.
    + exists s, st'. split; [exact Hrun|].
      destruct (Site_init_shape site D A st s st' ltac:(lia) Hrun) as (_ & _ & _ & Hd & _).
      replace (Z.to_nat D) with 0%nat in Hd by lia.
      apply map_eq_nil in Hd. exact Hd.
  - intros HD HA. destruct (Site_init_returns site D A st) as (s & st' & Hrun).
    + lia.
    + unfold fits. rewrite H0. lia.
    + destruct (Site_init_shape site D A st s st' ltac:(lia) Hrun)
        as (_ & _ & Hwan & Hd & _).
      assert (Hlen : List.length (distributions s) = 254%nat).
      { rewrite (length_map_eq _ _ _ _ Hd), length_upto. lia. }
      destruct (nth_error_last_of (distributions s) 253 Hlen) as (d & Hn).
      exists s, st', d, (net24 (vlans_counter st + 1)).
      destruct (nth_error_map_upto _ _ _ _ _ _ Hd Hn) as (Hdv & _).
      assert (Hup : uplink_address d
                    = Some (host (vlans_counter st + 1) (2 + Z.of_nat 253))).
      { unfold uplink_address.
        change (routed_vlans d) with (v_routed_vlans (v_switch (distribution_view d))).
        now rewrite Hdv. }
      split; [exact Hrun|]. split; [exact Hlen|]. split; [exact Hn|]. split; [|split].
      * unfold own_network.
        change (routed_vlans (wan s)) with (v_routed_vlans (switch_view (wan s))).
        now rewrite Hwan.
      * now rewrite Hup, host_255_broadcast.
      * rewrite Hup, H0. reflexivity.
  - intros HA HD. destruct (Site_init_returns site D A st) as (s & st' & Hrun).
    + lia.
    + unfold fits. rewrite H0. lia.
    + exists s, st'. split; [exact Hrun|].
      destruct (Site_init_shape site D A st s st' ltac:(lia) Hrun)
        as (_ & _ & _ & Hd & _).
      apply Forall_forall. intros d Hin. apply In_nth_error in Hin.
      destruct Hin as (n & Hn).
      destruct (nth_error_map_upto _ _ _ _ _ _ Hd Hn) as (Hdv & _).
      pose proof (f_equal v_accesses Hdv) as Haccs.
      cbn [distribution_view exp_site_distribution exp_distribution v_accesses] in Haccs.
      assert (Hlen : List.length (accesses d) = 254%nat).
      { rewrite (length_map_eq _ _ _ _ Haccs), length_upto. lia. }
      destruct (nth_error_last_of (accesses d) 253 Hlen) as (a & Hm).
      destruct (nth_error_map_upto _ _ _ _ _ _ Haccs Hm) as (Hav & _).
      exists a, (net24 (dist_vlan (vlans_counter st + 1) (Z.to_nat A) (Z.of_nat n))).
      split; [exact Hlen|]. split; [exact Hm|]. split.
      * unfold own_network.
        change (routed_vlans d) with (v_routed_vlans (v_switch (distribution_view d))).
        now rewrite Hdv.
      * unfold uplink_address.
        change (routed_vlans a) with (v_routed_vlans (access_view a)).
        rewrite Hav, <- host_255_broadcast. reflexivity.
Qed.

Lemma uplink_scheme_boundary_witness :
  (exists st', Site_init "lab" 255 0 fresh = (Err IndexError, st'))
  /\ (exists st', Site_init "lab" 1 255 fresh = (Err IndexError, st'))
  /\ (exists s st', Site_init "lab" 0 255 fresh = (Ok s, st') /\ distributions s = [])
  /\ (exists s st' d,
         Site_init "lab" 254 0 fresh = (Ok s, st')
         /\ nth_error (distributions s) 253 = Some d
         /\ uplink_address d = Some (ip 10 0 1 255)).
Proof.
  split; [|split; [|split]].
  - apply (proj1 (uplink_scheme_boundary "lab" 255 0 fresh eq_refl)). left. lia.
  - apply (proj1 (uplink_scheme_boundary "lab" 1 255 fresh eq_refl)). right. lia.
  - apply (proj1 (proj2 (uplink_scheme_boundary "lab" 0 255 fresh eq_refl))). lia.
  - destruct (proj1 (proj2 (proj2 (uplink_scheme_boundary "lab" 254 0 fresh eq_refl))))
      as (s & st' & d & wan_net & Hrun & _ & Hn & _ & _ & Hup); [reflexivity|lia|].
    exists s, st', d. repeat split; assumption.
Defined.

(* ================================================================== *)
(** * The devices of a finished site, one by one *)

(** The three kinds of device of a site that was returned, in closed
    form, with the bounds the build has respected. *)
Lemma fits_bounds c D A :
  0 <= c -> fits c D A ->
  let k := Z.to_nat D in
  let a := Z.to_nat A in
  0 <= c + 1 <= 65535
  /\ Z.of_nat k <= 254
  /\ (forall n, (n < k)%nat ->
                Z.of_nat a <= 254
                /\ forall m, (m <= a)%nat ->
                             c + 1 < dist_vlan (c + 1) a (Z.of_nat n) + Z.of_nat m <= 65535).
Proof.
  intros H0 Hfit k a. apply fits_of_nat in Hfit. fold k a in Hfit.
  destruct Hfit as (Hk & Ha & Hb).
  assert (Hpos : 0 <= Z.of_nat k * (1 + Z.of_nat a)) by (apply Z.mul_nonneg_nonneg; lia).
  split; [lia|]. split; [exact Hk|]. intros n Hn. split; [lia|]. intros m Hm.
  unfold dist_vlan.
  assert ((Z.of_nat n + 1) * (1 + Z.of_nat a) <= Z.of_nat k * (1 + Z.of_nat a))
    by (apply Z.mul_le_mono_nonneg_r; lia).
  assert (0 <= Z.of_nat n * (1 + Z.of_nat a)) by (apply Z.mul_nonneg_nonneg; lia).
  lia.
Qed.

Lemma distribution_at site D A st s st' n d :
  0 <= vlans_counter st ->
  Site_init site D A st = (Ok s, st') ->
  nth_error (distributions s) n = Some d ->
  (n < Z.to_nat D)%nat
  /\ distribution_view d
     = exp_site_distribution site (vlans_counter st + 1) (Z.to_nat A) (Z.of_nat n).
Proof.
  intros H0 Hrun Hn.
  destruct (Site_init_shape _ _ _ _ _ _ H0 Hrun) as (_ & _ & _ & Hdists & _).
  destruct (nth_error_map_upto _ _ _ _ _ _ Hdists Hn) as (Hdv & Hlt). now split.
Qed.

Lemma access_at site D A st s st' n d m (a : Access) :
  0 <= vlans_counter st ->
  Site_init site D A st = (Ok s, st') ->
  nth_error (distributions s) n = Some d ->
  nth_error (accesses d) m = Some a ->
  (n < Z.to_nat D)%nat /\ (m < Z.to_nat A)%nat
  /\ access_view a
     = exp_access (site ++ "-dist-" ++ str (Z.of_nat n))
                  (dist_vlan (vlans_counter st + 1) (Z.to_nat A) (Z.of_nat n))
                  (Z.of_nat m).
Proof.
  intros H0 Hrun Hn Hm.
  destruct (distribution_at _ _ _ _ _ _ _ _ H0 Hrun Hn) as (Hlt & Hdv).
  pose proof (f_equal v_accesses Hdv) as Haccs.
  cbn [distribution_view exp_site_distribution exp_distribution v_accesses] in Haccs.
  destruct (nth_error_map_upto _ _ _ _ _ _ Haccs Hm) as (Hav & Hlt'). now repeat split.
Qed.

Lemma wan_bindings site D A st s st' :
  0 <= vlans_counter st ->
  Site_init site D A st = (Ok s, st') ->
  routed_vlans (wan s)
  = [mkRoutedVLAN (vlan_of (vlans_counter st + 1)) (host (vlans_counter st + 1) 1)].
Proof.
  intros H0 Hrun.
  destruct (Site_init_shape _ _ _ _ _ _ H0 Hrun) as (_ & _ & Hwan & _).
  exact (f_equal v_routed_vlans Hwan).
Qed.

Lemma distribution_bindings site w a n (d : Distribution) :
  distribution_view d = exp_site_distribution site w a n ->
  routed_vlans d
  = [mkRoutedVLAN (vlan_of (dist_vlan w a n)) (host (dist_vlan w a n) 1);
     mkRoutedVLAN (vlan_of w) (host w (2 + n))].
Proof. intros H. exact (f_equal (fun v => v_routed_vlans (v_switch v)) H). Qed.

Lemma access_bindings dname dv m (a : Access) :
  access_view a = exp_access dname dv m ->
  routed_vlans a
  = [mkRoutedVLAN (vlan_of (dv + 1 + m)) (host (dv + 1 + m) 1);
     mkRoutedVLAN (vlan_of dv) (host dv (m + 2))].
Proof. intros H. exact (f_equal v_routed_vlans H). Qed.

Lemma map_route_view_one rts v :
  map route_view rts = [v] ->
  exists r, rts = [r] /\ dst_network r = fst v /\ next_hop r = snd v.
Proof.
  destruct rts as [|r [|r' rts]]; cbn [map]; intros H; try discriminate.
  exists r. injection H as H. split; [reflexivity|]. now rewrite <- H.
Qed.

Lemma map_route_view_snoc rts vs v :
  map route_view rts = vs ++ [v] ->
  exists front r, rts = front ++ [r] /\ map route_view front = vs /\ route_view r = v.
Proof.
  intros H. destruct (exists_last (l := rts)) as (front & r & ->).
  - intros ->. destruct vs; discriminate H.
  - rewrite map_app in H. cbn [map] in H. apply app_inj_tail in H.
    destruct H as [Hf Hr]. now exists front, r.
Qed.

(** X1: the site that [Site(name, D, A)] returns has [max(D,0)]
    distributions with [max(A,0)] accesses each, hence
    [1 + D + D*A] devices; the WAN switch has one interface, every
    distribution and every access has two. *)
Theorem site_shape (site : string) (D A : Z) (st : State) (s : Site) (st' : State) :
  0 <= vlans_counter st ->
  Site_init site D A st = (Ok s, st') ->
  site_name s = site
  /\ Z.of_nat (List.length (distributions s)) = Z.max D 0
  /\ Forall (fun d : Distribution =>
               Z.of_nat (List.length (accesses d)) = Z.max A 0
               /\ List.length (routed_vlans d) = 2%nat
               /\ Forall (fun a : Access => List.length (routed_vlans a) = 2%nat)
                         (accesses d))
            (distributions s)
  /\ List.length (routed_vlans (wan s)) = 1%nat
  /\ Z.of_nat (List.length (devices s)) = 1 + Z.max D 0 + Z.max D 0 * Z.max A 0.
Proof.
  intros H0 Hrun.
  destruct (Site_init_inv _ _ _ _ _ _ H0 Hrun) as (_ & Hview & _).
  destruct (Site_init_shape _ _ _ _ _ _ H0 Hrun) as (_ & _ & _ & Hdists & _).
  assert (Hlen : List.length (distributions s) = Z.to_nat D).
  { rewrite (length_map_eq _ _ _ _ Hdists). apply length_upto. }
  assert (Hacc : forall d, In d (distributions s) ->
                           List.length (accesses d) = Z.to_nat A
                           /\ List.length (routed_vlans d) = 2%nat
                           /\ Forall (fun a : Access => List.length (routed_vlans a) = 2%nat)
                                     (accesses d)).
  { intros d Hd. apply In_nth_error in Hd. destruct Hd as (n & Hn).
    destruct (distribution_at _ _ _ _ _ _ _ _ H0 Hrun Hn) as (_ & Hdv).
    split; [|split].
    - pose proof (f_equal v_accesses Hdv) as Haccs.
      cbn [distribution_view exp_site_distribution exp_distribution v_accesses] in Haccs.
      rewrite (length_map_eq _ _ _ _ Haccs). apply length_upto.
    - now rewrite (distribution_bindings _ _ _ _ _ Hdv).
    - apply Forall_forall. intros a Ha. apply In_nth_error in Ha. destruct Ha as (m & Hm).
      destruct (access_at _ _ _ _ _ _ _ _ _ _ H0 Hrun Hn Hm) as (_ & _ & Hav).
      now rewrite (access_bindings _ _ _ _ Hav). }
  split; [exact (f_equal v_site_name Hview)|]. split; [lia|]. split; [|split].
  - apply Forall_forall. intros d Hd. destruct (Hacc d Hd) as (Ha & Hrv & Hall).
    split; [lia|]. now split.
  - now rewrite (wan_bindings _ _ _ _ _ _ H0 Hrun).
  - unfold devices. cbn [List.length].
    rewrite (flat_map_constant_length (c := S (Z.to_nat A))).
    + rewrite Hlen. lia.
    + intros d Hd. unfold distribution_devices. cbn [List.length].
      rewrite length_map. now rewrite (proj1 (Hacc d Hd)).
Qed.

Lemma site_shape_witness :
  exists s st',
    Site_init "lab" 2 3 fresh = (Ok s, st')
    /\ Z.of_nat (List.length (distributions s)) = 2
    /\ Z.of_nat (List.length (devices s)) = 9.
Proof.
  destruct (Site_init_returns "lab" 2 3 fresh ltac:(cbn; lia)) as (s & st' & Hrun).
  - unfold fits. cbn. lia.
  - exists s, st'. split; [exact Hrun|].
    destruct (site_shape "lab" 2 3 fresh s st' ltac:(cbn; lia) Hrun)
      as (_ & Hd & _ & _ & Hdev).
    split; [exact Hd|exact Hdev].
Defined.

Lemma nth_error_lt {A} (l : list A) n :
  (n < List.length l)%nat -> exists x, nth_error l n = Some x.
Proof.
  intros Hlt. destruct (nth_error l n) as [x|] eqn:Hx; [now exists x|].
  apply nth_error_None in Hx. lia.
Qed.

Lemma distributions_length site D A st s st' :
  0 <= vlans_counter st ->
  Site_init site D A st = (Ok s, st') ->
  List.length (distributions s) = Z.to_nat D.
Proof.
  intros H0 Hrun.
  destruct (Site_init_shape _ _ _ _ _ _ H0 Hrun) as (_ & _ & _ & Hdists & _).
  rewrite (length_map_eq _ _ _ _ Hdists). apply length_upto.
Qed.

Lemma accesses_length site D A st s st' n d :
  0 <= vlans_counter st ->
  Site_init site D A st = (Ok s, st') ->
  nth_error (distributions s) n = Some d ->
  List.length (accesses d) = Z.to_nat A.
Proof.
  intros H0 Hrun Hn.
  destruct (distribution_at _ _ _ _ _ _ _ _ H0 Hrun Hn) as (_ & Hdv).
  pose proof (f_equal v_accesses Hdv) as Haccs.
  cbn [distribution_view exp_site_distribution exp_distribution v_accesses] in Haccs.
  rewrite (length_map_eq _ _ _ _ Haccs). apply length_upto.
Qed.

Lemma device_cases site D A st s st' sw :
  0 <= vlans_counter st ->
  Site_init site D A st = (Ok s, st') ->
  In sw (devices s) ->
  let w := vlans_counter st + 1 in
  let a := Z.to_nat A in
  switch_view sw = exp_wan site w a (Z.to_nat D)
  \/ (exists n, (n < Z.to_nat D)%nat
                /\ switch_view sw = v_switch (exp_site_distribution site w a (Z.of_nat n)))
  \/ (exists n m, (n < Z.to_nat D)%nat /\ (m < a)%nat
                  /\ switch_view sw
                     = exp_access (site ++ "-dist-" ++ str (Z.of_nat n))
                                  (dist_vlan w a (Z.of_nat n)) (Z.of_nat m)).
Proof.
  intros H0 Hrun Hsw w a. destruct Hsw as [<-|Hsw].
  - left. now destruct (Site_init_shape _ _ _ _ _ _ H0 Hrun) as (_ & _ & Hwan & _).
  - right. apply in_flat_map in Hsw. destruct Hsw as (d & Hd & Hsw).
    apply In_nth_error in Hd. destruct Hd as (n & Hn).
    destruct Hsw as [<-|Hsw].
    + left. destruct (distribution_at _ _ _ _ _ _ _ _ H0 Hrun Hn) as (Hlt & Hdv).
      exists n. split; [exact Hlt|]. exact (f_equal v_switch Hdv).
    + right. apply in_map_iff in Hsw. destruct Hsw as (acc & <- & Hacc).
      apply In_nth_error in Hacc. destruct Hacc as (m & Hm).
      destruct (access_at _ _ _ _ _ _ _ _ _ _ H0 Hrun Hn Hm) as (Hlt & Hlt' & Hav).
      exists n, m. now repeat split.
Qed.

Lemma host_in_net24 k i : 0 <= i <= 255 -> address_in (host k i) (net24 k) = true.
Proof.
  intros Hi. unfold address_in, IPv4Network_contains. rewrite broadcast_net24.
  cbn [net24 host network_address addr_int].
  apply andb_true_iff. split; apply Z.leb_le; lia.
Qed.

Lemma host_neq k i j : i <> j -> host k i <> host k j.
Proof. intros Hij H. apply (f_equal addr_int) in H. cbn [host addr_int] in H. lia. Qed.

(** X2: every interface address of a finished site lies in the subnet of
    the VLAN it is bound into. *)
Theorem bindings_inside_subnet (site : string) (D A : Z) (st : State) (s : Site)
    (st' : State) :
  0 <= vlans_counter st ->
  Site_init site D A st = (Ok s, st') ->
  Forall (fun rv => address_in (ip_address rv) (network (vlan rv)) = true) (bindings s).
Proof.
  intros H0 Hrun. apply Forall_forall. intros rv Hrv.
  unfold bindings in Hrv. apply in_flat_map in Hrv. destruct Hrv as (sw & Hsw & Hrv).
  destruct (Site_init_inv _ _ _ _ _ _ H0 Hrun) as (Hfit & _).
  destruct (fits_bounds _ _ _ H0 Hfit) as (_ & Hk & Hn).
  change (routed_vlans sw) with (v_routed_vlans (switch_view sw)) in Hrv.
  destruct (device_cases _ _ _ _ _ _ _ H0 Hrun Hsw) as [Hv|[(n & Hlt & Hv)|(n & m & Hlt & Hlt' & Hv)]];
    rewrite Hv in Hrv; cbn [exp_wan exp_site_distribution exp_distribution exp_access
                             v_switch v_routed_vlans In] in Hrv.
  - destruct Hrv as [<-|[]]. apply host_in_net24. lia.
  - destruct Hrv as [<-|[<-|[]]]; apply host_in_net24; lia.
  - destruct (Hn n Hlt) as (Ha & _).
    destruct Hrv as [<-|[<-|[]]]; apply host_in_net24; lia.
Qed.

Lemma bindings_inside_subnet_witness :
  exists s st',
    Site_init "lab" 2 3 fresh = (Ok s, st')
    /\ Forall (fun rv => address_in (ip_address rv) (network (vlan rv)) = true) (bindings s).
Proof.
  destruct (Site_init_returns "lab" 2 3 fresh ltac:(cbn; lia)) as (s & st' & Hrun).
  - unfold fits. cbn. lia.
  - exists s, st'. split; [exact Hrun|].
    exact (bindings_inside_subnet "lab" 2 3 fresh s st' ltac:(cbn; lia) Hrun).
Defined.

(** X3: the uplink of a distribution is bound into the very VLAN the WAN
    switch allocated for itself, and the uplink of access [m] of a
    distribution is bound into that distribution's own VLAN, at the
    address [network[m + 2]] of its subnet. *)
Theorem uplinks_into_parent_vlan (site : string) (D A : Z) (st : State) (s : Site)
    (st' : State) (n : nat) (d : Distribution) :
  0 <= vlans_counter st ->
  Site_init site D A st = (Ok s, st') ->
  nth_error (distributions s) n = Some d ->
  (exists wv, own_vlan (wan s) = Some wv /\ uplink_vlan d = Some wv)
  /\ forall m (a : Access),
      nth_error (accesses d) m = Some a ->
      exists dv hop,
        own_vlan d = Some dv
        /\ uplink_vlan a = Some dv
        /\ uplink_address a = Some hop
        /\ IPv4Network_getitem (network dv) (Z.of_nat m + 2) = Ok hop.
Proof.
  intros H0 Hrun Hn.
  destruct (distribution_at _ _ _ _ _ _ _ _ H0 Hrun Hn) as (Hlt & Hdv).
  destruct (Site_init_inv _ _ _ _ _ _ H0 Hrun) as (Hfit & _).
  destruct (fits_bounds _ _ _ H0 Hfit) as (_ & _ & Hb).
  split.
  - exists (vlan_of (vlans_counter st + 1)). unfold own_vlan, uplink_vlan.
    rewrite (wan_bindings _ _ _ _ _ _ H0 Hrun), (distribution_bindings _ _ _ _ _ Hdv).
    split; reflexivity.
  - intros m a Hm.
    destruct (access_at _ _ _ _ _ _ _ _ _ _ H0 Hrun Hn Hm) as (_ & Hlt' & Hav).
    destruct (Hb n Hlt) as (Ha & Hid).
    set (dv := dist_vlan (vlans_counter st + 1) (Z.to_nat A) (Z.of_nat n)) in *.
    exists (vlan_of dv), (host dv (Z.of_nat m + 2)).
    unfold own_vlan, uplink_vlan, uplink_address.
    rewrite (distribution_bindings _ _ _ _ _ Hdv), (access_bindings _ _ _ _ Hav).
    repeat split. cbn [vlan_of network]. apply getitem_net24_ok; [|lia].
    specialize (Hid 0%nat ltac:(lia)). fold dv in Hid. lia.
Qed.

Lemma uplinks_into_parent_vlan_witness :
  exists s st' d,
    Site_init "lab" 2 3 fresh = (Ok s, st')
    /\ nth_error (distributions s) 1 = Some d
    /\ exists wv, own_vlan (wan s) = Some wv /\ uplink_vlan d = Some wv.
Proof.
  destruct (Site_init_returns "lab" 2 3 fresh ltac:(cbn; lia)) as (s & st' & Hrun).
  - unfold fits. cbn. lia.
  - destruct (nth_error_lt (distributions s) 1) as (d & Hd).
    + rewrite (distributions_length "lab" 2 3 fresh s st' ltac:(cbn; lia) Hrun). cbn. lia.
    + exists s, st', d. split; [exact Hrun|]. split; [exact Hd|].
      exact (proj1 (uplinks_into_parent_vlan "lab" 2 3 fresh s st' 1 d
                      ltac:(cbn; lia) Hrun Hd)).
Defined.

(* ================================================================== *)
(** * The routing tables of the distributions and of the accesses *)

(** X4: the routing table of every access of a finished site holds
    exactly one route, a default route whose next hop is the own address
    of the distribution that owns the access. *)
Theorem access_routing_table (site : string) (D A : Z) (st : State) (s : Site)
    (st' : State) (d : Distribution) (a : Access) :
  0 <= vlans_counter st ->
  Site_init site D A st = (Ok s, st') ->
  In d (distributions s) -> In a (accesses d) ->
  exists r,
    routes (routing_table a) = [r]
    /\ dst_network r = net0
    /\ own_address d = Some (next_hop r).
Proof.
  intros H0 Hrun Hd Ha.
  apply In_nth_error in Hd. destruct Hd as (n & Hn).
  apply In_nth_error in Ha. destruct Ha as (m & Hm).
  destruct (distribution_at _ _ _ _ _ _ _ _ H0 Hrun Hn) as (_ & Hdv).
  destruct (access_at _ _ _ _ _ _ _ _ _ _ H0 Hrun Hn Hm) as (_ & _ & Hav).
  pose proof (f_equal v_routes Hav) as Hrts.
  cbn [access_view switch_view exp_access v_routes] in Hrts.
  apply map_route_view_one in Hrts. destruct Hrts as (r & Hr & Hdst & Hhop).
  exists r. split; [exact Hr|]. split; [exact Hdst|].
  unfold own_address. rewrite (distribution_bindings _ _ _ _ _ Hdv), Hhop. reflexivity.
Qed.

Lemma access_routing_table_witness :
  exists s st' d a r,
    Site_init "lab" 2 3 fresh = (Ok s, st')
    /\ nth_error (distributions s) 1 = Some d
    /\ nth_error (accesses d) 2 = Some a
    /\ routes (routing_table a) = [r]
    /\ dst_network r = net0.
Proof.
  destruct (Site_init_returns "lab" 2 3 fresh ltac:(cbn; lia)) as (s & st' & Hrun).
  - unfold fits. cbn. lia.
  - destruct (nth_error_lt (distributions s) 1) as (d & Hd).
    + rewrite (distributions_length "lab" 2 3 fresh s st' ltac:(cbn; lia) Hrun). cbn. lia.
    + destruct (nth_error_lt (accesses d) 2) as (a & Ha).
      * rewrite (accesses_length "lab" 2 3 fresh s st' 1 d ltac:(cbn; lia) Hrun Hd).
        cbn. lia.
      * destruct (access_routing_table "lab" 2 3 fresh s st' d a ltac:(cbn; lia) Hrun
                    (nth_error_In _ _ Hd) (nth_error_In _ _ Ha)) as (r & Hr & Hdst & _).
        exists s, st', d, a, r. repeat split; assumption.
Defined.

(** X5: the routing table of every distribution of a finished site holds
    [A + 1] routes: first, in the order of the accesses, one route per
    access to its own subnet through its uplink address; last, a default
    route whose next hop is the own address of the WAN switch. *)
Theorem distribution_routing_table (site : string) (D A : Z) (st : State) (s : Site)
    (st' : State) (d : Distribution) :
  0 <= vlans_counter st ->
  Site_init site D A st = (Ok s, st') ->
  In d (distributions s) ->
  exists learnt dflt,
    routes (routing_table d) = learnt ++ [dflt]
    /\ Forall2 route_to_access learnt (accesses d)
    /\ Z.of_nat (List.length learnt) = Z.max A 0
    /\ dst_network dflt = net0
    /\ own_address (wan s) = Some (next_hop dflt).
Proof.
  intros H0 Hrun Hd. apply In_nth_error in Hd. destruct Hd as (n & Hn).
  destruct (distribution_at _ _ _ _ _ _ _ _ H0 Hrun Hn) as (_ & Hdv).
  pose proof (f_equal (fun v => v_routes (v_switch v)) Hdv) as Hrts.
  pose proof (f_equal v_accesses Hdv) as Haccs.
  cbn [distribution_view switch_view exp_site_distribution exp_distribution
       v_switch v_routes v_accesses] in Hrts, Haccs.
  apply map_route_view_snoc in Hrts. destruct Hrts as (learnt & dflt & Hr & Hl & Hdf).
  exists learnt, dflt. split; [exact Hr|]. split; [|split; [|split]].
  - apply (Forall2_of_maps
             (fun (v : IPv4Network * IPv4Address) (av : SwitchView) =>
                first_network (v_routed_vlans av) = Some (fst v)
                /\ second_address (v_routed_vlans av) = Some (snd v))
             route_view access_view).
    rewrite Hl, Haccs. unfold exp_access_routes. apply Forall2_map_both.
    intros m _. split; reflexivity.
  - rewrite <- (length_map route_view), Hl. unfold exp_access_routes.
    rewrite length_map, length_upto. lia.
  - exact (f_equal fst Hdf).
  - unfold own_address. rewrite (wan_bindings _ _ _ _ _ _ H0 Hrun).
    cbn [nth_error option_map ip_address]. f_equal. symmetry. exact (f_equal snd Hdf).
Qed.

Lemma distribution_routing_table_witness :
  exists s st' d learnt dflt,
    Site_init "lab" 2 3 fresh = (Ok s, st')
    /\ nth_error (distributions s) 1 = Some d
    /\ routes (routing_table d) = learnt ++ [dflt]
    /\ Z.of_nat (List.length learnt) = 3.
Proof.
  destruct (Site_init_returns "lab" 2 3 fresh ltac:(cbn; lia)) as (s & st' & Hrun).
  - unfold fits. cbn. lia.
  - destruct (nth_error_lt (distributions s) 1) as (d & Hd).
    + rewrite (distributions_length "lab" 2 3 fresh s st' ltac:(cbn; lia) Hrun). cbn. lia.
    + destruct (distribution_routing_table "lab" 2 3 fresh s st' d ltac:(cbn; lia) Hrun
                  (nth_error_In _ _ Hd)) as (learnt & dflt & Hr & _ & Hlen & _).
      exists s, st', d, learnt, dflt. repeat split; assumption.
Defined.

(** X6: in a finished site every next hop is the address of a
    neighbour: for every device and every route of its table, the next
    hop lies in the subnet of one of the interfaces of that device and is
    not that interface's own address. *)
Theorem next_hops_directly_connected (site : string) (D A : Z) (st : State) (s : Site)
    (st' : State) :
  0 <= vlans_counter st ->
  Site_init site D A st = (Ok s, st') ->
  Forall (fun sw => Forall (fun r => directly_connected sw (next_hop r))
                           (routes (routing_table sw)))
         (devices s).
Proof.
  intros H0 Hrun. apply Forall_forall. intros sw Hsw. apply Forall_forall. intros r Hr.
  destruct (Site_init_inv _ _ _ _ _ _ H0 Hrun) as (Hfit & _).
  destruct (fits_bounds _ _ _ H0 Hfit) as (_ & Hk & Hb).
  assert (Hin : In (route_view r) (v_routes (switch_view sw))) by now apply in_map.
  unfold directly_connected.
  change (routed_vlans sw) with (v_routed_vlans (switch_view sw)).
  change (next_hop r) with (snd (route_view r)).
  destruct (device_cases _ _ _ _ _ _ _ H0 Hrun Hsw)
    as [Hv|[(n & Hlt & Hv)|(n & m & Hlt & Hlt' & Hv)]];
    rewrite Hv in *;
    cbn [exp_wan exp_site_distribution exp_distribution exp_access
         v_switch v_routed_vlans v_routes] in *.
  - apply in_flat_map in Hin. destruct Hin as (x & Hx & Hin).
    unfold exp_wan_routes_of in Hin. apply in_map_iff in Hin.
    destruct Hin as (y & <- & _). cbn [snd].
    apply In_nth_error in Hx. destruct Hx as (i & Hi). apply nth_error_upto in Hi.
    destruct Hi as (-> & Hi).
    eexists. split; [now left|]. cbn [vlan ip_address vlan_of network].
    split; [apply host_in_net24; lia|apply host_neq; lia].
  - apply in_app_iff in Hin. destruct Hin as [Hin|[<-|[]]].
    + unfold exp_access_routes in Hin. apply in_map_iff in Hin.
      destruct Hin as (y & <- & Hy). cbn [snd].
      apply In_nth_error in Hy. destruct Hy as (i & Hi). apply nth_error_upto in Hi.
      destruct Hi as (-> & Hi). destruct (Hb n Hlt) as (Ha & _).
      eexists. split; [now left|]. cbn [vlan ip_address vlan_of network].
      split; [apply host_in_net24; lia|apply host_neq; lia].
    + cbn [snd]. eexists. split; [right; now left|]. cbn [vlan ip_address vlan_of network].
      split; [apply host_in_net24; lia|apply host_neq; lia].
  - destruct Hin as [<-|[]]. cbn [snd]. destruct (Hb n Hlt) as (Ha & _).
    eexists. split; [right; now left|]. cbn [vlan ip_address vlan_of network].
    split; [apply host_in_net24; lia|apply host_neq; lia].
Qed.

Lemma next_hops_directly_connected_witness :
  exists s st',
    Site_init "lab" 2 3 fresh = (Ok s, st')
    /\ Forall (fun sw => Forall (fun r => directly_connected sw (next_hop r))
                                (routes (routing_table sw)))
              (devices s).
Proof.
  destruct (Site_init_returns "lab" 2 3 fresh ltac:(cbn; lia)) as (s & st' & Hrun).
  - unfold fits. cbn. lia.
  - exists s, st'. split; [exact Hrun|].
    exact (next_hops_directly_connected "lab" 2 3 fresh s st' ltac:(cbn; lia) Hrun).
Defined.

(* ================================================================== *)
(** * More on routing tables *)

Lemma list_contains_true route l :
  list_contains route l = true <->
  exists pre x post, l = pre ++ x :: post
                     /\ Route_eqb x route = true
                     /\ (forall y, In y pre -> Route_eqb y route = false).
Proof.
  unfold list_contains. induction l as [|z l IH]; cbn [existsb].
  - split; [discriminate|]. intros (pre & x & post & H & _). destruct pre; discriminate H.
  - destruct (Route_eqb z route) eqn:Hz; cbn [orb].
    + split; [intros _|reflexivity]. exists [], z, l. repeat split; auto. intros y [].
    + rewrite IH. split.
      * intros (pre & x & post & -> & Hx & Hpre). exists (z :: pre), x, post.
        repeat split; auto. intros y [<-|Hy]; auto.
      * intros (pre & x & post & Heq & Hx & Hpre). destruct pre as [|p pre].
        -- cbn [app] in Heq. injection Heq as -> ->. congruence.
        -- cbn [app] in Heq. injection Heq as -> ->. exists pre, x, post.
           repeat split; auto. intros y Hy. apply Hpre. now right.
Qed.

(** X7: [remove] returns a table exactly when the route is in the table
    ([route in routes]), whether or not assertions are enabled; the table
    it returns has one entry less. *)
Theorem RoutingTable_remove_iff (optimize : bool) (rt : RoutingTable) (route : Route) :
  (list_contains route (routes rt) = true <->
   exists rt', RoutingTable_remove optimize rt route = Ok rt')
  /\ forall rt', RoutingTable_remove optimize rt route = Ok rt' ->
                 S (List.length (routes rt')) = List.length (routes rt).
Proof.
  assert (Hfound : list_contains route (routes rt) = true ->
                   exists rt', RoutingTable_remove optimize rt route = Ok rt'
                               /\ S (List.length (routes rt')) = List.length (routes rt)).
  { intros Hin. apply list_contains_true in Hin.
    destruct Hin as (pre & x & post & Heq & Hx & Hpre).
    exists (mkRoutingTable (pre ++ post)). split.
    - unfold RoutingTable_remove.
      assert (Hc : list_contains route (routes rt) = true).
      { apply list_contains_true. now exists pre, x, post. }
      rewrite Hc, andb_false_r, Heq, list_remove_first by assumption. reflexivity.
    - rewrite Heq. cbn [routes]. rewrite !length_app. cbn [List.length]. lia. }
  assert (Hmissing : list_contains route (routes rt) = false ->
                     exists e, RoutingTable_remove optimize rt route = Err e).
  { intros Hout. unfold RoutingTable_remove. rewrite Hout.
    destruct optimize; cbn [negb andb]; [|now eexists].
    rewrite list_remove_absent; [now eexists|]. now apply list_contains_false. }
  split.
  - split.
    + intros Hin. destruct (Hfound Hin) as (rt' & Hrt' & _). now exists rt'.
    + intros (rt' & Hrt'). destruct (list_contains route (routes rt)) eqn:Hc; [reflexivity|].
      destruct (Hmissing eq_refl) as (e & He). congruence.
  - intros rt' Hrt'. destruct (list_contains route (routes rt)) eqn:Hc.
    + destruct (Hfound eq_refl) as (rt'' & Hrt'' & Hlen). congruence.
    + destruct (Hmissing eq_refl) as (e & He). congruence.
Qed.

Lemma RoutingTable_remove_iff_witness :
  let a := mkRoute 0 net0 (ip 10 0 1 1) in
  let b := mkRoute 1 (cidr 10 0 3 0 24) (ip 10 0 1 2) in
  exists rt', RoutingTable_remove true (mkRoutingTable [a; b]) b = Ok rt'
              /\ S (List.length (routes rt')) = 2%nat.
Proof.
  intros a b.
  destruct (RoutingTable_remove_iff true (mkRoutingTable [a; b]) b) as (Hiff & Hlen).
  destruct (proj1 Hiff eq_refl) as (rt' & Hrt').
  exists rt'. split; [exact Hrt'|]. exact (Hlen rt' Hrt').
Defined.

(** X8: [add] followed by [remove] of the same route.  When the route was
    not in the table, the table is back to what it was.  When the route
    was already in the table ([add] checks nothing), it is the older
    entry that goes: the first occurrence is dropped and the route stays
    as the last entry. *)
Theorem RoutingTable_add_remove (optimize : bool) (rt : RoutingTable) (route : Route) :
  ((forall y, In y (routes rt) -> Route_eqb y route = false) ->
   RoutingTable_remove optimize (RoutingTable_add rt route) route = Ok rt)
  /\ (forall pre x post,
         routes rt = pre ++ x :: post ->
         Route_eqb x route = true ->
         (forall y, In y pre -> Route_eqb y route = false) ->
         RoutingTable_remove optimize (RoutingTable_add rt route) route
         = Ok (mkRoutingTable (pre ++ post ++ [route]))).
Proof.
  assert (Hself : Route_eqb route route = true) by apply Nat.eqb_refl.
  split.
  - intros Habs. destruct rt as [l]. cbn [routes] in Habs.
    unfold RoutingTable_remove, RoutingTable_add. cbn [routes].
    assert (Hc : list_contains route (l ++ [route]) = true).
    { unfold list_contains. rewrite existsb_app. cbn [existsb].
      rewrite Hself. now rewrite orb_true_r. }
    rewrite Hc, andb_false_r, (list_remove_first route l route []) by assumption.
    now rewrite app_nil_r.
  - intros pre x post Heq Hx Hpre.
    unfold RoutingTable_remove, RoutingTable_add. cbn [routes]. rewrite Heq.
    assert (Hc : list_contains route ((pre ++ x :: post) ++ [route]) = true).
    { unfold list_contains. rewrite !existsb_app. cbn [existsb].
      rewrite Hx. cbn [orb]. now rewrite orb_true_r. }
    rewrite Hc, andb_false_r, <- app_assoc. cbn [app].
    rewrite (list_remove_first route pre x (post ++ [route])) by assumption. reflexivity.
Qed.

Lemma RoutingTable_add_remove_witness :
  let a := mkRoute 0 net0 (ip 10 0 1 1) in
  let b := mkRoute 1 (cidr 10 0 3 0 24) (ip 10 0 1 2) in
  RoutingTable_remove false (RoutingTable_add (mkRoutingTable [a]) b) b
  = Ok (mkRoutingTable [a])
  /\ RoutingTable_remove false (RoutingTable_add (mkRoutingTable [a; b]) b) b
     = Ok (mkRoutingTable [a; b]).
Proof.
  intros a b. split.
  - apply (proj1 (RoutingTable_add_remove false (mkRoutingTable [a]) b)).
    intros y [<-|[]]. reflexivity.
  - apply (proj2 (RoutingTable_add_remove false (mkRoutingTable [a; b]) b) [a] b []).
    + reflexivity.
    + reflexivity.
    + intros y [<-|[]]. reflexivity.
Defined.

Lemma concat_snoc sep (l : list string) x :
  String.concat sep (l ++ [x])
  = match l with
    | [] => x
    | _ => (String.concat sep l ++ sep ++ x)%string
    end.
Proof.
  induction l as [|y l IH]; [reflexivity|].
  destruct l as [|z l].
  - reflexivity.
  - change (String.concat sep ((y :: z :: l) ++ [x]))
      with (y ++ sep ++ String.concat sep ((z :: l) ++ [x]))%string.
    rewrite IH.
    change (String.concat sep (y :: z :: l))
      with (y ++ sep ++ String.concat sep (z :: l))%string.
    now rewrite !string_append_assoc.
Qed.

(** X9: [repr] of a table is one line per route, in insertion order: the
    empty table prints as the empty string, and [add] extends the text by
    a newline and [repr(route)] (by [repr(route)] alone when the table
    was empty).  A route prints as ["<network> via <next hop>"]. *)
Theorem RoutingTable_repr_add (rt : RoutingTable) (route : Route) :
  RoutingTable_repr RoutingTable_init = EmptyString
  /\ RoutingTable_repr (RoutingTable_add rt route)
     = match routes rt with
       | [] => Route_repr route
       | _ => (RoutingTable_repr rt ++ newline ++ Route_repr route)%string
       end
  /\ Route_repr route
     = (IPv4Network_str (dst_network route) ++ " via "
        ++ IPv4Address_str (next_hop route))%string.
Proof.
  split; [reflexivity|]. split; [|reflexivity].
  unfold RoutingTable_repr, RoutingTable_add. cbn [routes].
  rewrite map_app. cbn [map]. rewrite concat_snoc.
  now destruct (routes rt).
Qed.

(* ================================================================== *)
(** * Route redistribution, for any table *)

Lemma redistribute_body_default n r (wan : Switch) st :
  IPv4Network_eqb (dst_network r) net0 = true ->
  redistribute_body n r wan st = (Ok wan, st).
Proof.
  intros Hdef. unfold redistribute_body, bind, lift. rewrite default_network_ok, Hdef.
  reflexivity.
Qed.

Lemma redistribute_body_copy n r (wan : Switch) rv0 rest st :
  routed_vlans wan = rv0 :: rest ->
  IPv4Network_eqb (dst_network r) net0 = false ->
  redistribute_body n r wan st
  = match IPv4Network_getitem (network (vlan rv0)) (2 + n) with
    | Ok hop =>
        (Ok (add_route wan (mkRoute (next_oid st) (dst_network r) hop)),
         mkState (vlans_counter st) (S (next_oid st)))
    | Err e => (Err e, st)
    end.
Proof.
  intros Hrvs Hdef. unfold redistribute_body, bind, lift, index.
  rewrite default_network_ok, Hdef, Hrvs. cbn [nth_error ret].
  now destruct (IPv4Network_getitem (network (vlan rv0)) (2 + n)).
Qed.

(** X10: the redistribution loop of [Site.__init__], for any table of
    the distribution and any WAN switch with an interface.  When
    [wan.network[2+n]] exists, the loop appends to the WAN table one new
    route per non-default entry of the distribution, in order and
    duplicates included, with the same destination and that address as
    next hop; it keeps the routes the WAN switch already had and changes
    nothing else.  When the index is out of range, the loop raises as
    soon as it meets a non-default entry, and is a no-op on a table of
    default routes only. *)
Theorem redistribute_routes (n : Z) (rts : list Route) (wan : Switch)
    (rv0 : RoutedVLAN) (rest : list RoutedVLAN) (st : State) :
  routed_vlans wan = rv0 :: rest ->
  let keep := filter (fun r => negb (IPv4Network_eqb (dst_network r) net0)) rts in
  (forall hop,
      IPv4Network_getitem (network (vlan rv0)) (2 + n) = Ok hop ->
      exists wan' st' added,
        forM rts (redistribute_body n) wan st = (Ok wan', st')
        /\ name wan' = name wan
        /\ routed_vlans wan' = routed_vlans wan
        /\ routes (routing_table wan') = routes (routing_table wan) ++ added
        /\ map route_view added = map (fun r => (dst_network r, hop)) keep
        /\ vlans_counter st' = vlans_counter st)
  /\ (forall e,
         IPv4Network_getitem (network (vlan rv0)) (2 + n) = Err e ->
         (keep = [] -> forM rts (redistribute_body n) wan st = (Ok wan, st))
         /\ (keep <> [] -> exists st', forM rts (redistribute_body n) wan st = (Err e, st'))).
Proof.
  intros Hrvs keep. subst keep. split.
  - intros hop Hhop. revert wan st Hrvs.
    induction rts as [|r rts IH]; intros wan st Hrvs.
    + exists wan, st, []. cbn. rewrite app_nil_r. repeat split.
    + cbn [forM filter]. unfold bind at 1.
      destruct (IPv4Network_eqb (dst_network r) net0) eqn:Hdef; cbn [negb].
      * rewrite (redistribute_body_default _ _ _ _ Hdef). apply IH. exact Hrvs.
      * rewrite (redistribute_body_copy _ _ _ _ _ _ Hrvs Hdef), Hhop.
        destruct (IH (add_route wan (mkRoute (next_oid st) (dst_network r) hop))
                     (mkState (vlans_counter st) (S (next_oid st))) Hrvs)
          as (wan' & st' & added & Hrun & Hnm & Hrv & Hrt & Hview & Hc).
        exists wan', st', (mkRoute (next_oid st) (dst_network r) hop :: added).
        split; [exact Hrun|]. split; [exact Hnm|]. split; [exact Hrv|].
        split; [|split; [|exact Hc]].
        -- rewrite Hrt. cbn [add_route routing_table routes RoutingTable_add].
           now rewrite <- app_assoc.
        -- cbn [map]. now rewrite Hview.
  - intros e He. revert wan st Hrvs.
    induction rts as [|r rts IH]; intros wan st Hrvs.
    + split; [reflexivity|]. intros H. now contradiction H.
    + cbn [forM filter]. unfold bind at 1 2.
      destruct (IPv4Network_eqb (dst_network r) net0) eqn:Hdef; cbn [negb].
      * rewrite (redistribute_body_default _ _ _ _ Hdef). apply IH. exact Hrvs.
      * rewrite (redistribute_body_copy _ _ _ _ _ _ Hrvs Hdef), He.
        split; [discriminate|]. intros _. now exists st.
Qed.

Lemma redistribute_routes_witness :
  let wan := mkSwitch "w" [mkRoutedVLAN (mkVLAN 1 (cidr 10 0 1 0 24)) (ip 10 0 1 1)]
                      RoutingTable_init in
  let rts := [mkRoute 0 (cidr 10 0 3 0 24) (ip 10 0 2 2);
              mkRoute 1 net0 (ip 10 0 1 1);
              mkRoute 2 (cidr 10 0 3 0 24) (ip 10 0 2 2)] in
  (exists wan' st' added,
      forM rts (redistribute_body 0) wan (mkState 3 3) = (Ok wan', st')
      /\ routes (routing_table wan') = added
      /\ map route_view added
         = [(cidr 10 0 3 0 24, ip 10 0 1 2); (cidr 10 0 3 0 24, ip 10 0 1 2)])
  /\ (exists st', forM rts (redistribute_body 254) wan (mkState 3 3) = (Err IndexError, st')).
Proof.
  intros wan rts. split.
  - destruct (proj1 (redistribute_routes 0 rts wan _ _ (mkState 3 3) eq_refl)
                (ip 10 0 1 2) eq_refl)
      as (wan' & st' & added & Hrun & _ & _ & Hrt & Hview & _).
    exists wan', st', added. split; [exact Hrun|]. split; [exact Hrt|exact Hview].
  - refine (proj2 (proj2 (redistribute_routes 254 rts wan _ _ (mkState 3 3) eq_refl)
                     IndexError eq_refl) _).
    discriminate.
Defined.

(* ================================================================== *)
(** * The counter over builds that return and builds that raise *)

Lemma kc_ret {A} (a : A) : keeps_counting (ret a).
Proof. intros st. cbn. lia. Qed.

Lemma kc_lift {A} (r : result A) : keeps_counting (lift r).
Proof. intros st. cbn. lia. Qed.

Lemma kc_index {A} (l : list A) i : keeps_counting (index l i).
Proof. intros st. unfold index. destruct (nth_error l i); cbn; lia. Qed.

Lemma kc_bind {A B} (m : M A) (f : A -> M B) :
  keeps_counting m -> (forall a, keeps_counting (f a)) -> keeps_counting (bind m f).
Proof.
  intros Hm Hf st. unfold bind. specialize (Hm st).
  destruct (m st) as [[a|e] st1]; cbn [snd] in *.
  - specialize (Hf a st1). lia.
  - exact Hm.
Qed.

Lemma kc_forM {A S} (l : list A) (body : A -> S -> M S) :
  (forall x acc, keeps_counting (body x acc)) -> forall acc, keeps_counting (forM l body acc).
Proof.
  intros Hbody. induction l as [|x l IH]; intros acc; cbn [forM].
  - apply kc_ret.
  - apply kc_bind; [apply Hbody|exact IH].
Qed.

Lemma VLAN_init_state st : snd (VLAN_init st) = bump st.
Proof.
  unfold VLAN_init, bind, lift, ret. cbn [vlans_counter].
  destruct (int_truediv_256 (vlans_counter st + 1)) as [o|e]; [|reflexivity].
  now destruct (IPv4Network_of 10 o ((vlans_counter st + 1) mod 256) 0 24).
Qed.

Lemma Switch_init_state nm st : snd (Switch_init nm st) = bump st.
Proof.
  unfold Switch_init, bind. pose proof (VLAN_init_state st) as H.
  destruct (VLAN_init st) as [[vl|e] st1]; cbn [snd] in H; subst st1; [|reflexivity].
  unfold lift, ret. now destruct (IPv4Network_getitem (network vl) 1).
Qed.

Lemma kc_Switch_init nm : keeps_counting (Switch_init nm).
Proof. intros st. rewrite Switch_init_state. cbn. lia. Qed.

Lemma kc_Route_init dst hop : keeps_counting (Route_init dst hop).
Proof. intros st. cbn. lia. Qed.

Lemma kc_Access_init nm dv dip : keeps_counting (Access_init nm dv dip).
Proof.
  unfold Access_init. apply kc_bind; [apply kc_Switch_init|]. intros sw. apply kc_ret.
Qed.

Ltac kc_step :=
  first [ apply kc_ret | apply kc_lift | apply kc_index | apply kc_Route_init
        | apply kc_Switch_init | apply kc_Access_init
        | apply kc_bind; [|intros ?] ].

Lemma kc_Distribution_body n self : keeps_counting (Distribution_body n self).
Proof. unfold Distribution_body. repeat kc_step. Qed.

Lemma kc_Distribution_init nm A wv wip : keeps_counting (Distribution_init nm A wv wip).
Proof.
  unfold Distribution_init. apply kc_bind; [apply kc_Switch_init|]. intros sw.
  apply kc_forM. intros x acc. apply kc_Distribution_body.
Qed.

Lemma kc_redistribute_body n r wan : keeps_counting (redistribute_body n r wan).
Proof.
  unfold redistribute_body. apply kc_bind; [apply kc_lift|]. intros dflt.
  destruct (IPv4Network_eqb (dst_network r) dflt); repeat kc_step.
Qed.

Lemma kc_Site_body site A n acc : keeps_counting (Site_body site A n acc).
Proof.
  unfold Site_body. destruct acc as [wan0 dists].
  repeat first [ apply kc_Distribution_init
               | apply kc_forM; intros ? ?; apply kc_redistribute_body
               | kc_step ].
Qed.

(** X11: a call of [Site(...)] never lowers the VLAN counter and always
    advances it by at least one, for every argument and every starting
    value, whether the build returns or raises: an id that was handed
    out, also by a build that failed, is never handed out again. *)
Theorem counter_never_goes_back (site : string) (D A : Z) (st : State) :
  vlans_counter st + 1 <= vlans_counter (snd (Site_init site D A st))
  /\ (next_oid st <= next_oid (snd (Site_init site D A st)))%nat.
Proof.
  unfold Site_init.
  match goal with
  | |- context [bind (Switch_init ?nm) ?f] =>
      assert (Hrest : forall w, keeps_counting (f w))
  end.
  { intros w. apply kc_bind.
    - apply kc_forM. intros x acc. apply kc_Site_body.
    - intros [wan' dists]. apply kc_ret. }
  unfold bind at 1 3.
  pose proof (Switch_init_state (site ++ "-wan-0") st) as Hsw.
  destruct (Switch_init (site ++ "-wan-0") st) as [[w|e] st1]; cbn [snd] in Hsw; subst st1.
  - specialize (Hrest w (bump st)). cbn [bump vlans_counter next_oid] in Hrest.
    exact Hrest.
  - cbn. lia.
Qed.

(** X12: once the counter has reached 65535 the allocator is exhausted
    for good: every later [Site(...)], whatever its arguments, raises the
    address library's error while creating the WAN switch, builds
    nothing, and leaves the counter one higher, hence exhausted again. *)
Theorem allocator_exhausted (site : string) (D A : Z) (st : State) :
  65535 <= vlans_counter st ->
  exists e,
    Site_init site D A st = (Err e, bump st)
    /\ (e = AddressValueError \/ e = OverflowError)
    /\ 65535 <= vlans_counter (bump st).
Proof.
  intros Hc. destruct (VLAN_init_high st Hc) as (e & Hrun & He & _).
  exists e. split; [|split; [exact He|cbn; lia]].
  unfold Site_init, Switch_init, bind. now rewrite Hrun.
Qed.

Lemma allocator_exhausted_witness :
  exists e, Site_init "lab" 0 0 (mkState 65535 0) = (Err e, mkState 65536 0)
            /\ (e = AddressValueError \/ e = OverflowError).
Proof.
  destruct (allocator_exhausted "lab" 0 0 (mkState 65535 0) ltac:(cbn; lia))
    as (e & Hrun & He & _).
  exists e. split; [exact Hrun|exact He].
Defined.

(* ================================================================== *)
(** * What a build that raises leaves behind *)

Lemma Distribution_body_overflow_state dname d wv wip k self st :
  dist_inv dname d wv wip k self st -> 254 <= Z.of_nat k ->
  wp (Distribution_body (Z.of_nat k) self) (fun _ _ => False)
     (fun e st' => e = IndexError /\ vlans_counter st' = d + Z.of_nat k) st.
Proof.
  intros (Hview & Hc & _) Hk. destruct self as [[nm rvs [rts]] accs].
  apply distribution_view_inv in Hview. destruct Hview as (-> & -> & _ & _).
  unfold Distribution_body. cbn [distribution_switch name routed_vlans].
  apply wp_bind, wp_index0. apply wp_bind, wp_index0. apply wp_bind.
  cbn [vlan vlan_of network].
  eapply wp_lift_err; [apply getitem_net24_out; lia|]. now split.
Qed.

Lemma Distribution_init_overflow_state nm A wv wip st :
  0 <= vlans_counter st -> vlans_counter st + 255 <= 65535 -> 255 <= A ->
  wp (Distribution_init nm A wv wip) (fun _ _ => False)
     (fun e st' => e = IndexError /\ vlans_counter st' = vlans_counter st + 255) st.
Proof.
  intros H0 Hc HA. unfold Distribution_init. apply wp_bind.
  apply wp_Switch_init; [exact H0| |intros; lia].
  intros _. rewrite range_upto.
  replace (Z.to_nat A) with (254 + S (Z.to_nat A - 255))%nat by lia.
  rewrite upto_split. apply wp_forM_app.
  eapply wp_mono;
    [| |apply (Distribution_loop_wp nm (vlans_counter st + 1) wv wip
                 (fun e st' => e = IndexError
                               /\ vlans_counter st' = vlans_counter st + 255))].
  - intros self st' Hinv. cbn [forM]. apply wp_bind.
    eapply wp_mono;
      [| |apply (Distribution_body_overflow_state _ _ _ _ 254 _ _ Hinv); lia].
    + intros ? ? [].
    + intros e st'' (-> & Hst). split; [reflexivity|]. lia.
  - auto.
  - lia.
  - unfold dist_inv. cbn [bump vlans_counter]. repeat split; lia.
  - left. cbn [bump vlans_counter]. lia.
Qed.

Lemma Site_body_overflow_state site A w k acc st :
  site_inv site w (Z.to_nat A) k acc st -> 254 <= Z.of_nat k ->
  wp (Site_body site A (Z.of_nat k) acc) (fun _ _ => False)
     (fun e st' => e = IndexError
                   /\ vlans_counter st' = w + Z.of_nat k * (1 + Z.of_nat (Z.to_nat A))) st.
Proof.
  intros (Hwan & _ & Hc & _) Hk. destruct acc as [[nm rvs [rts]] dists]. cbn [fst] in Hwan.
  apply switch_view_inv in Hwan. cbn [exp_wan v_name v_routed_vlans v_routes] in Hwan.
  destruct Hwan as (-> & -> & _).
  unfold Site_body. cbn [routed_vlans].
  apply wp_bind, wp_index0. apply wp_bind, wp_index0. apply wp_bind.
  cbn [vlan vlan_of network].
  eapply wp_lift_err; [apply getitem_net24_out; lia|]. now split.
Qed.

Lemma Site_body_access_overflow_state site A w acc st :
  0 <= w <= 65535 ->
  site_inv site w (Z.to_nat A) 0 acc st ->
  vlans_counter st + 255 <= 65535 -> 255 <= A ->
  wp (Site_body site A (Z.of_nat 0) acc) (fun _ _ => False)
     (fun e st' => e = IndexError /\ vlans_counter st' = vlans_counter st + 255) st.
Proof.
  intros Hw (Hwan & _ & Hc & _) Hb HA.
  destruct acc as [[nm rvs [rts]] dists]. cbn [fst] in Hwan.
  apply switch_view_inv in Hwan. cbn [exp_wan v_name v_routed_vlans v_routes] in Hwan.
  destruct Hwan as (-> & -> & _).
  unfold Site_body. cbn [routed_vlans].
  apply wp_bind, wp_index0. apply wp_bind, wp_index0. apply wp_bind.
  cbn [vlan vlan_of network].
  eapply wp_lift_ok; [apply getitem_net24_ok; cbn; lia|]. apply wp_bind.
  eapply wp_mono; [| |apply Distribution_init_overflow_state].
  - intros ? ? [].
  - auto.
  - cbn in Hc. lia.
  - exact Hb.
  - exact HA.
Qed.

(** X13: a build that runs into the end of the [2 + n] address scheme
    raises [IndexError] after it has allocated VLANs, and the counter
    keeps what was allocated.  With 255 or more distributions (and at
    most 254 accesses) the 254 complete distributions are built first:
    the counter has advanced by [1 + 254 * (1 + A)].  With 255 or more
    accesses and at least one distribution, the WAN switch, the first
    distribution and its first 254 accesses are built first: the counter
    has advanced by 256. *)
Theorem failed_build_consumes_ids (site : string) (D A : Z) (st : State) :
  0 <= vlans_counter st ->
  (255 <= D -> A <= 254 ->
   vlans_counter st + 1 + 254 * (1 + Z.max A 0) <= 65535 ->
   exists st', Site_init site D A st = (Err IndexError, st')
               /\ vlans_counter st' = vlans_counter st + 1 + 254 * (1 + Z.max A 0))
  /\ (1 <= D -> 255 <= A ->
      vlans_counter st + 256 <= 65535 ->
      exists st', Site_init site D A st = (Err IndexError, st')
                  /\ vlans_counter st' = vlans_counter st + 256).
Proof.
  intros H0.
  assert (Hinit : vlans_counter st + 1 <= 65535 ->
                  site_inv site (vlans_counter st + 1) (Z.to_nat A) 0
                    (mkSwitch (site ++ "-wan-0")
                       [mkRoutedVLAN (vlan_of (vlans_counter st + 1))
                                     (host (vlans_counter st + 1) 1)]
                       RoutingTable_init, []) (bump st)).
  { intros Hle. unfold site_inv. cbn [fst snd bump vlans_counter]. repeat split; lia. }
  assert (Hwp : forall X,
             wp (Site_init site D A) (fun _ _ => False)
                (fun e st' => e = IndexError /\ vlans_counter st' = X) st ->
             exists st', Site_init site D A st = (Err IndexError, st')
                         /\ vlans_counter st' = X).
  { intros X H. unfold wp in H.
    destruct (Site_init site D A st) as [[s|e] st']; [contradiction|].
    destruct H as (-> & Hc). now exists st'. }
  split.
  - intros HD HA Hb. apply Hwp. unfold Site_init. apply wp_bind.
    apply wp_Switch_init; [exact H0| |intros; lia].
    intros Hle. apply wp_bind. rewrite range_upto.
    replace (Z.to_nat D) with (254 + S (Z.to_nat D - 255))%nat by lia.
    rewrite upto_split. apply wp_forM_app.
    eapply wp_mono;
      [| |apply (Site_loop_wp site A (vlans_counter st + 1)
                   (fun e st' => e = IndexError
                                 /\ vlans_counter st'
                                    = vlans_counter st + 1 + 254 * (1 + Z.max A 0)))].
    + intros acc st' Hinv. cbn [forM]. apply wp_bind.
      eapply wp_mono; [| |apply (Site_body_overflow_state _ _ _ 254 _ _ Hinv); lia].
      * intros ? ? [].
      * intros e st'' (-> & Hst). split; [reflexivity|]. lia.
    + auto.
    + lia.
    + apply Hinit. lia.
    + left. repeat split; lia.
  - intros HD HA Hb. apply Hwp. unfold Site_init. apply wp_bind.
    apply wp_Switch_init; [exact H0| |intros; lia].
    intros Hle. apply wp_bind. rewrite range_upto.
    replace (Z.to_nat D) with (0 + S (Z.to_nat D - 1))%nat by lia.
    rewrite upto_split. cbn [upto seq map app forM]. apply wp_bind.
    eapply wp_mono;
      [| |apply (Site_body_access_overflow_state site A (vlans_counter st + 1) _ _
                   ltac:(lia) (Hinit Hle))].
    + intros ? ? [].
    + intros e st'' (-> & Hst). split; [reflexivity|]. cbn [bump vlans_counter] in Hst. lia.
    + cbn [bump vlans_counter]. lia.
    + exact HA.
Qed.

Lemma failed_build_consumes_ids_witness :
  (exists st', Site_init "lab" 255 2 fresh = (Err IndexError, st')
               /\ vlans_counter st' = 763)
  /\ (exists st', Site_init "lab" 1 255 fresh = (Err IndexError, st')
                  /\ vlans_counter st' = 256).
Proof.
  pose proof (failed_build_consumes_ids "lab" 255 2 fresh ltac:(cbn; lia)) as (H1 & _).
  pose proof (failed_build_consumes_ids "lab" 1 255 fresh ltac:(cbn; lia)) as (_ & H2).
  split.
  - apply H1; cbn; lia.
  - apply H2; cbn; lia.
Defined.

(* ================================================================== *)
(** * The names of the devices *)

Lemma NoDup_flat_map_disjoint {A B} (f : A -> list B) l :
  NoDup l ->
  (forall x, In x l -> NoDup (f x)) ->
  (forall x y b, In x l -> In y l -> In b (f x) -> In b (f y) -> x = y) ->
  NoDup (flat_map f l).
Proof.
  intros Hnd. induction Hnd as [|x l Hx Hnd IH]; intros Heach Hcross; cbn [flat_map].
  - constructor.
  - apply NoDup_app.
    + apply Heach. now left.
    + apply IH.
      * intros y Hy. apply Heach. now right.
      * intros y z b Hy Hz. apply Hcross; now right.
    + intros b Hb Hin. apply in_flat_map in Hin. destruct Hin as (y & Hy & Hby).
      apply Hx. rewrite (Hcross x y b); auto; [now left|now right].
Qed.

Lemma NoDup_map_inj_in {A B} (f : A -> B) l :
  (forall x y, In x l -> In y l -> f x = f y -> x = y) -> NoDup l -> NoDup (map f l).
Proof.
  intros Hinj Hnd. induction Hnd as [|x l Hx Hnd IH]; cbn [map]; constructor.
  - intros Hin. apply in_map_iff in Hin. destruct Hin as (y & Heq & Hy).
    apply Hx. rewrite (Hinj x y); auto; [now left|now right].
  - apply IH. intros y z Hy Hz. apply Hinj; now right.
Qed.

Lemma NoDup_upto k : NoDup (upto k).
Proof.
  unfold upto. apply NoDup_map_injective; [|apply seq_NoDup].
  intros x y. apply Nat2Z.inj.
Qed.

Lemma upto_nonneg k x : In x (upto k) -> 0 <= x < Z.of_nat k.
Proof.
  intros H. apply In_nth_error in H. destruct H as (i & Hi).
  apply nth_error_upto in Hi. lia.
Qed.

Lemma append_cancel_l (p x y : string) : (p ++ x = p ++ y)%string -> x = y.
Proof.
  induction p as [|c p IH]; cbn [append]; intros H; [exact H|].
  injection H as H. now apply IH.
Qed.

Lemma to_int_not_nil n :
  Z.to_int n <> Decimal.Pos Decimal.Nil /\ Z.to_int n <> Decimal.Neg Decimal.Nil.
Proof.
  destruct n as [|p|p]; cbn [Z.to_int]; split; intros H; try discriminate H;
    injection H as H; now apply DecimalPos.Unsigned.to_uint_nonnil in H.
Qed.

Lemma str_inj n m : str n = str m -> n = m.
Proof.
  unfold str. intros H. apply DecimalZ.to_int_inj.
  destruct (to_int_not_nil n) as (Hn1 & Hn2). destruct (to_int_not_nil m) as (Hm1 & Hm2).
  pose proof (NilZero.isi (Z.to_int n) Hn1 Hn2) as Hn.
  pose proof (NilZero.isi (Z.to_int m) Hm1 Hm2) as Hm.
  rewrite H in Hn. congruence.
Qed.

Lemma digits_no_dash d a b :
  NilEmpty.string_of_uint d <> (a ++ String "-" b)%string.
Proof.
  revert a. induction d; intros a H; cbn [NilEmpty.string_of_uint] in H;
    destruct a as [|c a]; cbn [append] in H; try discriminate H;
    injection H as _ H; now apply IHd in H.
Qed.

Lemma str_no_dash n a b : 0 <= n -> str n <> (a ++ String "-" b)%string.
Proof.
  intros Hn. unfold str. destruct n as [|p|p]; [| |lia]; cbn [Z.to_int NilZero.string_of_int].
  - intros H. destruct a as [|c [|c' a]]; discriminate H.
  - unfold NilZero.string_of_uint.
    destruct (Pos.to_uint p) eqn:Hp;
      try (rewrite <- Hp; apply digits_no_dash).
    now apply DecimalPos.Unsigned.to_uint_nonnil in Hp.
Qed.

Lemma split_at_dash (a a' b b' : string) :
  (forall x y, a <> (x ++ String "-" y)%string) ->
  (forall x y, a' <> (x ++ String "-" y)%string) ->
  (a ++ String "-" b = a' ++ String "-" b')%string ->
  a = a' /\ b = b'.
Proof.
  revert a'. induction a as [|c a IH]; intros a' Ha Ha' H.
  - destruct a' as [|c' a']; cbn [append] in H.
    + injection H as H. now split.
    + injection H as Hc H. subst c'. exfalso. now apply (Ha' EmptyString a').
  - destruct a' as [|c' a']; cbn [append] in H.
    + injection H as Hc H. subst c. exfalso. now apply (Ha EmptyString a).
    + injection H as Hc H. subst c'.
      destruct (IH a') as (-> & ->); [| |exact H|now split].
      * intros x y Hx. apply (Ha (String c x) y). cbn [append]. now rewrite Hx.
      * intros x y Hx. apply (Ha' (String c x) y). cbn [append]. now rewrite Hx.
Qed.

(** The three shapes of name, after the site name. *)
Lemma wan_name_not_dist (x : string) : "-wan-0"%string <> ("-dist-" ++ x)%string.
Proof. discriminate. Qed.

Lemma dist_name_inj n n' : ("-dist-" ++ str n = "-dist-" ++ str n')%string -> n = n'.
Proof. intros H. apply (append_cancel_l "-dist-") in H. now apply str_inj. Qed.

Lemma dist_name_not_access n n' m :
  0 <= n ->
  ("-dist-" ++ str n)%string
  <> (("-dist-" ++ str n') ++ "-access-" ++ str m)%string.
Proof.
  intros Hn H. rewrite string_append_assoc in H. apply (append_cancel_l "-dist-") in H.
  now apply (str_no_dash n (str n') ("access-" ++ str m)%string Hn).
Qed.

Lemma access_name_inj n n' m m' :
  0 <= n -> 0 <= n' ->
  (("-dist-" ++ str n) ++ "-access-" ++ str m
   = ("-dist-" ++ str n') ++ "-access-" ++ str m')%string ->
  n = n' /\ m = m'.
Proof.
  intros Hn Hn' H. rewrite !string_append_assoc in H.
  apply (append_cancel_l "-dist-") in H.
  change ("-access-" ++ str m)%string with (String "-" ("access-" ++ str m))%string in H.
  change ("-access-" ++ str m')%string with (String "-" ("access-" ++ str m'))%string in H.
  apply split_at_dash in H.
  - destruct H as (H1 & H2). apply str_inj in H1.
    apply (append_cancel_l "access-") in H2. apply str_inj in H2. now split.
  - intros x y. now apply str_no_dash.
  - intros x y. now apply str_no_dash.
Qed.

Lemma device_names_closed site w a k :
  map v_name (view_devices (exp_site site w a k))
  = (site ++ "-wan-0")%string
    :: flat_map (fun n =>
                   (site ++ "-dist-" ++ str n)%string
                   :: map (fun m => ((site ++ "-dist-" ++ str n) ++ "-access-" ++ str m)%string)
                          (upto a))
                (upto k).
Proof.
  unfold view_devices, exp_site. cbn [v_wan v_distributions map exp_wan v_name]. f_equal.
  rewrite flat_map_of_map, map_of_flat_map. apply flat_map_ext. intros n.
  cbn [exp_site_distribution exp_distribution v_switch v_accesses v_name map]. f_equal.
  rewrite map_map. reflexivity.
Qed.

Lemma NoDup_device_names site a k :
  NoDup ((site ++ "-wan-0")%string
         :: flat_map (fun n =>
                        (site ++ "-dist-" ++ str n)%string
                        :: map (fun m => ((site ++ "-dist-" ++ str n)
                                          ++ "-access-" ++ str m)%string)
                               (upto a))
                     (upto k)).
Proof.
  assert (Hacc : forall n m,
             ((site ++ "-dist-" ++ str n) ++ "-access-" ++ str m
              = site ++ (("-dist-" ++ str n) ++ "-access-" ++ str m))%string)
    by (intros; apply string_append_assoc).
  constructor.
  - intros Hin. apply in_flat_map in Hin. destruct Hin as (n & _ & [H|H]).
    + apply append_cancel_l in H. symmetry in H. now apply wan_name_not_dist in H.
    + apply in_map_iff in H. destruct H as (m & H & _). rewrite Hacc in H.
      apply append_cancel_l in H. rewrite string_append_assoc in H.
      symmetry in H. now apply wan_name_not_dist in H.
  - apply NoDup_flat_map_disjoint.
    + apply NoDup_upto.
    + intros n Hn. apply upto_nonneg in Hn. constructor.
      * intros Hin. apply in_map_iff in Hin. destruct Hin as (m & H & _).
        rewrite Hacc in H. apply append_cancel_l in H. symmetry in H.
        apply dist_name_not_access in H; [exact H|lia].
      * apply NoDup_map_inj_in; [|apply NoDup_upto].
        intros m m' _ _ H. rewrite !Hacc in H. apply append_cancel_l in H.
        apply access_name_inj in H; [tauto|lia|lia].
    + intros n n' b Hn Hn' [Hb|Hb] [Hb'|Hb']; apply upto_nonneg in Hn, Hn'.
      * rewrite <- Hb' in Hb. apply append_cancel_l in Hb. now apply dist_name_inj.
      * apply in_map_iff in Hb'. destruct Hb' as (m' & Hb' & _). rewrite <- Hb', Hacc in Hb.
        apply append_cancel_l in Hb. apply dist_name_not_access in Hb; [contradiction|lia].
      * apply in_map_iff in Hb. destruct Hb as (m & Hb & _). rewrite <- Hb, Hacc in Hb'.
        apply append_cancel_l in Hb'. apply dist_name_not_access in Hb'; [contradiction|lia].
      * apply in_map_iff in Hb. destruct Hb as (m & Hb & _).
        apply in_map_iff in Hb'. destruct Hb' as (m' & Hb' & _).
        rewrite <- Hb', !Hacc in Hb. apply append_cancel_l in Hb.
        apply access_name_inj in Hb; [tauto|lia|lia].
Qed.

(** X14: the WAN switch of [Site(name, ...)] is called [name-wan-0],
    distribution [n] is called [name-dist-n] and its access [m] is called
    [name-dist-n-access-m]; no two devices of a site have the same name,
    whatever the site name is. *)
Theorem device_names (site : string) (D A : Z) (st : State) (s : Site) (st' : State) :
  0 <= vlans_counter st ->
  Site_init site D A st = (Ok s, st') ->
  name (wan s) = (site ++ "-wan-0")%string
  /\ (forall n (d : Distribution),
         nth_error (distributions s) n = Some d ->
         name d = (site ++ "-dist-" ++ str (Z.of_nat n))%string
         /\ forall m (a : Access),
             nth_error (accesses d) m = Some a ->
             name a = (name d ++ "-access-" ++ str (Z.of_nat m))%string)
  /\ NoDup (map name (devices s)).
Proof.
  intros H0 Hrun.
  destruct (Site_init_inv _ _ _ _ _ _ H0 Hrun) as (_ & Hview & _).
  split; [|split].
  - exact (f_equal (fun v => v_name (v_wan v)) Hview).
  - intros n d Hn.
    destruct (distribution_at _ _ _ _ _ _ _ _ H0 Hrun Hn) as (_ & Hdv).
    assert (Hd : name d = (site ++ "-dist-" ++ str (Z.of_nat n))%string)
      by exact (f_equal (fun v => v_name (v_switch v)) Hdv).
    split; [exact Hd|]. intros m a Hm.
    destruct (access_at _ _ _ _ _ _ _ _ _ _ H0 Hrun Hn Hm) as (_ & _ & Hav).
    rewrite Hd. exact (f_equal v_name Hav).
  - replace (map name (devices s)) with (map v_name (map switch_view (devices s)))
      by (rewrite map_map; reflexivity).
    rewrite devices_view, Hview, device_names_closed. apply NoDup_device_names.
Qed.

Lemma device_names_witness :
  exists s st',
    Site_init "lab" 2 3 fresh = (Ok s, st')
    /\ name (wan s) = "lab-wan-0"%string
    /\ NoDup (map name (devices s)).
Proof.
  destruct (Site_init_returns "lab" 2 3 fresh ltac:(cbn; lia)) as (s & st' & Hrun).
  - unfold fits. cbn. lia.
  - exists s, st'. split; [exact Hrun|].
    destruct (device_names "lab" 2 3 fresh s st' ltac:(cbn; lia) Hrun) as (Hw & _ & Hnd).
    split; [exact Hw|exact Hnd].
Defined.

(* ================================================================== *)
(** * The addresses of the interfaces *)

Lemma host_inj k i k' i' :
  0 <= i <= 255 -> 0 <= i' <= 255 -> host k i = host k' i' -> k = k' /\ i = i'.
Proof.
  intros Hi Hi' H. apply (f_equal addr_int) in H. cbn [host addr_int] in H. lia.
Qed.

Lemma dist_vlan_gap w a n n' :
  0 <= n < n' -> dist_vlan w a n + Z.of_nat a + 1 <= dist_vlan w a n'.
Proof.
  intros Hn. unfold dist_vlan.
  assert ((n + 1) * (1 + Z.of_nat a) <= n' * (1 + Z.of_nat a))
    by (apply Z.mul_le_mono_nonneg_r; lia).
  lia.
Qed.

Lemma dist_vlan_above w a n : 0 <= n -> w < dist_vlan w a n.
Proof.
  intros Hn. unfold dist_vlan.
  assert (0 <= n * (1 + Z.of_nat a)) by (apply Z.mul_nonneg_nonneg; lia). lia.
Qed.

Lemma addresses_closed site w a k :
  map ip_address (flat_map v_routed_vlans (view_devices (exp_site site w a k)))
  = host w 1
    :: flat_map (fun n =>
                   host (dist_vlan w a n) 1
                   :: host w (2 + n)
                   :: flat_map (fun m => [host (dist_vlan w a n + 1 + m) 1;
                                          host (dist_vlan w a n) (m + 2)])
                               (upto a))
                (upto k).
Proof.
  unfold view_devices, exp_site.
  cbn [v_wan v_distributions flat_map exp_wan v_routed_vlans app map ip_address]. f_equal.
  rewrite flat_map_of_map, flat_map_flat_map, map_of_flat_map.
  apply flat_map_ext. intros n.
  cbn [exp_site_distribution exp_distribution v_switch v_accesses v_routed_vlans
       flat_map app map ip_address].
  do 2 f_equal. rewrite flat_map_of_map, map_of_flat_map. reflexivity.
Qed.

(** Where the addresses of block [n] (a distribution and its accesses)
    live. *)
Lemma block_address w a n x :
  0 <= n <= 253 -> (Z.of_nat a <= 254) ->
  In x (host (dist_vlan w a n) 1
        :: host w (2 + n)
        :: flat_map (fun m => [host (dist_vlan w a n + 1 + m) 1;
                               host (dist_vlan w a n) (m + 2)])
                    (upto a)) ->
  exists kk ii,
    x = host kk ii /\ 0 <= ii <= 255
    /\ ((kk = w /\ ii = 2 + n)
        \/ (dist_vlan w a n <= kk <= dist_vlan w a n + Z.of_nat a /\ 1 <= ii
            /\ (kk = dist_vlan w a n \/ ii = 1))).
Proof.
  intros Hn Ha [<-|[<-|Hin]].
  - exists (dist_vlan w a n), 1. split; [reflexivity|]. split; [lia|]. right. lia.
  - exists w, (2 + n). split; [reflexivity|]. split; [lia|]. now left.
  - apply in_flat_map in Hin. destruct Hin as (m & Hm & Hin). apply upto_nonneg in Hm.
    destruct Hin as [<-|[<-|[]]].
    + exists (dist_vlan w a n + 1 + m), 1. split; [reflexivity|]. split; [lia|]. right. lia.
    + exists (dist_vlan w a n), (m + 2). split; [reflexivity|]. split; [lia|]. right. lia.
Qed.

Lemma NoDup_block w a n :
  0 <= n <= 253 -> Z.of_nat a <= 254 ->
  NoDup (host (dist_vlan w a n) 1
         :: host w (2 + n)
         :: flat_map (fun m => [host (dist_vlan w a n + 1 + m) 1;
                                host (dist_vlan w a n) (m + 2)])
                     (upto a)).
Proof.
  intros Hn Ha. pose proof (dist_vlan_above w a n ltac:(lia)) as Hw.
  set (d := dist_vlan w a n) in *.
  constructor; [|constructor].
  - intros [H|H].
    + apply host_inj in H; lia.
    + apply in_flat_map in H. destruct H as (m & Hm & H). apply upto_nonneg in Hm.
      destruct H as [H|[H|[]]]; apply host_inj in H; lia.
  - intros H. apply in_flat_map in H. destruct H as (m & Hm & H). apply upto_nonneg in Hm.
    destruct H as [H|[H|[]]]; apply host_inj in H; lia.
  - apply NoDup_flat_map_disjoint.
    + apply NoDup_upto.
    + intros m Hm. apply upto_nonneg in Hm. constructor; [|constructor; [|constructor]].
      * intros [H|[]]. apply host_inj in H; lia.
      * intros [].
    + intros m m' b Hm Hm' Hb Hb'. apply upto_nonneg in Hm, Hm'.
      destruct Hb as [Hb|[Hb|[]]]; destruct Hb' as [Hb'|[Hb'|[]]];
        rewrite <- Hb' in Hb; apply host_inj in Hb; lia.
Qed.

Lemma NoDup_addresses w a k :
  0 <= w -> Z.of_nat k <= 254 -> (1 <= Z.of_nat k -> Z.of_nat a <= 254) ->
  NoDup (host w 1
         :: flat_map (fun n =>
                        host (dist_vlan w a n) 1
                        :: host w (2 + n)
                        :: flat_map (fun m => [host (dist_vlan w a n + 1 + m) 1;
                                               host (dist_vlan w a n) (m + 2)])
                                    (upto a))
                     (upto k)).
Proof.
  intros Hw Hk Ha. constructor.
  - intros H. apply in_flat_map in H. destruct H as (n & Hn & H). apply upto_nonneg in Hn.
    pose proof (dist_vlan_above w a n ltac:(lia)) as Hd.
    apply block_address in H; [|lia|lia].
    destruct H as (kk & ii & Heq & Hii & Hcase). apply host_inj in Heq; lia.
  - apply NoDup_flat_map_disjoint.
    + apply NoDup_upto.
    + intros n Hn. apply upto_nonneg in Hn. apply NoDup_block; lia.
    + intros n n' b Hn Hn' Hb Hb'. apply upto_nonneg in Hn, Hn'.
      pose proof (dist_vlan_above w a n ltac:(lia)) as Hd.
      pose proof (dist_vlan_above w a n' ltac:(lia)) as Hd'.
      apply block_address in Hb; [|lia|lia]. apply block_address in Hb'; [|lia|lia].
      destruct Hb as (kk & ii & -> & Hii & Hcase).
      destruct Hb' as (kk' & ii' & Heq & Hii' & Hcase').
      apply host_inj in Heq; [|lia|lia]. destruct Heq as (<- & <-).
      destruct (Z.lt_trichotomy n n') as [Hlt|[Heq|Hgt]]; [|exact Heq|].
      * pose proof (dist_vlan_gap w a n n' ltac:(lia)). lia.
      * pose proof (dist_vlan_gap w a n' n ltac:(lia)). lia.
Qed.

(** X15: no two interfaces of a finished site have the same IP address,
    across all devices and both bindings of each. *)
Theorem interface_addresses_distinct (site : string) (D A : Z) (st : State) (s : Site)
    (st' : State) :
  0 <= vlans_counter st ->
  Site_init site D A st = (Ok s, st') ->
  NoDup (map ip_address (bindings s)).
Proof.
  intros H0 Hrun.
  destruct (Site_init_inv _ _ _ _ _ _ H0 Hrun) as (Hfit & Hview & _).
  apply fits_of_nat in Hfit. destruct Hfit as (Hk & Ha & _).
  assert (Hb : bindings s = flat_map v_routed_vlans (view_devices (site_view s))).
  { unfold bindings. rewrite <- devices_view, flat_map_of_map. reflexivity. }
  rewrite Hb, Hview, addresses_closed. apply NoDup_addresses; [lia|exact Hk|exact Ha].
Qed.

Lemma interface_addresses_distinct_witness :
  exists s st',
    Site_init "lab" 2 3 fresh = (Ok s, st')
    /\ NoDup (map ip_address (bindings s)).
Proof.
  destruct (Site_init_returns "lab" 2 3 fresh ltac:(cbn; lia)) as (s & st' & Hrun).
  - unfold fits. cbn. lia.
  - exists s, st'. split; [exact Hrun|].
    exact (interface_addresses_distinct "lab" 2 3 fresh s st' ltac:(cbn; lia) Hrun).
Defined.

(* ================================================================== *)
(** * Paths *)

Lemma endswith_sep_app (y s : string) :
  s <> EmptyString -> endswith_sep (y ++ s) = endswith_sep s.
Proof.
  intros Hs. induction y as [|c y IH]; [reflexivity|].
  cbn [append endswith_sep]. destruct (y ++ s)%string eqn:Hy.
  - destruct y; [contradiction|discriminate Hy].
  - exact IH.
Qed.

Lemma endswith_sep_digits d :
  endswith_sep (NilEmpty.string_of_uint d) = false.
Proof.
  induction d; cbn [NilEmpty.string_of_uint endswith_sep]; try reflexivity;
    destruct (NilEmpty.string_of_uint d); try reflexivity; exact IHd.
Qed.

Lemma str_ends n : 0 <= n -> str n <> EmptyString /\ endswith_sep (str n) = false.
Proof.
  intros Hn. unfold str. destruct n as [|p|p]; [| |lia]; cbn [Z.to_int NilZero.string_of_int].
  - split; [discriminate|reflexivity].
  - unfold NilZero.string_of_uint.
    pose proof (DecimalPos.Unsigned.to_uint_nonnil p) as Hp.
    destruct (Pos.to_uint p) eqn:Hd; try contradiction;
      (split; [cbn [NilEmpty.string_of_uint]; discriminate|apply endswith_sep_digits]).
Qed.

Lemma has_char_app c (x y : string) : has_char c (x ++ String c y) = true.
Proof.
  induction x as [|z x IH]; cbn [append has_char].
  - now rewrite Ascii.eqb_refl.
  - rewrite IH. apply orb_true_r.
Qed.

Lemma split_at_last_sep (p1 p2 c1 c2 : string) :
  has_char "/" c1 = false -> has_char "/" c2 = false ->
  (p1 ++ String "/" c1 = p2 ++ String "/" c2)%string ->
  p1 = p2 /\ c1 = c2.
Proof.
  intros H1 H2. revert p2. induction p1 as [|x p1 IH]; intros p2 H.
  - destruct p2 as [|y p2]; cbn [append] in H.
    + injection H as H. now split.
    + injection H as _ H. rewrite H, has_char_app in H1. discriminate H1.
  - destruct p2 as [|y p2]; cbn [append] in H.
    + injection H as _ H. rewrite <- H, has_char_app in H2. discriminate H2.
    + injection H as Hx H. subst y. destruct (IH p2 H) as (-> & ->). now split.
Qed.

Lemma path_join_relative (a b : string) :
  startswith_sep b = false ->
  path_join a b = (a ++ b)%string \/ path_join a b = (a ++ "/" ++ b)%string.
Proof.
  intros Hb. unfold path_join. rewrite Hb.
  destruct ((match a with EmptyString => true | _ => false end) || endswith_sep a); auto.
Qed.

Lemma path_join_absolute (a b : string) :
  startswith_sep b = true -> path_join a b = b.
Proof. intros Hb. unfold path_join. now rewrite Hb. Qed.

Lemma path_join_suffix (a b : string) : exists y, path_join a b = (y ++ b)%string.
Proof.
  destruct (startswith_sep b) eqn:Hb.
  - exists EmptyString. now apply path_join_absolute.
  - destruct (path_join_relative a b Hb) as [H|H]; rewrite H.
    + now exists a.
    + exists (a ++ "/")%string. now rewrite string_append_assoc.
Qed.

Lemma path_join_file (p cmd : string) :
  p <> EmptyString -> endswith_sep p = false -> startswith_sep cmd = false ->
  path_join p cmd = (p ++ String "/" cmd)%string.
Proof.
  intros Hp He Hc. unfold path_join. rewrite Hc, He. now destruct p.
Qed.

Lemma path_join_inj (a b b' : string) :
  startswith_sep b = startswith_sep b' ->
  path_join a b = path_join a b' -> b = b'.
Proof.
  intros Hs. unfold path_join. rewrite <- Hs. destruct (startswith_sep b); [auto|].
  destruct ((match a with EmptyString => true | _ => false end) || endswith_sep a);
    intros H; apply append_cancel_l in H; [exact H|].
  now apply (append_cancel_l "/") in H.
Qed.

(** What the names of the devices share. *)
Lemma device_name_facts site D A st s st' sw :
  0 <= vlans_counter st ->
  Site_init site D A st = (Ok s, st') ->
  In sw (devices s) ->
  name sw <> EmptyString
  /\ endswith_sep (name sw) = false
  /\ startswith_sep (name sw) = startswith_sep site.
Proof.
  intros H0 Hrun Hsw.
  assert (Hform : forall tail,
             tail <> EmptyString -> endswith_sep tail = false ->
             forall mid, (site ++ String "-" (mid ++ tail))%string <> EmptyString
                         /\ endswith_sep (site ++ String "-" (mid ++ tail)) = false
                         /\ startswith_sep (site ++ String "-" (mid ++ tail))
                            = startswith_sep site).
  { intros tail Ht He mid.
    assert (Hne : (mid ++ tail)%string <> EmptyString) by (destruct mid; [exact Ht|discriminate]).
    split; [destruct site; discriminate|]. split.
    - rewrite endswith_sep_app by discriminate.
      cbn [endswith_sep]. destruct (mid ++ tail)%string eqn:Hm; [contradiction|].
      rewrite <- Hm, endswith_sep_app by exact Ht. exact He.
    - now destruct site. }
  change (name sw) with (v_name (switch_view sw)).
  destruct (device_cases _ _ _ _ _ _ _ H0 Hrun Hsw)
    as [Hv|[(n & Hlt & Hv)|(n & m & Hlt & Hlt' & Hv)]]; rewrite Hv;
    cbn [exp_wan exp_site_distribution exp_distribution exp_access v_switch v_name].
  - apply (Hform "0"%string ltac:(discriminate) eq_refl "wan-"%string).
  - destruct (str_ends (Z.of_nat n) ltac:(lia)) as (Hne & He).
    apply (Hform (str (Z.of_nat n)) Hne He "dist-"%string).
  - destruct (str_ends (Z.of_nat m) ltac:(lia)) as (Hne & He).
    assert (Heq : ((site ++ "-dist-" ++ str (Z.of_nat n)) ++ "-access-" ++ str (Z.of_nat m)
                   = site ++ String "-" (("dist-" ++ str (Z.of_nat n) ++ "-access-")
                                         ++ str (Z.of_nat m)))%string).
    { rewrite !string_append_assoc. cbn [append]. rewrite ?string_append_assoc.
      reflexivity. }
    rewrite Heq. apply (Hform (str (Z.of_nat m)) Hne He).
Qed.

Lemma NoDup_map_In_inj {A B} (f : A -> B) l x y :
  NoDup (map f l) -> In x l -> In y l -> f x = f y -> x = y.
Proof.
  intros Hnd. induction l as [|z l IH]; intros Hx Hy Heq; [contradiction|].
  cbn [map] in Hnd. apply NoDup_cons_iff in Hnd. destruct Hnd as (Hz & Hnd).
  destruct Hx as [->|Hx]; destruct Hy as [->|Hy].
  - reflexivity.
  - exfalso. apply Hz. rewrite Heq. now apply in_map.
  - exfalso. apply Hz. rewrite <- Heq. now apply in_map.
  - now apply IH.
Qed.

Lemma NoDup_devices_names site D A st s st' :
  0 <= vlans_counter st ->
  Site_init site D A st = (Ok s, st') ->
  NoDup (map name (devices s)).
Proof.
  intros H0 Hrun.
  destruct (Site_init_inv _ _ _ _ _ _ H0 Hrun) as (_ & Hview & _).
  replace (map name (devices s)) with (map v_name (map switch_view (devices s)))
    by (rewrite map_map; reflexivity).
  rewrite devices_view, Hview, device_names_closed. apply NoDup_device_names.
Qed.

Lemma flat_map_ext_in {A B} (f g : A -> list B) l :
  (forall x, In x l -> f x = g x) -> flat_map f l = flat_map g l.
Proof.
  induction l as [|x l IH]; intros H; cbn [flat_map]; [reflexivity|].
  rewrite (H x) by now left. rewrite IH; [reflexivity|]. intros y Hy. apply H. now right.
Qed.

Lemma devices_length site D A st s st' :
  0 <= vlans_counter st ->
  Site_init site D A st = (Ok s, st') ->
  List.length (devices s) = (1 + Z.to_nat D * (1 + Z.to_nat A))%nat.
Proof.
  intros H0 Hrun. unfold devices. cbn [List.length].
  rewrite (flat_map_constant_length (c := S (Z.to_nat A))).
  - rewrite (distributions_length _ _ _ _ _ _ H0 Hrun). lia.
  - intros d Hd. apply In_nth_error in Hd. destruct Hd as (n & Hn).
    unfold distribution_devices. cbn [List.length]. rewrite length_map.
    now rewrite (accesses_length _ _ _ _ _ _ _ _ H0 Hrun Hn).
Qed.

(* ================================================================== *)
(** * [Site.dump_to_directory] *)

Section DumpFacts.

Variable render_ip_route : list RoutedVLAN -> list Route -> string.
Variable render_interfaces : list RoutedVLAN -> string.
Variable render_ip_interface : list RoutedVLAN -> string.

Local Abbreviation dump :=
  (dump_to_directory render_ip_route render_interfaces render_ip_interface)
  (only parsing).
Local Abbreviation dump_device :=
  (dump_to_director render_ip_route render_interfaces render_ip_interface)
  (only parsing).

(** The four calls made for one device whose directory is [p]. *)
Local Abbreviation device_calls p sw :=
  [Makedirs p;
   WriteFile (p ++ "/show ip route") (render_ip_route (routed_vlans sw)
                                                     (routes (routing_table sw)));
   WriteFile (p ++ "/show interfaces") (render_interfaces (routed_vlans sw));
   WriteFile (p ++ "/show ip interface") (render_ip_interface (routed_vlans sw))]
  (only parsing).

Lemma dump_devices s dir :
  dump s dir = flat_map (fun sw => dump_device sw (dump_target s dir)) (devices s).
Proof.
  unfold dump_to_directory, devices. cbn [flat_map]. f_equal.
  rewrite flat_map_flat_map. apply flat_map_ext. intros d.
  unfold distribution_devices. cbn [flat_map]. f_equal.
  now rewrite flat_map_of_map.
Qed.

Lemma dump_device_calls (sw : Switch) dir :
  name sw <> EmptyString -> endswith_sep (name sw) = false ->
  dump_device sw dir = device_calls (path_join dir (name sw)) sw.
Proof.
  intros Hne He. unfold dump_to_director, commands.
  destruct (path_join_suffix dir (name sw)) as (y & Hy).
  assert (Hp : path_join dir (name sw) <> EmptyString).
  { rewrite Hy. destruct y; [exact Hne|discriminate]. }
  assert (Hpe : endswith_sep (path_join dir (name sw)) = false).
  { rewrite Hy, endswith_sep_app by exact Hne. exact He. }
  cbn [map].
  rewrite !(path_join_file (path_join dir (name sw))) by (assumption || reflexivity).
  reflexivity.
Qed.

Lemma dump_by_device site D A st s st' dir :
  0 <= vlans_counter st ->
  Site_init site D A st = (Ok s, st') ->
  dump s dir
  = flat_map (fun sw => device_calls (path_join (dump_target s dir) (name sw)) sw)
             (devices s).
Proof.
  intros H0 Hrun. rewrite dump_devices. apply flat_map_ext_in. intros sw Hsw.
  destruct (device_name_facts _ _ _ _ _ _ _ H0 Hrun Hsw) as (Hne & He & _).
  now apply dump_device_calls.
Qed.

(** X16: for a finished site, [dump_to_directory] walks the devices in
    the order WAN switch, then each distribution followed by its
    accesses, and for each device makes the directory
    [join(directory, device name)] and then writes the three files
    [show ip route], [show interfaces] and [show ip interface] inside it,
    each with what the command renders for that device: four calls per
    device, [4 * (1 + D + D*A)] in all. *)
Theorem dump_calls (site : string) (D A : Z) (st : State) (s : Site) (st' : State)
    (dir : option string) :
  0 <= vlans_counter st ->
  Site_init site D A st = (Ok s, st') ->
  dump s dir
  = flat_map (fun sw =>
                let p := path_join (dump_target s dir) (name sw) in
                [Makedirs p;
                 WriteFile (p ++ "/show ip route")
                           (render_ip_route (routed_vlans sw) (routes (routing_table sw)));
                 WriteFile (p ++ "/show interfaces") (render_interfaces (routed_vlans sw));
                 WriteFile (p ++ "/show ip interface")
                           (render_ip_interface (routed_vlans sw))])
             (devices s)
  /\ Z.of_nat (List.length (dump s dir))
     = 4 * (1 + Z.max D 0 + Z.max D 0 * Z.max A 0).
Proof.
  intros H0 Hrun. split; [exact (dump_by_device _ _ _ _ _ _ dir H0 Hrun)|].
  rewrite (dump_by_device _ _ _ _ _ _ dir H0 Hrun).
  rewrite (flat_map_constant_length (c := 4%nat)) by reflexivity.
  rewrite (devices_length _ _ _ _ _ _ H0 Hrun). lia.
Qed.

Lemma path_join_device_inj site D A st s st' dir sw sw' :
  0 <= vlans_counter st ->
  Site_init site D A st = (Ok s, st') ->
  In sw (devices s) -> In sw' (devices s) ->
  path_join dir (name sw) = path_join dir (name sw') -> sw = sw'.
Proof.
  intros H0 Hrun Hsw Hsw' Heq.
  destruct (device_name_facts _ _ _ _ _ _ _ H0 Hrun Hsw) as (_ & _ & Hs).
  destruct (device_name_facts _ _ _ _ _ _ _ H0 Hrun Hsw') as (_ & _ & Hs').
  apply path_join_inj in Heq; [|congruence].
  exact (NoDup_map_In_inj name (devices s) sw sw'
           (NoDup_devices_names _ _ _ _ _ _ H0 Hrun) Hsw Hsw' Heq).
Qed.

(** X17: [dump_to_directory] of a finished site never makes the same
    directory twice and never writes the same file twice, whatever the
    site name and the target directory are: no device overwrites the
    output of another. *)
Theorem dump_paths_distinct (site : string) (D A : Z) (st : State) (s : Site)
    (st' : State) (dir : option string) :
  0 <= vlans_counter st ->
  Site_init site D A st = (Ok s, st') ->
  NoDup (flat_map made_directory (dump s dir))
  /\ NoDup (flat_map written_path (dump s dir)).
Proof.
  intros H0 Hrun. rewrite (dump_by_device _ _ _ _ _ _ dir H0 Hrun).
  rewrite !flat_map_flat_map.
  assert (Hdev : NoDup (devices s)).
  { apply NoDup_map_inv with (f := name). exact (NoDup_devices_names _ _ _ _ _ _ H0 Hrun). }
  split.
  - apply NoDup_flat_map_disjoint; [exact Hdev| |].
    + intros sw _. cbn. constructor; [intros []|constructor].
    + intros sw sw' b Hsw Hsw' [Hb|[]] [Hb'|[]]. rewrite <- Hb' in Hb.
      exact (path_join_device_inj _ _ _ _ _ _ _ _ _ H0 Hrun Hsw Hsw' Hb).
  - apply NoDup_flat_map_disjoint; [exact Hdev| |].
    + intros sw _. change (NoDup (map (fun cmd => (path_join (dump_target s dir) (name sw)
                                                   ++ String "/" cmd)%string)
                                      ["show ip route"%string; "show interfaces"%string;
                                       "show ip interface"%string])).
      apply NoDup_map_injective.
      * intros x y H. apply append_cancel_l in H. now injection H.
      * repeat constructor; cbn; intuition discriminate.
    + intros sw sw' b Hsw Hsw' Hb Hb'.
      change (In b (map (fun cmd => (path_join (dump_target s dir) (name sw)
                                     ++ String "/" cmd)%string)
                        ["show ip route"%string; "show interfaces"%string;
                         "show ip interface"%string])) in Hb.
      change (In b (map (fun cmd => (path_join (dump_target s dir) (name sw')
                                     ++ String "/" cmd)%string)
                        ["show ip route"%string; "show interfaces"%string;
                         "show ip interface"%string])) in Hb'.
      apply in_map_iff in Hb, Hb'.
      destruct Hb as (c & <- & Hc). destruct Hb' as (c' & Heq & Hc').
      apply split_at_last_sep in Heq.
      * destruct Heq as (Heq & _). symmetry in Heq.
        exact (path_join_device_inj _ _ _ _ _ _ _ _ _ H0 Hrun Hsw Hsw' Heq).
      * destruct Hc' as [<-|[<-|[<-|[]]]]; reflexivity.
      * destruct Hc as [<-|[<-|[<-|[]]]]; reflexivity.
Qed.

(** X18: where the dump goes.  The target is the directory given, or the
    site name when none (or the empty string) is given.  When the site
    name does not start with [/], every directory made and every file
    written lies under the target.  When the site name starts with [/],
    [os.path.join] drops the target: each device directory is the device
    name itself, an absolute path next to the site name. *)
Theorem dump_location (site : string) (D A : Z) (st : State) (s : Site)
    (st' : State) (dir : option string) :
  0 <= vlans_counter st ->
  Site_init site D A st = (Ok s, st') ->
  (dir = None \/ dir = Some EmptyString -> dump_target s dir = site)
  /\ (startswith_sep site = false ->
      Forall (fun c => Forall (startswith (dump_target s dir))
                              (made_directory c ++ written_path c))
             (dump s dir))
  /\ (startswith_sep site = true ->
      flat_map made_directory (dump s dir) = map name (devices s)).
Proof.
  intros H0 Hrun. split; [|split].
  - destruct (Site_init_inv _ _ _ _ _ _ H0 Hrun) as (_ & Hview & _).
    assert (Hn : site_name s = site) by exact (f_equal v_site_name Hview).
    intros [->| ->]; exact Hn.
  - intros Hrel. rewrite (dump_by_device _ _ _ _ _ _ dir H0 Hrun).
    apply Forall_flat_map. apply Forall_forall. intros sw Hsw.
    destruct (device_name_facts _ _ _ _ _ _ _ H0 Hrun Hsw) as (_ & _ & Hs).
    assert (Hp : startswith (dump_target s dir)
                            (path_join (dump_target s dir) (name sw))).
    { destruct (path_join_relative (dump_target s dir) (name sw)) as [H|H];
        [congruence| |]; rewrite H; eexists; reflexivity. }
    assert (Hfile : forall cmd, startswith (dump_target s dir)
                                  (path_join (dump_target s dir) (name sw) ++ cmd)).
    { intros cmd. destruct Hp as (rest & ->). exists (rest ++ cmd)%string.
      apply string_append_assoc. }
    repeat constructor; cbn [made_directory written_path app];
      repeat constructor; auto.
  - intros Habs. rewrite (dump_by_device _ _ _ _ _ _ dir H0 Hrun).
    rewrite flat_map_flat_map. rewrite flat_map_concat_map.
    rewrite (map_ext_in _ (fun sw => [name sw])).
    + rewrite <- flat_map_concat_map. clear.
      induction (devices s) as [|x l IH]; cbn [flat_map map app]; [reflexivity|].
      now rewrite IH.
    + intros sw Hsw.
      destruct (device_name_facts _ _ _ _ _ _ _ H0 Hrun Hsw) as (_ & _ & Hs).
      cbn. now rewrite path_join_absolute by congruence.
Qed.

End DumpFacts.

Lemma dump_calls_witness :
  exists s st',
    Site_init "lab" 2 3 fresh = (Ok s, st')
    /\ Z.of_nat (List.length (dump_to_directory (fun _ _ => "r"%string)
                                                 (fun _ => "i"%string)
                                                 (fun _ => "a"%string)
                                                 s (Some "out"%string))) = 36.
Proof.
  destruct (Site_init_returns "lab" 2 3 fresh ltac:(cbn; lia)) as (s & st' & Hrun).
  - unfold fits. cbn. lia.
  - exists s, st'. split; [exact Hrun|].
    exact (proj2 (dump_calls (fun _ _ => "r"%string) (fun _ => "i"%string)
                             (fun _ => "a"%string)
                             "lab" 2 3 fresh s st' (Some "out"%string)
                             ltac:(cbn; lia) Hrun)).
Defined.

Lemma dump_paths_distinct_witness :
  exists s st',
    Site_init "lab" 2 3 fresh = (Ok s, st')
    /\ NoDup (flat_map written_path
                       (dump_to_directory (fun _ _ => "r"%string) (fun _ => "i"%string)
                                          (fun _ => "a"%string) s (Some "out"%string))).
Proof.
  destruct (Site_init_returns "lab" 2 3 fresh ltac:(cbn; lia)) as (s & st' & Hrun).
  - unfold fits. cbn. lia.
  - exists s, st'. split; [exact Hrun|].
    exact (proj2 (dump_paths_distinct (fun _ _ => "r"%string) (fun _ => "i"%string)
                                      (fun _ => "a"%string)
                                      "lab" 2 3 fresh s st' (Some "out"%string)
                                      ltac:(cbn; lia) Hrun)).
Defined.

Lemma dump_location_witness :
  (exists s st',
      Site_init "lab" 2 3 fresh = (Ok s, st')
      /\ dump_target s None = "lab"%string)
  /\ (exists s st',
         Site_init "/srv/lab" 1 1 fresh = (Ok s, st')
         /\ flat_map made_directory
                     (dump_to_directory (fun _ _ => "r"%string) (fun _ => "i"%string)
                                        (fun _ => "a"%string) s (Some "/srv/lab"%string))
            = map name (devices s)).
Proof.
  split.
  - destruct (Site_init_returns "lab" 2 3 fresh ltac:(cbn; lia)) as (s & st' & Hrun).
    + unfold fits. cbn. lia.
    + exists s, st'. split; [exact Hrun|].
      apply (proj1 (dump_location (fun _ _ => "r"%string) (fun _ => "i"%string)
                                  (fun _ => "a"%string)
                                  "lab" 2 3 fresh s st' None ltac:(cbn; lia) Hrun)).
      now left.
  - destruct (Site_init_returns "/srv/lab" 1 1 fresh ltac:(cbn; lia)) as (s & st' & Hrun).
    + unfold fits. cbn. lia.
    + exists s, st'. split; [exact Hrun|].
      apply (proj2 (proj2 (dump_location (fun _ _ => "r"%string) (fun _ => "i"%string)
                                         (fun _ => "a"%string)
                                         "/srv/lab" 1 1 fresh s st' (Some "/srv/lab"%string)
                                         ltac:(cbn; lia) Hrun))).
      reflexivity.
Defined.
